(** * script.appcast: the DIAL server, its registry and its validation rules

    A shallow embedding of [resources/lib/servers/dial_server.py],
    [resources/lib/servers/dial_helper.py] and the helpers of
    [resources/lib/helpers/utils.py] they call, followed by the other pure
    helpers of [utils.py] ([fix_return_chars], [is_less_version]) and the
    query builders of [resources/lib/database/db_utils.py].

    - A Python [str] is a [string]: one character per element.  The request
      line and the headers reach the handler decoded as Latin-1, and a body
      is only ever decoded when it is ASCII, so every string the server
      builds itself stays in that range.
    - [bytes] is [list byte].
    - A raised exception is the [Raise] outcome of the result type [Res];
      code that also reads or writes the module globals ([MUTEX], [APPS]),
      the data folder or the connection lives in the monad [M], which keeps
      the state reached when an exception leaves a function.
    - The Python standard library ([urllib.parse], [re], [json], [float],
      [xml.sax.saxutils], [int]) and the Kodi host are interfaces ([Python],
      [Builtins], [Kodi]): every theorem holds for all their
      implementations. *)

From Stdlib Require Import ZArith Ascii String Floats Uint63.
From Stdlib.Strings Require Import Byte.
From stdpp Require Import base option strings list gmap pretty.

Local Open Scope Z_scope.
Local Open Scope string_scope.
Local Open Scope list_scope.

(** ** Python values *)

(** The exceptions that can travel through the server.  [AppError] is any
    [Exception] raised by a collaborator (a DIAL application callback). *)
Inductive PyExc : Type :=
| UnicodeDecodeError
| UnicodeEncodeError
| AttributeError
| ValueError
| IndexError
| RuntimeError
| ReError
| JSONDecodeError
| AppError (msg : string).

Inductive Res (A : Type) : Type :=
| Ok (a : A)
| Raise (e : PyExc).
Arguments Ok {A} a.
Arguments Raise {A} e.

Definition res_bind {A B} (r : Res A) (f : A -> Res B) : Res B :=
  match r with
  | Ok a => f a
  | Raise e => Raise e
  end.

Notation "'let?' x := r 'in' k" := (res_bind r (fun x => k))
  (at level 10, x name, r at level 100, k at level 200, only parsing).

(** [try: body except exc_type: handler] on pure code. *)
Definition res_try {A} (body : Res A) (handler : PyExc -> option (Res A)) : Res A :=
  match body with
  | Ok a => Ok a
  | Raise e => match handler e with
               | Some r => r
               | None => Raise e
               end
  end.

(** The two kinds of data [handle_dial_data] hands to [is_ascii]. *)
Inductive PyData : Type :=
| PyBytes (b : list byte)
| PyStr (s : string).

(** A [dict] with [str] keys, in insertion order. *)
Definition Dict : Type := list (string * string).
(** What [parse_qs] returns: every value is a list. *)
Definition QueryParams : Type := list (string * list string).

(** Truthiness of [None]/[str], of a list and of an integer. *)
Definition truthy_str (s : option string) : bool :=
  match s with
  | Some (String _ _) => true
  | _ => false
  end.

Definition truthy_list {A} (l : list A) : bool :=
  match l with
  | [] => false
  | _ => true
  end.

(** ** String operations of the built-in [str] *)

Definition startswith (s p : string) : bool := String.prefix p s.

Definition endswith (s suffix : string) : bool :=
  let n := String.length s in
  let m := String.length suffix in
  (m <=? n)%nat && String.eqb (substring (n - m) m s) suffix.

(** [s.split(sep)] for a one-character separator. *)
Fixpoint split (sep : ascii) (s : string) : list string :=
  match s with
  | EmptyString => [EmptyString]
  | String a r =>
      let parts := split sep r in
      if Ascii.eqb a sep then EmptyString :: parts
      else match parts with
           | p :: ps => String a p :: ps
           | [] => [String a EmptyString]
           end
  end.

(** [l[-k]] for [k >= 1]; [IndexError] when the list is shorter. *)
Definition index_from_end {A} (l : list A) (k : nat) : Res A :=
  match rev l !! (k - 1)%nat with
  | Some x => Ok x
  | None => Raise IndexError
  end.

(** [l[0]]. *)
Definition index0 {A} (l : list A) : Res A :=
  match l with
  | x :: _ => Ok x
  | [] => Raise IndexError
  end.

(** [s[:n]]. *)
Definition slice_to (n : nat) (s : string) : string := substring 0 n s.

(** [s.replace(old, new)]: every non-overlapping occurrence, left to right.
    [skip] counts the characters of a match that are still to be dropped. *)
Fixpoint replace_from (old new : string) (skip : nat) (s : string) : string :=
  match s with
  | EmptyString => EmptyString
  | String a r =>
      match skip with
      | S k => replace_from old new k r
      | O =>
          if String.prefix old s
          then new +:+ replace_from old new (String.length old - 1) r
          else String a (replace_from old new 0 r)
      end
  end.

Definition replace (old new s : string) : string :=
  match old with
  | EmptyString => s
  | _ => replace_from old new 0 s
  end.

(** [s.lower()] on the Latin-1 range. *)
Definition lower_char (c : ascii) : ascii :=
  let n := N_of_ascii c in
  if ((65 <=? n) && (n <=? 90))%N
     || ((192 <=? n) && (n <=? 222) && negb (n =? 215))%N
  then ascii_of_N (n + 32)
  else c.

Fixpoint lower (s : string) : string :=
  match s with
  | EmptyString => EmptyString
  | String c r => String (lower_char c) (lower r)
  end.

(** [dict.get(key, default)] on an insertion-ordered dict. *)
Fixpoint dict_get {V} (d : list (string * V)) (key : string) (default : V) : V :=
  match d with
  | [] => default
  | (k, v) :: r => if String.eqb k key then v else dict_get r key default
  end.

(** ** [helpers/utils.py] *)

(** Bytes a character takes in UTF-8 (code points below 256). *)
Definition utf8_len (c : ascii) : nat :=
  if (N_of_ascii c <? 128)%N then 1%nat else 2%nat.

(** [get_string_size]: [len(string_value.encode('utf-8'))]. *)
Fixpoint get_string_size (string_value : string) : Z :=
  match string_value with
  | EmptyString => 0
  | String c r => Z.of_nat (utf8_len c) + get_string_size r
  end.

(** Every byte is below 128. *)
Definition all_ascii (b : list byte) : bool :=
  forallb (fun x => (Byte.to_N x <? 128)%N) b.

(** [bytes.decode('ascii')]: [UnicodeDecodeError] on a byte above 127;
    a [str] has no [decode] attribute. *)
Definition decode_ascii (d : PyData) : Res string :=
  match d with
  | PyBytes b =>
      if all_ascii b
      then Ok (string_of_list_byte b)
      else Raise UnicodeDecodeError
  | PyStr _ => Raise AttributeError
  end.

(** [is_ascii]: the [except] clause names [UnicodeEncodeError] only. *)
Definition is_ascii (byte_string : PyData) : Res bool :=
  res_try (let? _ := decode_ascii byte_string in Ok true)
          (fun e => match e with
                    | UnicodeEncodeError => Some (Ok false)
                    | _ => None
                    end).

(** ** The interfaces the server is written against *)

(** The two attributes of [urlparse]'s result that the server reads. *)
Record ParseResult : Type := mkParseResult {
  url_path : string;
  url_query : string;
}.

(** The Python standard library.  [urlparse] raises [ValueError] on text
    it refuses (a network location with one bracket of a pair, for one);
    [float_of_str] is the built-in [float]
    on a [str] (binary64, [ValueError] when the text is no number);
    [re_match candidate origin] says whether [re.match] returned a match
    object ([re.error] on a malformed pattern); [json_loads] raises on text
    that is not JSON. *)
Class Python : Type := {
  urlparse : string -> Res ParseResult;
  parse_qs : string -> QueryParams;
  float_of_str : string -> Res float;
  re_match : string -> string -> Res bool;
  unquote : string -> string;
  escape : string -> string;
  json_dumps : Dict -> string;
  json_loads : string -> Res Dict;
}.

(** The Kodi host: [xbmc.getIPAddress()] and the device identity kept in
    the globals [G]. *)
Class Kodi : Type := {
  getIPAddress : string;
  SP_FRIENDLY_NAME : string;
  SP_MANUFACTURER_NAME : string;
  SP_MODEL_NAME : string;
  DEVICE_UUID : string;
}.

(** ** [dial_helper.py]: status values and response templates *)

Module DialStatus.
Definition STOPPED : Z := 0.
Definition HIDE : Z := 1.
Definition RUNNING : Z := 2.
Definition ERROR_NOT_IMPLEMENTED : Z := 3.
Definition ERROR_FORBIDDEN : Z := 4.
Definition ERROR_UNAUTH : Z := 5.
Definition ERROR : Z := 6.
End DialStatus.

(** What the handler writes to the connection: [call_error] (a status line
    through [send_response(code, message)]) or one of the templates with its
    [format] arguments.  [origin] is the header as read, [None] included. *)
Inductive Response : Type :=
| ErrorResponse (code : Z) (message : string)
| OPTIONS_RESPONSE (origin : option string) (methods : string)
| STOP_RESPONSE (origin : option string)
| CREATED_RESPONSE (address : string) (dial_port : Z) (app_name : string)
                   (origin : option string)
| STATUS_RESPONSE (origin : option string)
                  (dial_version app_name can_stop dial_state link dial_data : string)
| RESPONSE_OK (origin : option string)
| DD_XML (ip_addr : string) (dial_port : Z)
         (friendly_name manufacturer_name model_name device_uuid : string).

(** The status code on the first line of each template. *)
Definition status_code (r : Response) : Z :=
  match r with
  | ErrorResponse code _ => code
  | OPTIONS_RESPONSE _ _ => 204
  | STOP_RESPONSE _ => 200
  | CREATED_RESPONSE _ _ _ _ => 201
  | STATUS_RESPONSE _ _ _ _ _ _ _ => 200
  | RESPONSE_OK _ => 200
  | DD_XML _ _ _ _ _ _ => 200
  end.

(** ** The data model *)

(** A DIAL application class: its configuration variables and its DIAL
    callbacks, each with the outcome (a value or an exception) the
    collaborator gives when the server calls it. *)
Record AppClass : Type := mkAppClass {
  KODI_ADDON_ID : option string;
  DIAL_APP_NAME : option string;
  DIAL_ORIGINS : list string;
  USE_ADDITIONAL_DATA : bool;
  ENABLE_DATABASE : bool;
  dial_cb_start : string -> QueryParams -> option string -> Res Z;
  dial_cb_stop : Res unit;
  dial_cb_status : Res Z;
  dial_cb_hide : Res Z;
}.

(** An instance, with the variables the server owns. *)
Record DialApp : Type := mkDialApp {
  cls : AppClass;
  db : option string;
  state : Z;
  last_payload : option string;
  dial_data : Dict;
}.

Definition set_state (v : Z) (a : DialApp) : DialApp :=
  mkDialApp (cls a) (db a) v (last_payload a) (dial_data a).
Definition set_last_payload (v : option string) (a : DialApp) : DialApp :=
  mkDialApp (cls a) (db a) (state a) v (dial_data a).
Definition set_dial_data (v : Dict) (a : DialApp) : DialApp :=
  mkDialApp (cls a) (db a) (state a) (last_payload a) v.

Inductive LogRecord : Type :=
| LOG_error (text : string) (exc : option PyExc)
| LOG_warn (text : string)
| LOG_info (text : string).

(** The module globals [MUTEX] ([true]: locked) and [APPS], the files of the
    data folder, what was written to the connection, and the log. *)
Record World : Type := mkWorld {
  MUTEX : bool;
  APPS : list DialApp;
  FILES : gmap string string;
  wfile : list Response;
  LOG : list LogRecord;
}.

Definition set_MUTEX (v : bool) (w : World) : World :=
  mkWorld v (APPS w) (FILES w) (wfile w) (LOG w).
Definition set_APPS (v : list DialApp) (w : World) : World :=
  mkWorld (MUTEX w) v (FILES w) (wfile w) (LOG w).
Definition set_FILES (v : gmap string string) (w : World) : World :=
  mkWorld (MUTEX w) (APPS w) v (wfile w) (LOG w).
Definition set_wfile (v : list Response) (w : World) : World :=
  mkWorld (MUTEX w) (APPS w) (FILES w) v (LOG w).
Definition set_LOG (v : list LogRecord) (w : World) : World :=
  mkWorld (MUTEX w) (APPS w) (FILES w) (wfile w) v.

(** ** The monad of the server code *)

Definition M (A : Type) : Type := World -> Res A * World.

Definition ret {A} (a : A) : M A := fun w => (Ok a, w).

Definition bind {A B} (m : M A) (f : A -> M B) : M B := fun w =>
  match m w with
  | (Ok a, w') => f a w'
  | (Raise e, w') => (Raise e, w')
  end.

Notation "'do' x <- m ; k" := (bind m (fun x => k))
  (at level 10, x name, m at level 100, k at level 200, only parsing).

Definition lift {A} (r : Res A) : M A := fun w => (r, w).

(** [try: body except Exception as exc: handler(exc)]. *)
Definition try_except {A} (body : M A) (handler : PyExc -> M A) : M A :=
  fun w =>
    match body w with
    | (Ok a, w') => (Ok a, w')
    | (Raise e, w') => handler e w'
    end.

Definition get_APPS : M (list DialApp) := fun w => (Ok (APPS w), w).

(** [MUTEX.acquire(False)]: never blocks; [False] when the lock is taken. *)
Definition MUTEX_acquire_nonblocking : M bool := fun w =>
  if MUTEX w then (Ok false, w) else (Ok true, set_MUTEX true w).

(** [MUTEX.release()]: [RuntimeError] on an unlocked lock. *)
Definition MUTEX_release : M unit := fun w =>
  if MUTEX w then (Ok tt, set_MUTEX false w) else (Raise RuntimeError, w).

Definition call_error (code : Z) (message : string) : M unit := fun w =>
  (Ok tt, set_wfile (wfile w ++ [ErrorResponse code message]) w).

Definition call_response (data : Response) : M unit := fun w =>
  (Ok tt, set_wfile (wfile w ++ [data]) w).

Definition LOGGER (r : LogRecord) : M unit := fun w =>
  (Ok tt, set_LOG (LOG w ++ [r]) w).

(** An attribute assignment [app.attr = v] on the object at index [i] of
    [APPS]: the list holds the object, so the registry sees the write. *)
Definition update_app (i : nat) (f : DialApp -> DialApp) : M unit := fun w =>
  (Ok tt, set_APPS (alter f i (APPS w)) w).

(** [APPS.append(_app)]. *)
Definition APPS_append (_app : DialApp) : M unit := fun w =>
  (Ok tt, set_APPS (APPS w ++ [_app]) w).

Definition get_app (i : nat) : M DialApp := fun w =>
  match APPS w !! i with
  | Some a => (Ok a, w)
  | None => (Raise IndexError, w)
  end.

(** ** [helpers/file_ops.py] *)

(** Modelled from the spec: [file_ops.save_file_def], [file_ops.file_exists]
    and [file_ops.load_file_def] are not among the sources.  The spec gives
    the collaborator as "a file-backed store for dial-data blobs (load/save
    by application name)": a finite map from file path to content, where a
    saved file exists and loads back as it was saved. *)
Definition save_file_def (filename content : string) : M unit := fun w =>
  (Ok tt, set_FILES (<[filename := content]> (FILES w)) w).

(** Modelled from the spec: see [save_file_def]. *)
Definition file_exists (file_path : string) : M bool := fun w =>
  (Ok (bool_decide (is_Some (FILES w !! file_path))), w).

(** Modelled from the spec: see [save_file_def]. *)
Definition load_file_def (filename : string) : M string := fun w =>
  match FILES w !! filename with
  | Some content => (Ok content, w)
  | None => (Raise (AppError "No such file"), w)
  end.

(** ** Constants of [dial_server.py] *)

Definition DIAL_VERSION : string := "2.2".
Definition DIAL_MAX_PAYLOAD : Z := 4096.
Definition DIAL_MAX_ADDITIONALURL : Z := 1024.
Definition DIAL_DATA_SIZE : Z := 8 * 1024.
Definition DIAL_DATA_MAX_PAYLOAD : Z := 4096.

Definition RUN_URI : string := "/run".
Definition APPS_URI : string := "/apps/".
Definition HIDE_URI : string := "/hide".
Definition DIAL_DATA_URI : string := "/dial_data".

(** [G.DIAL_SERVER_PORT]. *)
Definition DIAL_SERVER_PORT : Z := 56789.

Definition CRLF : string := String "013"%char (String "010"%char EmptyString).
Definition DQUOTE : string := String "034"%char EmptyString.

(** The literal [2.09] of [handle_app_status], as binary64. *)
Definition lit_2_09 : float := 0x1.0b851eb851eb8p+1%float.

(** The request as the HTTP server hands it to the handler: the request line,
    the peer address ([client_address[0]]), the headers the handler reads and
    the bytes that can be read from the connection.
    [header_content_length] is the outcome of
    [int(self.headers.get('content-length', 0))]: the number the header
    holds (0 without the header), or the [ValueError] of [int]. *)
Record Request : Type := mkRequest {
  command : string;
  raw_path : string;
  client_ip : string;
  header_Origin : option string;
  header_Host : option string;
  header_content_length : Res Z;
  rfile : list byte;
}.

(** The attributes of the [DSHttpRequestHandler] instance ("server") that
    the handlers read. *)
Record Handler : Type := mkHandler {
  path : string;
  client_address : string;
  query_params : QueryParams;
  body_data_size : Z;
  body_data : list byte;
}.

(** [rfile.read(n)] on a buffered reader: up to [n] bytes, everything that
    arrives when [n] is [-1], and [ValueError] for any other negative [n]. *)
Definition rfile_read (n : Z) (stream : list byte) : Res (list byte) :=
  if (n <? -1)%Z then Raise ValueError
  else if (n =? -1)%Z then Ok stream
  else Ok (take (Z.to_nat n) stream).

(** ** More of [helpers/utils.py] *)

(** The characters at which [str.splitlines] ends a line, among the code
    points below 256: LF, CR, VT, FF, FS, GS, RS and NEL. *)
Definition is_line_boundary (c : ascii) : bool :=
  existsb (Ascii.eqb c) ["010"; "013"; "011"; "012"; "028"; "029"; "030"; "133"]%char.

(** [s.splitlines()]: the lines of [s] without their line breaks; CR LF is
    one break, and a break at the very end opens no further line. *)
Fixpoint splitlines (s : string) : list string :=
  match s with
  | EmptyString => []
  | String c r =>
      if is_line_boundary c then
        match r with
        | String c2 r2 =>
            if Ascii.eqb c "013" && Ascii.eqb c2 "010"
            then EmptyString :: splitlines r2
            else EmptyString :: splitlines r
        | EmptyString => [EmptyString]
        end
      else
        match splitlines r with
        | [] => [String c EmptyString]
        | line :: lines => String c line :: lines
        end
  end.

(** [sep.join(l)]. *)
Fixpoint join (sep : string) (l : list string) : string :=
  match l with
  | [] => EmptyString
  | x :: rest =>
      match rest with
      | [] => x
      | _ :: _ => x +:+ sep +:+ join sep rest
      end
  end.

(** [fix_return_chars]. *)
Definition fix_return_chars (string_value : string) : string :=
  join CRLF (splitlines string_value).

(** Every line break of [s] is a CR LF pair: no other line boundary occurs,
    and neither CR nor LF occurs on its own. *)
Fixpoint crlf_only (s : string) : bool :=
  match s with
  | EmptyString => true
  | String c r =>
      if is_line_boundary c then
        match r with
        | String c2 r2 => Ascii.eqb c "013" && Ascii.eqb c2 "010" && crlf_only r2
        | EmptyString => false
        end
      else crlf_only r
  end.

(** No character of [s] is a line boundary. *)
Fixpoint one_line (s : string) : bool :=
  match s with
  | EmptyString => true
  | String c r => negb (is_line_boundary c) && one_line r
  end.

(** The text [s] read character by character, with no list of lines in
    between: a character that is no line boundary is copied; a line break
    (CR LF as one, any other boundary on its own) becomes CR LF when text
    follows it, and is dropped when it ends the text. *)
Fixpoint crlf_text (s : string) : string :=
  match s with
  | EmptyString => EmptyString
  | String c r =>
      if is_line_boundary c then
        match r with
        | EmptyString => EmptyString
        | String c2 r2 =>
            if Ascii.eqb c "013" && Ascii.eqb c2 "010"
            then match r2 with
                 | EmptyString => EmptyString
                 | String _ _ => CRLF +:+ crlf_text r2
                 end
            else CRLF +:+ crlf_text r
        end
      else String c (crlf_text r)
  end.

(** The characters of [s] that are no line boundaries, in their order. *)
Fixpoint line_characters (s : string) : list ascii :=
  match s with
  | EmptyString => []
  | String c r => if is_line_boundary c then line_characters r else c :: line_characters r
  end.

(** Python's [int] on a [str], the library's. *)
Class Builtins : Type := {
  int : string -> Res Z
}.

(** [list(map(f, l))]: the first element [f] raises on ends the run. *)
Fixpoint map_res {A B} (f : A -> Res B) (l : list A) : Res (list B) :=
  match l with
  | [] => Ok []
  | x :: rest =>
      let? y := f x in
      let? ys := map_res f rest in
      Ok (y :: ys)
  end.

(** [a < b] on lists of integers: the first position at which they differ
    decides; a proper prefix is smaller. *)
Fixpoint list_lt (a b : list Z) : bool :=
  match a, b with
  | _, [] => false
  | [], _ :: _ => true
  | x :: a', y :: b' => if (x =? y)%Z then list_lt a' b' else (x <? y)%Z
  end.

(** [is_less_version]. *)
Definition is_less_version `{Builtins} (version max_version : string) : Res bool :=
  let? v := map_res int (split "." version) in
  let? m := map_res int (split "." max_version) in
  Ok (list_lt v m).

(** ** [database/db_utils.py] *)

(** A value bound to a column: [None] is Python's [None]. *)
Definition SqlValues (V : Type) : Type := list (option V).

(** The loop shared by [sql_filtered_update] and [sql_filtered_insert],
    over the indices [range(len(set_columns) - 1, -1, -1)] fixed before it
    starts: [values[index]] is read ([IndexError] when the list is
    shorter), and both lists lose the position when it holds [None].  The
    lists are the caller's own, changed in place. *)
Fixpoint drop_None_loop {V} (indices : list nat) (set_columns : list string)
    (values : SqlValues V) : Res (list string * SqlValues V) :=
  match indices with
  | [] => Ok (set_columns, values)
  | index :: rest =>
      match values !! index with
      | None => Raise IndexError
      | Some None => drop_None_loop rest (delete index set_columns) (delete index values)
      | Some (Some _) => drop_None_loop rest set_columns values
      end
  end.

Definition drop_None {V} (set_columns : list string) (values : SqlValues V)
    : Res (list string * SqlValues V) :=
  drop_None_loop (rev (seq 0 (length set_columns))) set_columns values.

(** [sql_filtered_insert]: the query and the values to bind. *)
Definition sql_filtered_insert {V} (table : string) (set_columns : list string)
    (values : SqlValues V) : Res (string * SqlValues V) :=
  let? kept := drop_None set_columns values in
  let '(set_columns, values) := kept in
  let values_fields := replicate (length set_columns) "?" in
  Ok ("INSERT INTO " +:+ table +:+ " (" +:+ join ", " set_columns
        +:+ ") VALUES (" +:+ join ", " values_fields +:+ ")",
      values).

(** [sql_filtered_update]. *)
Definition sql_filtered_update {V} (table : string) (set_columns where_columns : list string)
    (values : SqlValues V) : Res (string * SqlValues V) :=
  let? kept := drop_None set_columns values in
  let '(set_columns, values) := kept in
  let set_columns := map (fun col => col +:+ " = ?") set_columns in
  let where_columns := map (fun col => col +:+ " = ?") where_columns in
  Ok ("UPDATE " +:+ table +:+ " SET " +:+ join ", " set_columns
        +:+ " WHERE " +:+ join " AND " where_columns,
      values).

(** The columns of [set_columns] whose value is not [None], each with its
    value. *)
Definition bound_columns {V} (set_columns : list string) (values : SqlValues V)
    : list (string * option V) :=
  filter (fun cv => is_Some cv.2) (zip set_columns values).

(** ** A reference implementation of the interfaces

    Used for the worked examples only.  Each function agrees with the Python
    library on the inputs named in its comment and is not used by any general
    theorem. *)
Module Reference.

(** [s.partition(c)]: the text before the first [c], and the text after it
    when there is one. *)
Fixpoint cut (c : ascii) (s : string) : string * option string :=
  match s with
  | EmptyString => (EmptyString, None)
  | String a r =>
      if Ascii.eqb a c then (EmptyString, Some r)
      else let '(before, after) := cut c r in (String a before, after)
  end.

Fixpoint contains (c : ascii) (s : string) : bool :=
  match s with
  | EmptyString => false
  | String a r => Ascii.eqb a c || contains c r
  end.

(** [urlparse] on a target with no scheme and no [;params]: the fragment
    goes first, then the query; after a leading [//] comes the network
    location, up to the next [/], and [ValueError] when it holds one
    bracket of a pair without the other.  A bracketed host is not looked
    at further. *)
Definition urlparse (url : string) : Res ParseResult :=
  let '(no_fragment, _) := cut "#" url in
  let '(p, q) := cut "?" no_fragment in
  match p with
  | String "/" (String "/" rest) =>
      let '(netloc, after) := cut "/" rest in
      if xorb (contains "[" netloc) (contains "]" netloc) then Raise ValueError
      else Ok (mkParseResult
                 (match after with Some a => String "/" a | None => "" end)
                 (default "" q))
  | _ => Ok (mkParseResult p (default "" q))
  end.

(** [parsed_result[name].append(value)], keys in order of first appearance. *)
Fixpoint add_value (d : QueryParams) (name value : string) : QueryParams :=
  match d with
  | [] => [(name, [value])]
  | (k, vs) :: r =>
      if String.eqb k name then (k, (vs ++ [value])%list) :: r
      else (k, vs) :: add_value r name value
  end.

(** [parse_qs] on a query without percent escapes or [+]: fields are split at
    [&], a field without [=] or with a blank value is skipped. *)
Definition parse_qs (qs : string) : QueryParams :=
  foldl (fun d field =>
           match cut "=" field with
           | (name, Some (String _ _ as value)) => add_value d name value
           | _ => d
           end) [] (split "&" qs).

Definition digit_of (c : ascii) : option Z :=
  let n := Z.of_N (N_of_ascii c) in
  if ((48 <=? n) && (n <=? 57))%Z then Some (n - 48)%Z else None.

(** The digits of [s] as a number, with how many there are. *)
Fixpoint digits_of (s : string) (acc : Z) (count : nat) : option (Z * nat) :=
  match s with
  | EmptyString => Some (acc, count)
  | String c r =>
      match digit_of c with
      | Some d => digits_of r (10 * acc + d)%Z (S count)
      | None => None
      end
  end.

(** [float] on an unsigned decimal numeral of at most fifteen digits: both
    the digits and the power of ten are exact in binary64, so their quotient
    is the nearest binary64 number, as Python computes it. *)
Definition float_of_str (s : string) : Res float :=
  let '(int_part, frac) := cut "." s in
  let frac_part := default "" frac in
  match digits_of (int_part +:+ frac_part) 0 0 with
  | Some (n, count) =>
      if (count =? 0)%nat || (15 <? count)%nat then Raise ValueError
      else Ok (PrimFloat.div (PrimFloat.of_uint63 (Uint63.of_Z n))
                 (PrimFloat.of_uint63
                    (Uint63.of_Z (10 ^ Z.of_nat (String.length frac_part)))))
  | None => Raise ValueError
  end.

Definition is_re_special (c : ascii) : bool :=
  existsb (Ascii.eqb c)
    (list_ascii_of_string "\^$*+?{}[]()|").

(** [re.match] for a pattern of literal characters and [.] (any character but
    a newline); a pattern with another special character is outside this
    implementation and reported as [ReError]. *)
Fixpoint re_match (pattern text : string) : Res bool :=
  match pattern with
  | EmptyString => Ok true
  | String p pattern' =>
      if is_re_special p then Raise ReError
      else match text with
           | EmptyString =>
               let? _ := re_match pattern' EmptyString in Ok false
           | String t text' =>
               if (Ascii.eqb p "." && negb (Ascii.eqb t "010")) || Ascii.eqb p t
               then re_match pattern' text'
               else let? _ := re_match pattern' EmptyString in Ok false
           end
  end.

(** [unquote] on text without percent escapes. *)
Definition unquote (s : string) : string := s.

(** [xml.sax.saxutils.escape]. *)
Fixpoint escape (s : string) : string :=
  match s with
  | EmptyString => EmptyString
  | String c r =>
      (if Ascii.eqb c "&" then "&amp;"
       else if Ascii.eqb c ">" then "&gt;"
       else if Ascii.eqb c "<" then "&lt;"
       else String c EmptyString) +:+ escape r
  end.

Definition hex_digit (n : N) : ascii :=
  if (n <? 10)%N then ascii_of_N (48 + n) else ascii_of_N (87 + n).

Definition hex_value (c : ascii) : option N :=
  let n := N_of_ascii c in
  if ((48 <=? n) && (n <=? 57))%N then Some (n - 48)%N
  else if ((97 <=? n) && (n <=? 102))%N then Some (n - 87)%N
  else if ((65 <=? n) && (n <=? 70))%N then Some (n - 55)%N
  else None.

(** [json.dumps] of a [str] (with [ensure_ascii]), without the quotes. *)
Fixpoint json_escape (s : string) : string :=
  match s with
  | EmptyString => EmptyString
  | String c r =>
      let n := N_of_ascii c in
      (if Ascii.eqb c "034" then "\" +:+ DQUOTE
       else if Ascii.eqb c "\" then "\\"
       else if Ascii.eqb c "010" then "\n"
       else if Ascii.eqb c "013" then "\r"
       else if Ascii.eqb c "009" then "\t"
       else if Ascii.eqb c "008" then "\b"
       else if Ascii.eqb c "012" then "\f"
       else if ((32 <=? n) && (n <=? 126))%N then String c EmptyString
       else "\u00" +:+ String (hex_digit (n / 16)) (String (hex_digit (n mod 16)) EmptyString))
      +:+ json_escape r
  end.

Fixpoint json_items (d : Dict) : string :=
  match d with
  | [] => ""
  | [(k, v)] => DQUOTE +:+ json_escape k +:+ DQUOTE +:+ ": " +:+ DQUOTE +:+ json_escape v +:+ DQUOTE
  | (k, v) :: r =>
      DQUOTE +:+ json_escape k +:+ DQUOTE +:+ ": " +:+ DQUOTE +:+ json_escape v +:+ DQUOTE
      +:+ ", " +:+ json_items r
  end.

(** [json.dumps] of a dict of strings. *)
Definition json_dumps (d : Dict) : string := "{" +:+ json_items d +:+ "}".

(** A JSON string from after its opening quote: the text and what follows
    the closing quote. *)
Fixpoint json_string (s : string) : option (string * string) :=
  match s with
  | EmptyString => None
  | String "034" r => Some (EmptyString, r)
  | String "\" (String "u" (String a (String b (String c (String d r))))) =>
      match hex_value a, hex_value b, hex_value c, hex_value d, json_string r with
      | Some 0%N, Some 0%N, Some h, Some l, Some (t, rest) =>
          Some (String (ascii_of_N (16 * h + l)) t, rest)
      | _, _, _, _, _ => None
      end
  | String "\" (String e r) =>
      let unescaped :=
        if Ascii.eqb e "n" then Some "010"%char
        else if Ascii.eqb e "r" then Some "013"%char
        else if Ascii.eqb e "t" then Some "009"%char
        else if Ascii.eqb e "b" then Some "008"%char
        else if Ascii.eqb e "f" then Some "012"%char
        else if Ascii.eqb e "034" || Ascii.eqb e "\" || Ascii.eqb e "/" then Some e
        else None in
      match unescaped, json_string r with
      | Some c, Some (t, rest) => Some (String c t, rest)
      | _, _ => None
      end
  | String c r =>
      if (N_of_ascii c <? 32)%N then None
      else match json_string r with
           | Some (t, rest) => Some (String c t, rest)
           | None => None
           end
  end.

Fixpoint skip_spaces (s : string) : string :=
  match s with
  | String " " r => skip_spaces r
  | _ => s
  end.

(** The members of an object from after [{] or [,]; [fuel] bounds the number
    of members. *)
Fixpoint json_members (fuel : nat) (s : string) : option Dict :=
  match fuel with
  | O => None
  | S fuel' =>
      match skip_spaces s with
      | String "034" r =>
          match json_string r with
          | Some (k, after_key) =>
              match skip_spaces after_key with
              | String ":" r' =>
                  match skip_spaces r' with
                  | String "034" r'' =>
                      match json_string r'' with
                      | Some (v, after_value) =>
                          match skip_spaces after_value with
                          | String "," more =>
                              match json_members fuel' more with
                              | Some d => Some ((k, v) :: d)
                              | None => None
                              end
                          | String "}" more =>
                              match skip_spaces more with
                              | EmptyString => Some [(k, v)]
                              | _ => None
                              end
                          | _ => None
                          end
                      | None => None
                      end
                  | _ => None
                  end
              | _ => None
              end
          | None => None
          end
      | _ => None
      end
  end.

(** [json.loads] on an object whose keys are distinct and whose values are
    strings of characters below 256. *)
Definition json_loads (s : string) : Res Dict :=
  match skip_spaces s with
  | String "{" r =>
      match skip_spaces r with
      | String "}" more =>
          match skip_spaces more with
          | EmptyString => Ok []
          | _ => Raise JSONDecodeError
          end
      | members =>
          match json_members (String.length s) members with
          | Some d => Ok d
          | None => Raise JSONDecodeError
          end
      end
  | _ => Raise JSONDecodeError
  end.

Definition python : Python :=
  Build_Python urlparse parse_qs float_of_str re_match unquote escape
    json_dumps json_loads.

Definition kodi : Kodi :=
  Build_Kodi "192.168.1.20" "Kodi (AppCast)" " " "MyDeviceModel"
    "00000000-0000-0000-0000-000000000000".

End Reference.

(** A reference implementation of [Builtins], for the worked examples. *)
Module ReferenceBuiltins.

(** [int] on an unsigned decimal numeral; other text (a sign, blanks or
    underscores, which Python accepts in places) is outside this
    implementation and reported as [ValueError]. *)
Definition int (s : string) : Res Z :=
  match Reference.digits_of s 0 0 with
  | Some (n, S _) => Ok n
  | _ => Raise ValueError
  end.

Definition builtins : Builtins := Build_Builtins int.

End ReferenceBuiltins.

(** ** Sample inputs for the worked examples *)
Module Samples.

(** A class in the shape of [dial_app_test.DialApp], named [Test], with the
    given allowed origins and the given callback outcomes. *)
Definition test_class (origins : list string) (start status hide : Res Z) : AppClass :=
  mkAppClass (Some "plugin.video.test") (Some "Test") origins false false
    (fun _ _ _ => start) (Ok tt) status hide.

(** The registry right after [Test] was registered, the lock free or held. *)
Definition world (locked : bool) (c : AppClass) : World :=
  mkWorld locked [mkDialApp c None DialStatus.STOPPED None []] ∅ [] [].

(** The literal [2.1] as binary64. *)
Definition lit_2_1 : float := 0x1.0cccccccccccdp+1%float.

(** A well-formed request: [Content-Length] is the length of the body. *)
Definition request (method target client : string) (origin : option string)
    (body : list byte) : Request :=
  mkRequest method target client origin None (Ok (Z.of_nat (length body))) body.


(** The callbacks of [dial_app_test.DialApp] when the add-on is enabled: start
    reports [RUNNING], status [STOPPED], hide [ERROR_NOT_IMPLEMENTED]. *)
Definition plain : AppClass :=
  test_class [] (Ok DialStatus.RUNNING) (Ok DialStatus.STOPPED)
    (Ok DialStatus.ERROR_NOT_IMPLEMENTED).

(** The instance [register_app] makes of a class that has no stored data. *)
Definition instance (c : AppClass) : DialApp :=
  mkDialApp c None DialStatus.STOPPED None [].

(** A server with nothing registered and an empty data folder. *)
Definition empty_world : World := mkWorld false [] ∅ [] [].

(** A client on the local network, not the device itself. *)
Definition phone : string := "192.168.1.30".

(** An application name of 987 letters. *)
Definition long_name : string := string_of_list_ascii (replicate (Z.to_nat 987) "N"%char).

(** A class registered under [long_name] that asks for the additional-data
    URL. *)
Definition long_named : AppClass :=
  mkAppClass (Some "plugin.video.test") (Some long_name) [] true false
    (fun _ _ _ => Ok DialStatus.RUNNING) (Ok tt) (Ok DialStatus.STOPPED)
    (Ok DialStatus.ERROR_NOT_IMPLEMENTED).

(** A value of 9000 letters. *)
Definition long_value : string := string_of_list_ascii (replicate (Z.to_nat 9000) "v"%char).

(** The registry holding one instance of [c] whose stored data is [data],
    the lock free. *)
Definition world_with_data (c : AppClass) (data : Dict) : World :=
  mkWorld false [mkDialApp c None DialStatus.STOPPED None data] ∅ [] [].

End Samples.

(** ** Proof automation *)

(** One step of a run: rewrite with the equation [L] of the step, then reduce
    the test on its result. *)
Tactic Notation "step" open_constr(L) := rewrite L; cbn [negb]; cbv beta iota.

(** Finishes a goal about a run that is determined: the world is opened and
    the run is computed. *)
Ltac compute_run w := destruct w; cbn in *; subst; cbn.


(** Opens every test a run is stuck on, innermost first. *)
Ltac open_run :=
  repeat first
    [ progress cbn
    | match goal with
      | |- context [match ?x with _ => _ end] =>
          lazymatch x with
          | context [match _ with _ => _ end] => fail
          | negb ?y => destruct y eqn:?
          | _ => destruct x eqn:?
          end
      end ].

Section DialServer.
Context {py : Python} {host : Kodi}.

(** ** [dial_helper.py]: the DIAL data store *)

Definition store_dial_data (app_name : string) (data : Dict) : M unit :=
  let file_path := "dial_data/" +:+ app_name +:+ ".json" in
  save_file_def file_path (json_dumps data).

Definition retrieve_dial_data (app_name : string) : M Dict :=
  let file_path := "dial_data/" +:+ app_name +:+ ".json" in
  do found <- file_exists file_path;
  if negb found then ret []
  else
    do data <- load_file_def file_path;
    lift (json_loads data).

(** [utils.url_decode_xml_encode]. *)
Definition url_decode_xml_encode (string_value : string) : string :=
  escape (unquote string_value).

(** ** The Origin Validator *)

Definition host_matches (origin candidate : string) : bool := true.

Definition origin_matches (origin candidate : string) : Res bool :=
  re_match candidate origin.

(** The [for candidate in origin_list] loop of [is_uri_in_list]. *)
Fixpoint is_uri_in_list_loop (is_https : bool) (origin : string)
    (origin_list : list string) : Res bool :=
  match origin_list with
  | [] => Ok false
  | candidate :: rest =>
      let test : Res bool :=
        if is_https then Ok (host_matches origin candidate)
        else origin_matches origin candidate in
      let? hit := test in
      if hit then Ok true else is_uri_in_list_loop is_https origin rest
  end.

Definition is_uri_in_list (origin : string) (origin_list : list string) : Res bool :=
  if negb (truthy_str (Some origin)) || negb (truthy_list origin_list) then Ok false
  else
    let is_https := startswith origin "https://" in
    is_uri_in_list_loop is_https origin origin_list.

(** The [for app in APPS] loop of [is_allowed_origin]. *)
Fixpoint is_allowed_origin_loop (origin app_name : string) (apps : list DialApp)
    : Res bool :=
  match apps with
  | [] => Ok false
  | app :: rest =>
      if bool_decide (Some app_name = DIAL_APP_NAME (cls app)) then
        if truthy_list (DIAL_ORIGINS (cls app)) then
          let? hit := is_uri_in_list origin (DIAL_ORIGINS (cls app)) in
          if hit then Ok true else is_allowed_origin_loop origin app_name rest
        else is_allowed_origin_loop origin app_name rest
      else is_allowed_origin_loop origin app_name rest
  end.

Definition is_allowed_origin (origin : option string) (app_name : string) : M bool :=
  match origin with
  | Some (String _ _ as o) =>
      do locked <- MUTEX_acquire_nonblocking;
      if negb locked then ret false
      else
        do apps <- get_APPS;
        do result <- lift (is_allowed_origin_loop o app_name apps);
        do _ <- MUTEX_release;
        ret result
  | _ => ret true
  end.

(** ** The Application Registry *)

(** [find_app]: the first application of [APPS] with that name; the result is
    the object itself, here its position in [APPS]. *)
Definition find_app (app_name : string) : M (option nat) := fun w =>
  (Ok (fst <$> list_find (fun a => DIAL_APP_NAME (cls a) = Some app_name) (APPS w)), w).

(** [register_app].  The two constructors it calls, [SQLiteDatabase(...)] and
    [app_class(kodi_interface, database)], are the collaborators' and are
    taken to return; the database handle is kept as the name of its file. *)
Definition register_app (app_class : AppClass) : M unit :=
  if negb (truthy_str (KODI_ADDON_ID app_class))
     || negb (truthy_str (DIAL_APP_NAME app_class))
  then
    LOGGER (LOG_error "register_app: KODI_ADDON_ID or DIAL_APP_NAME not specified" None)
  else
    let name := default "" (DIAL_APP_NAME app_class) in
    do apps <- get_APPS;
    match list_find (fun a => DIAL_APP_NAME (cls a) = DIAL_APP_NAME app_class) apps with
    | Some _ =>
        LOGGER (LOG_warn "register_app: skipped DIAL app is already registered")
    | None =>
        let database :=
          if ENABLE_DATABASE app_class
          then Some ("app_" +:+ lower name +:+ ".sqlite3")
          else None in
        do data <- retrieve_dial_data name;
        let _app := mkDialApp app_class database DialStatus.STOPPED None data in
        do _ <- APPS_append _app;
        LOGGER (LOG_info "Registered DIAL app")
    end.

(** ** The handlers *)

(** The [for key, value in app.dial_data.items()] loop of
    [handle_app_status].  With [str] keys and values nothing in it raises, so
    the [except Exception] branch around it is never taken. *)
Fixpoint status_dial_data (items : Dict) : string :=
  match items with
  | [] => ""
  | (key, value) :: rest =>
      CRLF +:+ "    <" +:+ url_decode_xml_encode key +:+ ">"
           +:+ url_decode_xml_encode value
           +:+ "</" +:+ url_decode_xml_encode key +:+ ">"
           +:+ status_dial_data rest
  end.

Definition run_link : string :=
  CRLF +:+ "  <link rel=" +:+ DQUOTE +:+ "run" +:+ DQUOTE
       +:+ " href=" +:+ DQUOTE +:+ "run" +:+ DQUOTE +:+ "/>".

Definition handle_app_status (server : Handler) (app_name : string)
    (origin_header : option string) : M unit :=
  do client_version <-
    lift (let? v := index0 (dict_get (query_params server) "clientDialVer" ["0.0"]) in
          float_of_str v);
  do locked <- MUTEX_acquire_nonblocking;
  if negb locked then call_error 500 "500 Internal Server Error"
  else
    do found <- find_app app_name;
    match found with
    | None =>
        do _ <- call_error 404 "Not found";
        MUTEX_release
    | Some i =>
        do app <- get_app i;
        let dial_data := status_dial_data (dial_data app) in
        if (get_string_size dial_data >? DIAL_DATA_SIZE)%Z then
          do _ <- LOGGER (LOG_error "Exceeded maximum size for dial_data" None);
          do _ <- call_error 500 "500 Internal Server Error";
          MUTEX_release
        else
          do local_state <- lift (dial_cb_status (cls app));
          do _ <- update_app i (set_state local_state);
          let local_state :=
            if PrimFloat.ltb client_version lit_2_09
               && (local_state =? DialStatus.HIDE)%Z
            then DialStatus.STOPPED else local_state in
          let dial_state :=
            if (local_state =? DialStatus.HIDE)%Z then "hidden"
            else if (local_state =? DialStatus.RUNNING)%Z then "running"
            else "stopped" in
          do _ <- call_response
                    (STATUS_RESPONSE origin_header DIAL_VERSION app_name "true" dial_state
                       (if (local_state =? DialStatus.STOPPED)%Z then "" else run_link)
                       (dial_data +:+ CRLF +:+ "  "));
          MUTEX_release
    end.

(** [server.body_data.decode('utf-8')], reached only after [is_ascii]
    returned: on ASCII bytes the text has the same characters. *)
Definition decode_utf8 (b : list byte) : Res string :=
  if all_ascii b
  then Ok (string_of_list_byte b)
  else Raise UnicodeDecodeError.

(** The [additional_data_param] of [handle_app_start]: [None] unless the
    application sets [USE_ADDITIONAL_DATA]. *)
Definition additional_data_url (app : DialApp) (app_name : string) : option string :=
  if USE_ADDITIONAL_DATA (cls app)
  then Some ("http://127.0.0.1:" +:+ pretty DIAL_SERVER_PORT
               +:+ "/apps/" +:+ app_name +:+ "/dial_data")
  else None.

Definition additional_data_too_long (additional_data_param : option string) : bool :=
  match additional_data_param with
  | Some p => (get_string_size p >? DIAL_MAX_ADDITIONALURL)%Z
  | None => false
  end.

Definition handle_app_start (server : Handler) (app_name : string)
    (origin_header : option string) : M unit :=
  do locked <- MUTEX_acquire_nonblocking;
  if negb locked then call_error 500 "500 Internal Server Error"
  else
    do found <- find_app app_name;
    match found with
    | None =>
        do _ <- call_error 404 "Not found";
        MUTEX_release
    | Some i =>
        do app <- get_app i;
        if (body_data_size server >? DIAL_MAX_PAYLOAD)%Z then
          do _ <- call_error 413 "413 Request Entity Too Large";
          MUTEX_release
        else
          do ascii <- lift (is_ascii (PyBytes (body_data server)));
          if negb ascii then
            do _ <- call_error 400 "400 Bad Request";
            MUTEX_release
          else
            let additional_data_param := additional_data_url app app_name in
            if additional_data_too_long additional_data_param then
              do _ <- LOGGER (LOG_error "Exceeded maximum size for additional_data_param" None);
              do _ <- call_error 500 "500 Internal Server Error";
              MUTEX_release
            else
              do payload <- lift (decode_utf8 (body_data server));
              do new_state <-
                lift (dial_cb_start (cls app) payload (query_params server)
                        additional_data_param);
              do _ <- update_app i (set_state new_state);
              do _ <-
                (if (new_state =? DialStatus.RUNNING)%Z then
                   do _ <- call_response
                             (CREATED_RESPONSE getIPAddress DIAL_SERVER_PORT app_name
                                origin_header);
                   update_app i (set_last_payload (Some payload))
                 else if (new_state =? DialStatus.ERROR_FORBIDDEN)%Z then
                   call_error 400 "403 Forbidden"
                 else if (new_state =? DialStatus.ERROR_UNAUTH)%Z then
                   call_error 401 "401 Unauthorized"
                 else if (new_state =? DialStatus.ERROR_NOT_IMPLEMENTED)%Z then
                   call_error 501 "501 Not Implemented"
                 else
                   call_error 503 "503 Service Unavailable");
              MUTEX_release
    end.

Definition handle_app_stop (server : Handler) (app_name : string)
    (origin_header : option string) : M unit :=
  do locked <- MUTEX_acquire_nonblocking;
  if negb locked then call_error 500 "500 Internal Server Error"
  else
    do found <- find_app app_name;
    do _ <-
      match found with
      | None => call_error 404 "Not found"
      | Some i =>
          do app <- get_app i;
          do refreshed <- lift (dial_cb_status (cls app));
          do _ <- update_app i (set_state refreshed);
          if (refreshed =? DialStatus.STOPPED)%Z then call_error 404 "Not found"
          else
            do _ <- lift (dial_cb_stop (cls app));
            do _ <- update_app i (set_state DialStatus.STOPPED);
            call_response (STOP_RESPONSE origin_header)
      end;
    MUTEX_release.

Definition handle_app_hide (server : Handler) (app_name : string)
    (origin_header : option string) : M unit :=
  do locked <- MUTEX_acquire_nonblocking;
  if negb locked then call_error 500 "500 Internal Server Error"
  else
    do found <- find_app app_name;
    do _ <-
      match found with
      | None => call_error 404 "Not found"
      | Some i =>
          do app <- get_app i;
          do refreshed <- lift (dial_cb_status (cls app));
          do _ <- update_app i (set_state refreshed);
          if negb (refreshed =? DialStatus.RUNNING)%Z
             && negb (refreshed =? DialStatus.HIDE)%Z
          then call_error 404 "Not found"
          else
            do status <- lift (dial_cb_hide (cls app));
            if negb (status =? DialStatus.HIDE)%Z then
              do _ <- LOGGER (LOG_error "Hide not implemented for reference." None);
              call_error 501 "501 Not Implemented"
            else
              do _ <- update_app i (set_state DialStatus.HIDE);
              call_response (RESPONSE_OK origin_header)
      end;
    MUTEX_release.

(** [dial_data[key] = dial_data[key][0]] for every key. *)
Fixpoint first_values (d : QueryParams) : Res Dict :=
  match d with
  | [] => Ok []
  | (key, values) :: rest =>
      let? v := index0 values in
      let? rest' := first_values rest in
      Ok ((key, v) :: rest')
  end.

(** The second half of [handle_dial_data], from the [is_ascii] check on;
    [data] is the [str] of the query string or the [bytes] of the body. *)
Definition deliver_dial_data (app_name : string) (origin_header : option string)
    (i : nat) (data : PyData) : M unit :=
  do ascii <- lift (is_ascii data);
  if negb ascii then
    do _ <- call_error 400 "400 Bad Request";
    MUTEX_release
  else
    do text <- lift (decode_ascii data);
    do parsed_data <- lift (urlparse text);
    do dial_data <- lift (first_values (parse_qs (url_query parsed_data)));
    do _ <- store_dial_data app_name dial_data;
    do _ <- update_app i (set_dial_data dial_data);
    do _ <- call_response (RESPONSE_OK origin_header);
    MUTEX_release.

Definition handle_dial_data (server : Handler) (app_name : string)
    (origin_header : option string) (use_payload : bool) : M unit :=
  do locked <- MUTEX_acquire_nonblocking;
  if negb locked then call_error 500 "500 Internal Server Error"
  else
    do found <- find_app app_name;
    match found with
    | None =>
        do _ <- call_error 404 "Not found";
        MUTEX_release
    | Some i =>
        do app <- get_app i;
        do refreshed <- lift (dial_cb_status (cls app));
        do _ <- update_app i (set_state refreshed);
        if negb use_payload then
          do parsed_path <- lift (urlparse (path server));
          let data := url_query parsed_path in
          if (get_string_size data >? DIAL_DATA_MAX_PAYLOAD)%Z then
            do _ <- call_error 413 "413 Request Entity Too Large";
            MUTEX_release
          else deliver_dial_data app_name origin_header i (PyStr data)
        else
          if (body_data_size server >? DIAL_DATA_MAX_PAYLOAD)%Z then
            do _ <- call_error 413 "413 Request Entity Too Large";
            MUTEX_release
          else deliver_dial_data app_name origin_header i (PyBytes (body_data server))
    end.

(** ** The router *)

Definition handle_dd : M unit :=
  call_response
    (DD_XML getIPAddress DIAL_SERVER_PORT SP_FRIENDLY_NAME SP_MANUFACTURER_NAME
       SP_MODEL_NAME DEVICE_UUID).

(** [if origin_header and not is_allowed_origin(origin_header, app_name)]. *)
Definition origin_refused (origin_header : option string) (app_name : string) : M bool :=
  if truthy_str origin_header then
    do allowed <- is_allowed_origin origin_header app_name;
    ret (negb allowed)
  else ret false.

Definition handle_request (server : Handler) (req_method req_path : string)
    (origin_header host_header : option string) : M unit :=
  if endswith req_path RUN_URI then
    do segment <- lift (index_from_end (split "/" req_path) 2);
    let app_name := slice_to 255 segment in
    do refused <- origin_refused origin_header app_name;
    if refused then call_error 403 "Forbidden"
    else if String.eqb req_method "OPTIONS" then
      call_response (OPTIONS_RESPONSE origin_header "DELETE, OPTIONS")
    else if truthy_str (Some app_name) && String.eqb req_method "DELETE" then
      handle_app_stop server app_name origin_header
    else call_error 501 "Not Implemented"
  else if startswith req_path APPS_URI then
    let app_name := replace APPS_URI "" req_path in
    do refused <- origin_refused origin_header app_name;
    if refused then call_error 403 "Forbidden"
    else if String.eqb req_method "OPTIONS" then
      call_response (OPTIONS_RESPONSE origin_header "GET, POST, OPTIONS")
    else if String.eqb req_method "POST" then
      handle_app_start server app_name origin_header
    else if String.eqb req_method "GET" then
      handle_app_status server app_name origin_header
    else call_error 501 "Not Implemented"
  else if endswith req_path HIDE_URI then
    do segment <- lift (index_from_end (split "/" req_path) 2);
    let app_name := slice_to 255 segment in
    do refused <- origin_refused origin_header app_name;
    if refused then call_error 403 "Forbidden"
    else if String.eqb req_method "OPTIONS" then
      call_response (OPTIONS_RESPONSE origin_header "POST, OPTIONS")
    else if truthy_str (Some app_name) && String.eqb req_method "POST" then
      handle_app_hide server app_name origin_header
    else call_error 501 "Not Implemented"
  else if endswith req_path DIAL_DATA_URI then
    if String.eqb (client_address server) "127.0.0.1"
       || String.eqb (client_address server) getIPAddress
    then
      do app_name <- lift (index_from_end (split "/" req_path) 2);
      if negb (truthy_str (Some app_name)) then
        call_error 500 "500 Internal Server Error"
      else
        do refused <- origin_refused origin_header app_name;
        if refused then call_error 403 "Forbidden"
        else if String.eqb req_method "OPTIONS" then
          call_response (OPTIONS_RESPONSE origin_header "POST, OPTIONS")
        else
          handle_dial_data server app_name origin_header (String.eqb req_method "POST")
    else call_error 404 "Not found"
  else ret tt.

(** The [except Exception as exc] clause of [route]. *)
Definition route_except (exc : PyExc) : M unit :=
  do _ <- LOGGER (LOG_error "handle_request raised an exception: {}" (Some exc));
  do _ <- LOGGER (LOG_error "traceback.format_exc()" (Some exc));
  call_error 500 "ERROR".

(** [DSHttpRequestHandler.route], the body of [do_GET], [do_POST],
    [do_OPTIONS] and [do_DELETE]. *)
Definition route (req : Request) : M unit :=
  do parsed_url <- lift (urlparse (raw_path req));
  if String.eqb (url_path parsed_url) "/ssdp/device-desc.xml" then handle_dd
  else
    let query_params := parse_qs (url_query parsed_url) in
    do body_data_size <- lift (header_content_length req);
    do body_data <-
      lift (if (body_data_size =? 0)%Z then Ok []
            else rfile_read body_data_size (rfile req));
    let server :=
      mkHandler (raw_path req) (client_ip req) query_params body_data_size body_data in
    try_except
      (handle_request server (command req) (url_path parsed_url)
         (header_Origin req) (header_Host req))
      route_except.

(** The world after [route] has handled [req]. *)
Definition serve (req : Request) (w : World) : World := snd (route req w).

(** The status codes written to the connection, in order. *)
Definition status_codes (w : World) : list Z := map status_code (wfile w).

(** The next request arrives on a connection of its own. *)
Definition new_connection (w : World) : World := set_wfile [] w.

(** ** The router's decision, read off [route] and [handle_request] *)

(** The five operations that touch the registry. *)
Inductive Operation : Type := OpStop | OpStart | OpStatus | OpHide | OpDialData.

(** What [route] reads before its [try]: the parsed request line, the
    declared length and the body.  Each of the three can raise, and the
    exception then leaves [route]; the body is not read for the device
    descriptor. *)
Definition request_body (req : Request) : Res (list byte) :=
  let? body_data_size := header_content_length req in
  if (body_data_size =? 0)%Z then Ok [] else rfile_read body_data_size (rfile req).

Definition reads (req : Request) : Res unit :=
  let? parsed_url := urlparse (raw_path req) in
  if String.eqb (url_path parsed_url) "/ssdp/device-desc.xml" then Ok tt
  else let? _ := request_body req in Ok tt.

(** The request line as [urlparse] returned it.  Where [urlparse] raised
    there is none, and [route] has stopped; the empty result stands in. *)
Definition parsed_url (req : Request) : ParseResult :=
  match urlparse (raw_path req) with
  | Ok parsed => parsed
  | Raise _ => mkParseResult "" ""
  end.

Definition target (req : Request) : string := url_path (parsed_url req).

(** The attributes of the handler object once [route] is through its
    reads.  An attribute whose read raised is as [__init__] left it:
    [body_data_size] 0 and [body_data] empty ([query_params], which
    [__init__] sets to [None], is never looked at in that case). *)
Definition make_handler (req : Request) : Handler :=
  mkHandler (raw_path req) (client_ip req)
    (parse_qs (url_query (parsed_url req)))
    (match header_content_length req with Ok size => size | Raise _ => 0 end)
    (match request_body req with Ok body => body | Raise _ => [] end).

(** [route] gets as far as calling [handle_request]: none of its reads
    raised and the path is not the device descriptor's. *)
Definition reaches_handle_request (req : Request) : bool :=
  match reads req with
  | Ok _ => negb (String.eqb (target req) "/ssdp/device-desc.xml")
  | Raise _ => false
  end.

(** The handler [handle_request] hands the request to once the origin check
    has let it through, with the application name it extracts; [None] when
    [route] does not get to [handle_request] or the request ends in the
    router (device descriptor, [OPTIONS], 501, 404, or no rule at all). *)
Definition dispatch (req : Request) : option (Operation * string) :=
  let p := target req in
  let method := command req in
  if negb (reaches_handle_request req) then None
  else if endswith p RUN_URI then
    match index_from_end (split "/" p) 2 with
    | Ok segment =>
        let app_name := slice_to 255 segment in
        if negb (String.eqb method "OPTIONS")
           && (truthy_str (Some app_name) && String.eqb method "DELETE")
        then Some (OpStop, app_name) else None
    | Raise _ => None
    end
  else if startswith p APPS_URI then
    let app_name := replace APPS_URI "" p in
    if String.eqb method "OPTIONS" then None
    else if String.eqb method "POST" then Some (OpStart, app_name)
    else if String.eqb method "GET" then Some (OpStatus, app_name)
    else None
  else if endswith p HIDE_URI then
    match index_from_end (split "/" p) 2 with
    | Ok segment =>
        let app_name := slice_to 255 segment in
        if negb (String.eqb method "OPTIONS")
           && (truthy_str (Some app_name) && String.eqb method "POST")
        then Some (OpHide, app_name) else None
    | Raise _ => None
    end
  else if endswith p DIAL_DATA_URI then
    if String.eqb (client_ip req) "127.0.0.1" || String.eqb (client_ip req) getIPAddress
    then
      match index_from_end (split "/" p) 2 with
      | Ok app_name =>
          if truthy_str (Some app_name) && negb (String.eqb method "OPTIONS")
          then Some (OpDialData, app_name) else None
      | Raise _ => None
      end
    else None
  else None.

Definition operation_handler (op : Operation) (app_name : string) (req : Request) : M unit :=
  let server := make_handler req in
  let origin_header := header_Origin req in
  match op with
  | OpStop => handle_app_stop server app_name origin_header
  | OpStart => handle_app_start server app_name origin_header
  | OpStatus => handle_app_status server app_name origin_header
  | OpHide => handle_app_hide server app_name origin_header
  | OpDialData =>
      handle_dial_data server app_name origin_header (String.eqb (command req) "POST")
  end.

(** The origin check lets the request through: there is no [Origin] header,
    or [is_allowed_origin] returned [True]. *)
Definition origin_passes (origin : option string) (app_name : string) (w : World) : bool :=
  match fst (origin_refused origin app_name w) with
  | Ok false => true
  | _ => false
  end.

(** The router falls through to its fourth rule, the [/dial_data] suffix. *)
Definition dial_data_target (req : Request) : bool :=
  let p := target req in
  negb (String.eqb p "/ssdp/device-desc.xml")
  && negb (endswith p RUN_URI) && negb (startswith p APPS_URI)
  && negb (endswith p HIDE_URI) && endswith p DIAL_DATA_URI.

(** The mapping [handle_dial_data] keeps of what [parse_qs] returned: each
    key with the first of its values. *)
Definition first_value_map (d : QueryParams) : Dict :=
  map (fun kv => (fst kv, hd "" (snd kv))) d.

(** [app_name] is registered in [w]: [app] is the first application of
    [APPS] with that name, at position [i]. *)
Definition registered (app_name : string) (i : nat) (app : DialApp) (w : World) : Prop :=
  list_find (fun a => DIAL_APP_NAME (cls a) = Some app_name) (APPS w) = Some (i, app).

(** The calls of an application callback that the handler of [op] makes on
    its way, and that raise [e]: the status callback of a stop, hide,
    dial-data or status request, the stop callback once the status callback
    has reported a state other than [STOPPED], the hide callback once it has
    reported [RUNNING] or [HIDE], and the start callback of a start request
    that is past the payload checks. *)
Inductive callback_raises (req : Request) (name : string) (app : DialApp)
    (e : PyExc) : Operation -> Prop :=
| status_raises_in_stop :
    dial_cb_status (cls app) = Raise e -> callback_raises req name app e OpStop
| status_raises_in_hide :
    dial_cb_status (cls app) = Raise e -> callback_raises req name app e OpHide
| status_raises_in_dial_data :
    dial_cb_status (cls app) = Raise e -> callback_raises req name app e OpDialData
| status_raises_in_status (v : string) (client_version : float) :
    index0 (dict_get (query_params (make_handler req)) "clientDialVer" ["0.0"]) = Ok v ->
    float_of_str v = Ok client_version ->
    (get_string_size (status_dial_data (dial_data app)) <=? DIAL_DATA_SIZE)%Z = true ->
    dial_cb_status (cls app) = Raise e -> callback_raises req name app e OpStatus
| stop_raises (refreshed : Z) :
    dial_cb_status (cls app) = Ok refreshed ->
    refreshed <> DialStatus.STOPPED ->
    dial_cb_stop (cls app) = Raise e -> callback_raises req name app e OpStop
| hide_raises (refreshed : Z) :
    dial_cb_status (cls app) = Ok refreshed ->
    refreshed = DialStatus.RUNNING \/ refreshed = DialStatus.HIDE ->
    dial_cb_hide (cls app) = Raise e -> callback_raises req name app e OpHide
| start_raises :
    (body_data_size (make_handler req) <=? DIAL_MAX_PAYLOAD)%Z = true ->
    is_ascii (PyBytes (body_data (make_handler req))) = Ok true ->
    additional_data_too_long (additional_data_url app name) = false ->
    dial_cb_start (cls app) (string_of_list_byte (body_data (make_handler req)))
      (query_params (make_handler req)) (additional_data_url app name) = Raise e ->
    callback_raises req name app e OpStart.

(** ** What the router answers itself *)

(** The [OPTIONS] requests [handle_request] answers: the application name
    the origin check is run for, and the methods the answer lists. *)
Definition options_rule (req : Request) : option (string * string) :=
  let p := target req in
  if negb (String.eqb (command req) "OPTIONS") then None
  else if negb (reaches_handle_request req) then None
  else if endswith p RUN_URI then
    match index_from_end (split "/" p) 2 with
    | Ok segment => Some (slice_to 255 segment, "DELETE, OPTIONS")
    | Raise _ => None
    end
  else if startswith p APPS_URI then
    Some (replace APPS_URI "" p, "GET, POST, OPTIONS")
  else if endswith p HIDE_URI then
    match index_from_end (split "/" p) 2 with
    | Ok segment => Some (slice_to 255 segment, "POST, OPTIONS")
    | Raise _ => None
    end
  else if endswith p DIAL_DATA_URI then
    if String.eqb (client_ip req) "127.0.0.1" || String.eqb (client_ip req) getIPAddress
    then
      match index_from_end (split "/" p) 2 with
      | Ok app_name =>
          if truthy_str (Some app_name) then Some (app_name, "POST, OPTIONS") else None
      | Raise _ => None
      end
    else None
  else None.

(** The requests the first three rules of [handle_request] answer with 501:
    the method is none of those the rule serves, or the application name of
    a [/run] or [/hide] path is empty.  The result is the application name
    the origin check is run for. *)
Definition not_implemented_rule (req : Request) : option string :=
  let p := target req in
  let method := command req in
  if String.eqb method "OPTIONS" then None
  else if negb (reaches_handle_request req) then None
  else if endswith p RUN_URI then
    match index_from_end (split "/" p) 2 with
    | Ok segment =>
        let app_name := slice_to 255 segment in
        if truthy_str (Some app_name) && String.eqb method "DELETE" then None
        else Some app_name
    | Raise _ => None
    end
  else if startswith p APPS_URI then
    if String.eqb method "POST" || String.eqb method "GET" then None
    else Some (replace APPS_URI "" p)
  else if endswith p HIDE_URI then
    match index_from_end (split "/" p) 2 with
    | Ok segment =>
        let app_name := slice_to 255 segment in
        if truthy_str (Some app_name) && String.eqb method "POST" then None
        else Some app_name
    | Raise _ => None
    end
  else None.


(** No application of [apps] that carries the name [app_name] declares an
    allowed origin. *)
Definition no_origin_declared (app_name : string) (apps : list DialApp) : Prop :=
  Forall (fun a => DIAL_APP_NAME (cls a) = Some app_name -> DIAL_ORIGINS (cls a) = []) apps.

(** ** Further notions the properties are stated with *)

(** [float(server.query_params.get('clientDialVer', ['0.0'])[0])], the first
    statement of [handle_app_status]. *)
Definition client_version_of (req : Request) : Res float :=
  let? v := index0 (dict_get (query_params (make_handler req)) "clientDialVer" ["0.0"]) in
  float_of_str v.

(** What a handler leaves behind, relative to the world [w] it started in:
    the classes of the registry are as before; the data folder is as before
    when [keeps_files]; and the handler has either returned, having written
    one response and left the lock as it found it, or raised, having written
    nothing. *)
Definition handled (keeps_files : bool) (w : World) (r : Res unit * World) : Prop :=
  cls <$> APPS r.2 = cls <$> APPS w
  /\ (keeps_files = true -> FILES r.2 = FILES w)
  /\ match r.1 with
     | Ok _ => MUTEX r.2 = MUTEX w /\ exists a, wfile r.2 = wfile w ++ [a]
     | Raise _ => wfile r.2 = wfile w
     end.

(** One of the first three rules of [handle_request] takes the path. *)
Definition control_rule (req_path : string) : bool :=
  endswith req_path RUN_URI || startswith req_path APPS_URI
  || endswith req_path HIDE_URI.

(** One of the four rules of [handle_request] takes the path. *)
Definition rule_matches (req_path : string) : bool :=
  control_rule req_path || endswith req_path DIAL_DATA_URI.

(** The registry is well formed: no two applications share a name, and
    every application carries a non-empty add-on id and name. *)
Definition registry_ok (apps : list DialApp) : Prop :=
  NoDup ((fun a => DIAL_APP_NAME (cls a)) <$> apps)
  /\ Forall (fun a => truthy_str (KODI_ADDON_ID (cls a)) = true
                      /\ truthy_str (DIAL_APP_NAME (cls a)) = true) apps.

(** Some application of [apps] named [app_name] declares a pattern that
    [matches] accepts. *)
Definition some_pattern_matches (matches : string -> bool) (app_name : string)
    (apps : list DialApp) : bool :=
  existsb (fun a => bool_decide (DIAL_APP_NAME (cls a) = Some app_name)
                    && existsb matches (DIAL_ORIGINS (cls a))) apps.

(** Closes a goal [handled k w r] once the run [r] has been computed;
    [keeps_classes] is the lemma that an update of one application keeps the
    classes of the registry. *)
Ltac close_handled keeps_classes :=
  unfold handled; cbn;
  rewrite ?keeps_classes by (intros []; reflexivity);
  split; [reflexivity|];
  split; [intros Hkeeps; first [reflexivity | discriminate Hkeeps]|];
  first [reflexivity | split; [reflexivity|eexists; reflexivity]].

(** ** Properties *)

(** *** Running the monad *)

Lemma bind_Ok {A B} (m : M A) (f : A -> M B) (w w' : World) (a : A) :
  m w = (Ok a, w') -> bind m f w = f a w'.
Proof. intros Hm. unfold bind. rewrite Hm. reflexivity. Qed.

Lemma bind_lift {A B} (r : Res A) (f : A -> M B) (w : World) :
  bind (lift r) f w = match r with Ok a => f a w | Raise e => (Raise e, w) end.
Proof. unfold bind, lift. destruct r; reflexivity. Qed.

Lemma bind_assoc {A B C} (m : M A) (f : A -> M B) (g : B -> M C) (w : World) :
  bind (bind m f) g w = bind m (fun a => bind (f a) g) w.
Proof. unfold bind. destruct (m w) as [[a|e] w']; reflexivity. Qed.

(** The first steps of every handler: the non-blocking [acquire], on a free
    and on a held lock, then [find_app] and the read of the application it
    found. *)
Lemma run_acquire {B} {f : bool -> M B} {w : World} :
  MUTEX w = false ->
  bind MUTEX_acquire_nonblocking f w = f true (set_MUTEX true w).
Proof. unfold bind, MUTEX_acquire_nonblocking. intros ->. reflexivity. Qed.

Lemma run_acquire_held {B} {f : bool -> M B} {w : World} :
  MUTEX w = true -> bind MUTEX_acquire_nonblocking f w = f false w.
Proof. unfold bind, MUTEX_acquire_nonblocking. intros ->. reflexivity. Qed.

Lemma run_find {B} {f : option nat -> M B} {app_name : string} {i : nat}
    {app : DialApp} {w : World} :
  registered app_name i app w ->
  bind (find_app app_name) f (set_MUTEX true w) = f (Some i) (set_MUTEX true w).
Proof. unfold registered, bind, find_app. cbn. intros ->. reflexivity. Qed.

Lemma run_get {B} {f : DialApp -> M B} {app_name : string} {i : nat}
    {app : DialApp} {w : World} :
  registered app_name i app w ->
  bind (get_app i) f (set_MUTEX true w) = f app (set_MUTEX true w).
Proof.
  unfold registered, bind, get_app. cbn. intros Hf.
  apply list_find_Some in Hf as (Hi & _). rewrite Hi. reflexivity.
Qed.

(** *** The DIAL data store *)

(** C10.  Round trip of the DIAL Data Store: for every application name and
    every mapping that the JSON codec itself carries through
    ([json.loads(json.dumps(data)) == data]), storing the mapping and then
    retrieving it under the same name yields the mapping that was stored; and
    an application registered under that name in a new process (an empty
    registry over the same data folder) starts with that mapping as its
    [dial_data]. *)
Theorem store_retrieve_roundtrip (app_name : string) (data : Dict) (w : World) :
  json_loads (json_dumps data) = Ok data ->
  let w' := snd (store_dial_data app_name data w) in
  retrieve_dial_data app_name w' = (Ok data, w')
  /\ forall c : AppClass,
       truthy_str (KODI_ADDON_ID c) = true ->
       DIAL_APP_NAME c = Some app_name -> app_name <> "" ->
       dial_data <$> APPS (snd (register_app c (set_APPS [] w'))) = [data].
Proof.
  intros Hcodec w'.
  assert (Hget : forall v, retrieve_dial_data app_name (set_APPS v w')
                           = (Ok data, set_APPS v w')).
  { intros v. unfold retrieve_dial_data, w', store_dial_data, save_file_def.
    unfold bind, file_exists, load_file_def, lift, ret. simpl.
    rewrite lookup_insert_eq.
    rewrite bool_decide_eq_true_2 by (eexists; reflexivity).
    cbn. rewrite lookup_insert_eq, Hcodec. reflexivity. }
  split.
  - specialize (Hget (APPS w')). destruct w'; exact Hget.
  - intros c Hid Hname Hne. unfold register_app.
    rewrite Hid, Hname. destruct app_name as [|a0 rest]; [contradiction|].
    simpl. unfold bind at 1. unfold get_APPS at 1. simpl.
    rewrite (bind_Ok _ _ _ _ _ (Hget [])). reflexivity.
Qed.

(** *** The Application Registry *)




(** *** The origin check *)

(** When [is_allowed_origin] returns, the lock is as it found it. *)
Lemma is_allowed_origin_world (o : option string) (n : string) (w w1 : World) (b : bool) :
  MUTEX w = false -> is_allowed_origin o n w = (Ok b, w1) -> w1 = w.
Proof.
  intros Hm. unfold is_allowed_origin.
  destruct o as [[|c o]|]; try (unfold ret; congruence).
  step (run_acquire Hm). unfold bind at 1, get_APPS at 1. cbn [APPS set_MUTEX].
  rewrite bind_lift. destruct (is_allowed_origin_loop _ _ _) as [r|e]; [|discriminate].
  unfold bind, MUTEX_release, ret. cbn. intros [= _ <-].
  destruct w; simpl in *; subst; reflexivity.
Qed.

Lemma origin_passes_run (o : option string) (n : string) (w : World) :
  MUTEX w = false -> origin_passes o n w = true -> origin_refused o n w = (Ok false, w).
Proof.
  intros Hm. unfold origin_passes, origin_refused.
  destruct (truthy_str o); [|reflexivity].
  unfold bind. destruct (is_allowed_origin o n w) as [[b|e] w1] eqn:Ha; cbn; [|discriminate].
  apply is_allowed_origin_world in Ha as ->; [|exact Hm].
  unfold ret. destruct b; cbn; intros Hp; [reflexivity|discriminate Hp].
Qed.

Lemma no_origin_run (o : option string) (n : string) (w : World) :
  truthy_str o = false -> origin_refused o n w = (Ok false, w).
Proof. unfold origin_refused. intros ->. reflexivity. Qed.

(** *** The router *)

(** [route] up to its [try]: an exception of one of the reads leaves
    [route] with nothing done; the device descriptor is served without the
    body being read; otherwise [handle_request] is called on the handler
    object, inside the [try]. *)
Lemma route_raises (req : Request) (w : World) (e : PyExc) :
  reads req = Raise e -> route req w = (Raise e, w).
Proof.
  unfold reads, request_body, route. rewrite bind_lift.
  destruct (urlparse (raw_path req)) as [parsed|e0]; cbn [res_bind]; [|congruence].
  destruct (String.eqb (url_path parsed) "/ssdp/device-desc.xml"); [discriminate|].
  rewrite bind_lift.
  destruct (header_content_length req) as [size|e0]; cbn [res_bind]; [|congruence].
  rewrite bind_lift.
  destruct (if (size =? 0)%Z then Ok [] else rfile_read size (rfile req)) as [body|e0];
    cbn [res_bind]; congruence.
Qed.

Lemma route_device_descriptor (req : Request) (w : World) :
  target req = "/ssdp/device-desc.xml" -> route req w = handle_dd w.
Proof.
  unfold target, parsed_url, route. rewrite bind_lift.
  destruct (urlparse (raw_path req)) as [parsed|e]; [|discriminate].
  intros ->. reflexivity.
Qed.

Lemma route_reaches (req : Request) (w : World) :
  reaches_handle_request req = true ->
  route req w
  = try_except (handle_request (make_handler req) (command req) (target req)
                  (header_Origin req) (header_Host req)) route_except w.
Proof.
  unfold reaches_handle_request, reads, make_handler, request_body, target, parsed_url,
    route.
  rewrite bind_lift.
  destruct (urlparse (raw_path req)) as [parsed|e]; cbn [res_bind]; [|discriminate].
  destruct (String.eqb (url_path parsed) "/ssdp/device-desc.xml"); [discriminate|].
  rewrite bind_lift.
  destruct (header_content_length req) as [size|e]; cbn [res_bind]; [|discriminate].
  rewrite bind_lift.
  destruct (if (size =? 0)%Z then Ok [] else rfile_read size (rfile req)) as [body|e];
    cbn [res_bind]; [reflexivity|discriminate].
Qed.

(** What [reaches_handle_request] says of the reads. *)
Lemma reaches_reads (req : Request) :
  reaches_handle_request req = true ->
  urlparse (raw_path req) = Ok (parsed_url req)
  /\ String.eqb (target req) "/ssdp/device-desc.xml" = false
  /\ exists size, header_content_length req = Ok size
                  /\ body_data_size (make_handler req) = size
                  /\ (if (size =? 0)%Z then Ok [] else rfile_read size (rfile req))
                     = Ok (body_data (make_handler req)).
Proof.
  unfold reaches_handle_request, reads, make_handler, request_body, target, parsed_url.
  destruct (urlparse (raw_path req)) as [parsed|e]; cbn [res_bind]; [|discriminate].
  destruct (String.eqb (url_path parsed) "/ssdp/device-desc.xml"); [discriminate|].
  destruct (header_content_length req) as [size|e]; cbn [res_bind]; [|discriminate].
  destruct (if (size =? 0)%Z then Ok [] else rfile_read size (rfile req))
    as [body|e] eqn:Hbody; cbn [res_bind]; [|discriminate].
  intros _. split; [reflexivity|]. split; [reflexivity|]. exists size.
  split; [reflexivity|]. split; [reflexivity|exact Hbody].
Qed.

Lemma dispatch_reaches (req : Request) (op : Operation) (app_name : string) :
  dispatch req = Some (op, app_name) -> reaches_handle_request req = true.
Proof.
  unfold dispatch. destruct (reaches_handle_request req); [reflexivity|discriminate].
Qed.

(** A request that [dispatch] assigns to an operation is answered with 403
    when the origin check refuses it and is otherwise handled by that
    operation's handler, inside the [try] of [route]. *)
Lemma route_dispatch_origin (req : Request) (w : World) (op : Operation)
    (app_name : string) (refused : bool) :
  dispatch req = Some (op, app_name) ->
  origin_refused (header_Origin req) app_name w = (Ok refused, w) ->
  route req w
  = try_except (if refused then call_error 403 "Forbidden"
                else operation_handler op app_name req) route_except w.
Proof.
  intros Hd Ho. rewrite (route_reaches _ _ (dispatch_reaches _ _ _ Hd)).
  revert Hd. unfold dispatch. intros Hd.
  destruct (reaches_handle_request req); [|discriminate]. cbn [negb] in Hd.
  unfold try_except, handle_request.
  destruct (endswith (target req) RUN_URI).
  { destruct (index_from_end _ 2) as [segment|e]; [|discriminate].
    rewrite bind_lift.
    destruct (String.eqb (command req) "OPTIONS"); [discriminate|].
    destruct (truthy_str _ && _); [|discriminate].
    injection Hd as <- <-. rewrite (bind_Ok _ _ _ _ _ Ho).
    destruct refused; reflexivity. }
  destruct (startswith (target req) APPS_URI).
  { destruct (String.eqb (command req) "OPTIONS"); [discriminate|].
    destruct (String.eqb (command req) "POST").
    { injection Hd as <- <-. rewrite (bind_Ok _ _ _ _ _ Ho).
      destruct refused; reflexivity. }
    destruct (String.eqb (command req) "GET"); [|discriminate].
    injection Hd as <- <-. rewrite (bind_Ok _ _ _ _ _ Ho).
    destruct refused; reflexivity. }
  destruct (endswith (target req) HIDE_URI).
  { destruct (index_from_end _ 2) as [segment|e]; [|discriminate].
    rewrite bind_lift.
    destruct (String.eqb (command req) "OPTIONS"); [discriminate|].
    destruct (truthy_str _ && _); [|discriminate].
    injection Hd as <- <-. rewrite (bind_Ok _ _ _ _ _ Ho).
    destruct refused; reflexivity. }
  destruct (endswith (target req) DIAL_DATA_URI); [|discriminate].
  change (client_address (make_handler req)) with (client_ip req).
  destruct (_ || _); [|discriminate].
  destruct (index_from_end _ 2) as [segment|e]; [|discriminate].
  rewrite bind_lift.
  destruct (truthy_str (Some segment)); [|discriminate].
  destruct (String.eqb (command req) "OPTIONS"); [discriminate|].
  injection Hd as <- <-. cbn [negb]. cbv iota.
  rewrite (bind_Ok _ _ _ _ _ Ho). destruct refused; reflexivity.
Qed.

Lemma route_dispatch (req : Request) (w : World) (op : Operation) (app_name : string) :
  dispatch req = Some (op, app_name) ->
  origin_refused (header_Origin req) app_name w = (Ok false, w) ->
  route req w = try_except (operation_handler op app_name req) route_except w.
Proof. exact (route_dispatch_origin req w op app_name false). Qed.

(** With the lock taken, [is_allowed_origin] cannot look the application up
    and denies every origin. *)
Lemma held_lock_refuses (o : option string) (n : string) (w : World) :
  truthy_str o = true -> MUTEX w = true -> origin_refused o n w = (Ok true, w).
Proof.
  intros Ho Hm. unfold origin_refused. rewrite Ho. unfold is_allowed_origin.
  destruct o as [[|c o]|]; try discriminate Ho.
  rewrite bind_assoc. step (run_acquire_held Hm). reflexivity.
Qed.

(** *** Starting an application *)

Lemma registered_lookup (name : string) (i : nat) (app : DialApp) (w : World) :
  registered name i app w -> APPS w !! i = Some app.
Proof. unfold registered. intros Hf. apply list_find_Some in Hf as (Hi & _). exact Hi. Qed.

Lemma leb_true_gtb_false (x y : Z) : (x <=? y)%Z = true -> (x >? y)%Z = false.
Proof. intros Hle. rewrite Z.gtb_ltb. apply Z.ltb_ge, Z.leb_le, Hle. Qed.

Lemma is_ascii_bytes (b : list byte) :
  is_ascii (PyBytes b) = if all_ascii b then Ok true else Raise UnicodeDecodeError.
Proof. unfold is_ascii, decode_ascii. destruct (all_ascii b); reflexivity. Qed.



(** C5.  A start request that passes the validation pipeline and whose start
    callback returns [ERROR_FORBIDDEN] is answered with the status code 400:
    the handler calls [call_error(400, '403 Forbidden')], so 403 appears in
    the reason phrase only. *)
Theorem forbidden_start_sends_400 (req : Request) (name : string) (i : nat)
    (app : DialApp) (w : World) :
  dispatch req = Some (OpStart, name) ->
  origin_passes (header_Origin req) name w = true ->
  MUTEX w = false -> wfile w = [] ->
  registered name i app w ->
  (body_data_size (make_handler req) <=? DIAL_MAX_PAYLOAD)%Z = true ->
  is_ascii (PyBytes (body_data (make_handler req))) = Ok true ->
  additional_data_too_long (additional_data_url app name) = false ->
  dial_cb_start (cls app) (string_of_list_byte (body_data (make_handler req)))
    (query_params (make_handler req)) (additional_data_url app name)
  = Ok DialStatus.ERROR_FORBIDDEN ->
  wfile (serve req w) = [ErrorResponse 400 "403 Forbidden"]
  /\ status_codes (serve req w) = [400].
Proof.
  intros Hd Ho Hm Hfresh Hr Hsize Hascii Hurl Hcb.
  unfold status_codes, serve.
  rewrite (route_dispatch _ _ _ _ Hd (origin_passes_run _ _ _ Hm Ho)).
  unfold try_except, operation_handler, handle_app_start.
  step (run_acquire Hm). step (run_find Hr). step (run_get Hr).
  rewrite (leb_true_gtb_false _ _ Hsize).
  rewrite bind_lift, Hascii. cbn [negb]. cbv beta iota. rewrite Hurl.
  rewrite is_ascii_bytes in Hascii. unfold decode_utf8.
  destruct (all_ascii _); [|discriminate]. rewrite !bind_lift, Hcb.
  compute_run w. split; reflexivity.
Qed.

(** C2.  A start request, or a dial-data request with a body, whose payload
    holds a byte above 127 is not answered with 400: [is_ascii] lets the
    [UnicodeDecodeError] of [decode] through (its [except] clause names
    [UnicodeEncodeError]), [route] catches it and answers 500, and the
    handler never reaches its [MUTEX.release()]. *)
Theorem non_ascii_payload_sends_500 (req : Request) (op : Operation) (name : string)
    (i : nat) (app : DialApp) (w : World) :
  dispatch req = Some (op, name) ->
  op = OpStart \/ (op = OpDialData /\ command req = "POST") ->
  origin_passes (header_Origin req) name w = true ->
  MUTEX w = false -> wfile w = [] ->
  registered name i app w ->
  (body_data_size (make_handler req) <=? DIAL_MAX_PAYLOAD)%Z = true ->
  all_ascii (body_data (make_handler req)) = false ->
  status_codes (serve req w) = [500] /\ MUTEX (serve req w) = true.
Proof.
  intros Hd Hop Ho Hm Hfresh Hr Hsize Hbytes.
  unfold status_codes, serve.
  rewrite (route_dispatch _ _ _ _ Hd (origin_passes_run _ _ _ Hm Ho)).
  unfold try_except, operation_handler.
  destruct Hop as [->|[-> Hpost]].
  - unfold handle_app_start. step (run_acquire Hm). step (run_find Hr). step (run_get Hr).
    rewrite (leb_true_gtb_false _ _ Hsize).
    rewrite bind_lift, is_ascii_bytes, Hbytes.
    compute_run w. split; reflexivity.
  - rewrite Hpost. change (String.eqb "POST" "POST") with true.
    unfold handle_dial_data. step (run_acquire Hm). step (run_find Hr). step (run_get Hr).
    rewrite bind_lift. destruct (dial_cb_status (cls app)) as [refreshed|e].
    + cbn [negb]. cbv iota.
      change DIAL_DATA_MAX_PAYLOAD with DIAL_MAX_PAYLOAD.
      unfold bind at 1, update_app at 1.
      rewrite (leb_true_gtb_false _ _ Hsize).
      unfold deliver_dial_data. rewrite bind_lift, is_ascii_bytes, Hbytes.
      compute_run w. split; reflexivity.
    + compute_run w. split; reflexivity.
Qed.


(** *** Contention and exceptions *)

(** A request for one of the five operations that carries no [Origin] header
    and finds the lock taken is answered with 500; the registry, the data
    folder and the lock are as they were. *)
Lemma contention_answer (req : Request) (op : Operation) (name : string) (w : World) :
  dispatch req = Some (op, name) ->
  truthy_str (header_Origin req) = false ->
  MUTEX w = true -> wfile w = [] ->
  status_codes (serve req w) = [500]
  /\ APPS (serve req w) = APPS w
  /\ FILES (serve req w) = FILES w
  /\ MUTEX (serve req w) = true.
Proof.
  intros Hd Ho Hm Hfresh. unfold status_codes, serve.
  rewrite (route_dispatch _ _ _ _ Hd (no_origin_run _ _ _ Ho)).
  unfold try_except, operation_handler.
  destruct op.
  - unfold handle_app_stop. step (run_acquire_held Hm). compute_run w. auto.
  - unfold handle_app_start. step (run_acquire_held Hm). compute_run w. auto.
  - unfold handle_app_status. rewrite bind_lift.
    destruct (res_bind _ _) as [client_version|e].
    + step (run_acquire_held Hm). compute_run w. auto.
    + compute_run w. auto.
  - unfold handle_app_hide. step (run_acquire_held Hm). compute_run w. auto.
  - unfold handle_dial_data. step (run_acquire_held Hm). compute_run w. auto.
Qed.

(** C7.  A request for start, stop, hide, status or dial-data that arrives
    while the lock is held is answered at once and changes nothing: without an
    [Origin] header the handler's non-blocking [acquire] fails and the answer
    is 500; with one, the origin check cannot take the lock either, denies the
    origin, and the answer is 403.  In both cases every application of the
    registry, the data folder and the lock are left as they were. *)
Theorem held_lock_answer (req : Request) (op : Operation) (name : string) (w : World) :
  dispatch req = Some (op, name) ->
  MUTEX w = true -> wfile w = [] ->
  status_codes (serve req w) = [if truthy_str (header_Origin req) then 403 else 500]
  /\ APPS (serve req w) = APPS w
  /\ FILES (serve req w) = FILES w
  /\ MUTEX (serve req w) = true.
Proof.
  intros Hd Hm Hfresh.
  destruct (truthy_str (header_Origin req)) eqn:Ho.
  - unfold status_codes, serve.
    rewrite (route_dispatch_origin _ _ _ _ _ Hd (held_lock_refuses _ _ _ Ho Hm)).
    compute_run w. auto.
  - exact (contention_answer req op name w Hd Ho Hm Hfresh).
Qed.

(** The log of a run in which [route] caught [e]. *)
Lemma caught_is_logged (e : PyExc) (log : list LogRecord) :
  LOG_error "handle_request raised an exception: {}" (Some e)
  ∈ (log ++ [LOG_error "handle_request raised an exception: {}" (Some e)])
    ++ [LOG_error "traceback.format_exc()" (Some e)].
Proof.
  apply elem_of_app. left. apply elem_of_app. right.
  apply elem_of_cons. left. reflexivity.
Qed.

(** What a request leaves behind when a callback of the application raises
    while its handler holds the lock. *)
Lemma callback_exception_run (req : Request) (op : Operation) (name : string)
    (i : nat) (app : DialApp) (w : World) (e : PyExc) :
  dispatch req = Some (op, name) ->
  origin_passes (header_Origin req) name w = true ->
  MUTEX w = false -> wfile w = [] ->
  registered name i app w ->
  callback_raises req name app e op ->
  status_codes (serve req w) = [500]
  /\ LOG_error "handle_request raised an exception: {}" (Some e) ∈ LOG (serve req w)
  /\ MUTEX (serve req w) = true.
Proof.
  intros Hd Ho Hm Hfresh Hr Hcb. unfold status_codes, serve.
  rewrite (route_dispatch _ _ _ _ Hd (origin_passes_run _ _ _ Hm Ho)).
  unfold try_except, operation_handler.
  destruct Hcb as [Hst|Hst|Hst|v client_version Hv Hf Hsize Hst
                   |refreshed Hst Hne Hstop|refreshed Hst Hshown Hhide
                   |Hsize Hascii Hurl Hstart].
  - unfold handle_app_stop. step (run_acquire Hm). step (run_find Hr).
    rewrite bind_assoc. step (run_get Hr). rewrite bind_assoc, bind_lift, Hst.
    compute_run w. split; [reflexivity|]. split; [apply caught_is_logged|reflexivity].
  - unfold handle_app_hide. step (run_acquire Hm). step (run_find Hr).
    rewrite bind_assoc. step (run_get Hr). rewrite bind_assoc, bind_lift, Hst.
    compute_run w. split; [reflexivity|]. split; [apply caught_is_logged|reflexivity].
  - unfold handle_dial_data. step (run_acquire Hm). step (run_find Hr).
    step (run_get Hr). rewrite bind_lift, Hst.
    compute_run w. split; [reflexivity|]. split; [apply caught_is_logged|reflexivity].
  - unfold handle_app_status. rewrite bind_lift, Hv. cbn [res_bind]. rewrite Hf.
    step (run_acquire Hm). step (run_find Hr). step (run_get Hr).
    rewrite (leb_true_gtb_false _ _ Hsize). rewrite bind_lift, Hst.
    compute_run w. split; [reflexivity|]. split; [apply caught_is_logged|reflexivity].
  - unfold handle_app_stop. step (run_acquire Hm). step (run_find Hr).
    rewrite bind_assoc. step (run_get Hr). rewrite bind_assoc, bind_lift, Hst.
    rewrite (proj2 (Z.eqb_neq _ _) Hne).
    rewrite !bind_assoc. unfold bind at 1, update_app at 1.
    rewrite bind_assoc, bind_lift, Hstop.
    compute_run w. split; [reflexivity|]. split; [apply caught_is_logged|reflexivity].
  - unfold handle_app_hide. step (run_acquire Hm). step (run_find Hr).
    rewrite bind_assoc. step (run_get Hr). rewrite bind_assoc, bind_lift, Hst.
    replace (negb (refreshed =? DialStatus.RUNNING)%Z
             && negb (refreshed =? DialStatus.HIDE)%Z) with false
      by (destruct Hshown as [-> | ->]; reflexivity).
    rewrite !bind_assoc. unfold bind at 1, update_app at 1.
    rewrite bind_assoc, bind_lift, Hhide.
    compute_run w. split; [reflexivity|]. split; [apply caught_is_logged|reflexivity].
  - unfold handle_app_start. step (run_acquire Hm). step (run_find Hr).
    step (run_get Hr). rewrite (leb_true_gtb_false _ _ Hsize).
    rewrite bind_lift, Hascii. cbn [negb]. cbv beta iota. rewrite Hurl.
    rewrite is_ascii_bytes in Hascii. unfold decode_utf8.
    destruct (all_ascii _); [|discriminate]. rewrite !bind_lift, Hstart.
    compute_run w. split; [reflexivity|]. split; [apply caught_is_logged|reflexivity].
Qed.

(** C3.  When a callback of the application (start, stop, status or hide)
    raises during a request, [route] catches the exception, logs it and
    answers 500; the handler's [MUTEX.release()] is never reached, so the
    lock stays held after the handler has finished, and every later request
    for one of the five operations is answered with 500 as well. *)
Theorem callback_exception_keeps_lock (req : Request) (op : Operation)
    (name : string) (i : nat) (app : DialApp) (w : World) (e : PyExc) :
  dispatch req = Some (op, name) ->
  origin_passes (header_Origin req) name w = true ->
  MUTEX w = false -> wfile w = [] ->
  registered name i app w ->
  callback_raises req name app e op ->
  status_codes (serve req w) = [500]
  /\ LOG_error "handle_request raised an exception: {}" (Some e) ∈ LOG (serve req w)
  /\ MUTEX (serve req w) = true
  /\ forall (req2 : Request) (op2 : Operation) (name2 : string),
       dispatch req2 = Some (op2, name2) ->
       truthy_str (header_Origin req2) = false ->
       status_codes (serve req2 (new_connection (serve req w))) = [500].
Proof.
  intros Hd Ho Hm Hfresh Hr Hcb.
  destruct (callback_exception_run req op name i app w e Hd Ho Hm Hfresh Hr Hcb)
    as (Hcodes & Hlog & Hheld).
  split; [exact Hcodes|]. split; [exact Hlog|]. split; [exact Hheld|].
  intros req2 op2 name2 Hd2 Ho2.
  apply (contention_answer req2 op2 name2 (new_connection (serve req w)) Hd2 Ho2);
    [exact Hheld|reflexivity].
Qed.

(** *** The status report *)

(** What [handle_app_status] answers and stores once it is past its checks:
    the refreshed state is stored as the callback gave it, and reported after
    the downgrade for old clients. *)
Lemma status_answer (req : Request) (name : string) (i : nat) (app : DialApp)
    (w : World) (v : string) (client_version : float) (local_state : Z) :
  dispatch req = Some (OpStatus, name) ->
  origin_passes (header_Origin req) name w = true ->
  MUTEX w = false -> wfile w = [] ->
  registered name i app w ->
  index0 (dict_get (query_params (make_handler req)) "clientDialVer" ["0.0"]) = Ok v ->
  float_of_str v = Ok client_version ->
  (get_string_size (status_dial_data (dial_data app)) <=? DIAL_DATA_SIZE)%Z = true ->
  dial_cb_status (cls app) = Ok local_state ->
  let reported :=
    if PrimFloat.ltb client_version lit_2_09 && (local_state =? DialStatus.HIDE)%Z
    then DialStatus.STOPPED else local_state in
  wfile (serve req w)
  = [STATUS_RESPONSE (header_Origin req) DIAL_VERSION name "true"
       (if (reported =? DialStatus.HIDE)%Z then "hidden"
        else if (reported =? DialStatus.RUNNING)%Z then "running" else "stopped")
       (if (reported =? DialStatus.STOPPED)%Z then "" else run_link)
       (status_dial_data (dial_data app) +:+ CRLF +:+ "  ")]
  /\ APPS (serve req w) = alter (set_state local_state) i (APPS w)
  /\ MUTEX (serve req w) = false.
Proof.
  intros Hd Ho Hm Hfresh Hr Hv Hf Hsize Hcb reported.
  unfold serve.
  rewrite (route_dispatch _ _ _ _ Hd (origin_passes_run _ _ _ Hm Ho)).
  unfold try_except, operation_handler, handle_app_status.
  rewrite bind_lift, Hv. cbn [res_bind]. rewrite Hf.
  step (run_acquire Hm). step (run_find Hr). step (run_get Hr).
  rewrite (leb_true_gtb_false _ _ Hsize).
  rewrite bind_lift, Hcb. fold reported.
  compute_run w. auto.
Qed.

(** For a client version below the literal [2.09], [HIDE] is reported as
    [stopped] without a run link, and the stored state stays [HIDE]. *)
Lemma hidden_downgraded_below_2_09 (req : Request) (name : string) (i : nat)
    (app : DialApp) (w : World) (v : string) (client_version : float) :
  dispatch req = Some (OpStatus, name) ->
  origin_passes (header_Origin req) name w = true ->
  MUTEX w = false -> wfile w = [] ->
  registered name i app w ->
  index0 (dict_get (query_params (make_handler req)) "clientDialVer" ["0.0"]) = Ok v ->
  float_of_str v = Ok client_version ->
  PrimFloat.ltb client_version lit_2_09 = true ->
  (get_string_size (status_dial_data (dial_data app)) <=? DIAL_DATA_SIZE)%Z = true ->
  dial_cb_status (cls app) = Ok DialStatus.HIDE ->
  wfile (serve req w)
  = [STATUS_RESPONSE (header_Origin req) DIAL_VERSION name "true" "stopped" ""
       (status_dial_data (dial_data app) +:+ CRLF +:+ "  ")]
  /\ state <$> APPS (serve req w) !! i = Some DialStatus.HIDE.
Proof.
  intros Hd Ho Hm Hfresh Hr Hv Hf Hlt Hsize Hcb.
  destruct (status_answer req name i app w v client_version DialStatus.HIDE
              Hd Ho Hm Hfresh Hr Hv Hf Hsize Hcb) as (Hout & Happs & _).
  rewrite Hlt in Hout. split; [exact Hout|].
  rewrite Happs, list_lookup_alter_eq, (registered_lookup _ _ _ _ Hr). reflexivity.
Qed.

(** C6.  The downgrade compares the client version with [2.09], not with
    [2.1]: for every reported version that is not below the literal [2.09] as
    a binary64 number, [2.09] itself and the versions between it and [2.1]
    included, an application whose refreshed state is [HIDE] is reported as
    [hidden], with a run link; the stored state is [HIDE]. *)
Theorem hidden_reported_from_2_09 (req : Request) (name : string) (i : nat)
    (app : DialApp) (w : World) (v : string) (client_version : float) :
  dispatch req = Some (OpStatus, name) ->
  origin_passes (header_Origin req) name w = true ->
  MUTEX w = false -> wfile w = [] ->
  registered name i app w ->
  index0 (dict_get (query_params (make_handler req)) "clientDialVer" ["0.0"]) = Ok v ->
  float_of_str v = Ok client_version ->
  PrimFloat.ltb client_version lit_2_09 = false ->
  (get_string_size (status_dial_data (dial_data app)) <=? DIAL_DATA_SIZE)%Z = true ->
  dial_cb_status (cls app) = Ok DialStatus.HIDE ->
  wfile (serve req w)
  = [STATUS_RESPONSE (header_Origin req) DIAL_VERSION name "true" "hidden" run_link
       (status_dial_data (dial_data app) +:+ CRLF +:+ "  ")]
  /\ state <$> APPS (serve req w) !! i = Some DialStatus.HIDE.
Proof.
  intros Hd Ho Hm Hfresh Hr Hv Hf Hge Hsize Hcb.
  destruct (status_answer req name i app w v client_version DialStatus.HIDE
              Hd Ho Hm Hfresh Hr Hv Hf Hsize Hcb) as (Hout & Happs & _).
  rewrite Hge in Hout. split; [exact Hout|].
  rewrite Happs, list_lookup_alter_eq, (registered_lookup _ _ _ _ Hr). reflexivity.
Qed.

(** *** DIAL data *)

Lemma first_values_nonempty (d : QueryParams) :
  Forall (fun kv => snd kv <> []) d -> first_values d = Ok (first_value_map d).
Proof.
  induction 1 as [|[key values] rest Hne _ IH]; [reflexivity|].
  simpl in *. destruct values as [|v values]; [contradiction|].
  simpl. rewrite IH. reflexivity.
Qed.

(** C4.  What a dial-data [POST] stores is not the form data of its body
    but that of the query component of the body read as a URL.  For a
    dial-data [POST] that reaches the handler (loopback or the device's own
    address, no [Origin] header or an allowed one, the lock free) for a
    registered application whose status callback returns, with an ASCII body
    of at most 4096 bytes: the body is handed to [urlparse]; when it returns,
    [parse_qs] is applied to the query component of the result (the text
    after the first [?], empty for a body that is the form data itself),
    each key keeps the first of its values, the mapping is written to the
    application's file of the data store and replaces the application's
    [dial_data], the answer is 200 and the lock is released; when [urlparse]
    raises, the answer is the 500 of [route], nothing is stored and the lock
    stays held.  A request on a [/dial_data] path from any other address is
    answered with 404. *)
Theorem dial_data_post_stored (req : Request) (name : string) (i : nat)
    (app : DialApp) (w : World) (refreshed : Z) :
  dispatch req = Some (OpDialData, name) ->
  command req = "POST" ->
  origin_passes (header_Origin req) name w = true ->
  MUTEX w = false -> wfile w = [] ->
  registered name i app w ->
  dial_cb_status (cls app) = Ok refreshed ->
  (body_data_size (make_handler req) <=? DIAL_DATA_MAX_PAYLOAD)%Z = true ->
  all_ascii (body_data (make_handler req)) = true ->
  match urlparse (string_of_list_byte (body_data (make_handler req))) with
  | Ok parsed_data =>
      Forall (fun kv => snd kv <> []) (parse_qs (url_query parsed_data)) ->
      let mapping := first_value_map (parse_qs (url_query parsed_data)) in
      wfile (serve req w) = [RESPONSE_OK (header_Origin req)]
      /\ status_codes (serve req w) = [200]
      /\ FILES (serve req w)
         = <["dial_data/" +:+ name +:+ ".json" := json_dumps mapping]> (FILES w)
      /\ APPS (serve req w)
         = alter (set_dial_data mapping) i (alter (set_state refreshed) i (APPS w))
      /\ dial_data <$> APPS (serve req w) !! i = Some mapping
      /\ MUTEX (serve req w) = false
  | Raise e =>
      status_codes (serve req w) = [500]
      /\ FILES (serve req w) = FILES w
      /\ APPS (serve req w) = alter (set_state refreshed) i (APPS w)
      /\ MUTEX (serve req w) = true
  end
  /\ forall (req2 : Request) (w2 : World),
       reaches_handle_request req2 = true ->
       dial_data_target req2 = true ->
       String.eqb (client_ip req2) "127.0.0.1"
         || String.eqb (client_ip req2) getIPAddress = false ->
       wfile w2 = [] ->
       status_codes (serve req2 w2) = [404].
Proof.
  intros Hd Hpost Ho Hm Hfresh Hr Hcb Hsize Hbytes. split.
  - assert (Hrun : route req w
                   = try_except
                       (bind (lift (urlparse (string_of_list_byte
                                                (body_data (make_handler req)))))
                          (fun parsed_data =>
                             bind (lift (first_values (parse_qs (url_query parsed_data))))
                               (fun dial_data =>
                                  bind (store_dial_data name dial_data)
                                    (fun _ =>
                                       bind (update_app i (set_dial_data dial_data))
                                         (fun _ =>
                                            bind (call_response
                                                    (RESPONSE_OK (header_Origin req)))
                                              (fun _ => MUTEX_release))))))
                       route_except
                       (set_APPS (alter (set_state refreshed) i (APPS w))
                          (set_MUTEX true w))).
    { rewrite (route_dispatch _ _ _ _ Hd (origin_passes_run _ _ _ Hm Ho)).
      unfold try_except, operation_handler, handle_dial_data.
      rewrite Hpost. change (String.eqb "POST" "POST") with true.
      step (run_acquire Hm). step (run_find Hr). step (run_get Hr).
      rewrite bind_lift, Hcb. cbn [negb]. cbv iota.
      rewrite (leb_true_gtb_false _ _ Hsize).
      unfold bind at 1, update_app at 1.
      unfold deliver_dial_data.
      rewrite bind_lift, is_ascii_bytes, Hbytes. cbn [negb]. cbv iota.
      rewrite bind_lift. unfold decode_ascii. rewrite Hbytes. reflexivity. }
    pose proof (registered_lookup _ _ _ _ Hr) as Hi.
    unfold status_codes, serve. rewrite Hrun. clear Hrun.
    unfold try_except. rewrite bind_lift.
    destruct (urlparse _) as [parsed_data|e]; cbv beta iota.
    + intros Hvalues.
      rewrite bind_lift, (first_values_nonempty _ Hvalues).
      compute_run w.
      split; [reflexivity|]. split; [reflexivity|]. split; [reflexivity|].
      split; [reflexivity|]. split; [|reflexivity].
      rewrite !list_lookup_alter_eq, Hi. reflexivity.
    + compute_run w. auto.
  - intros req2 w2 Hreach Htarget Hclient Hfresh2.
    unfold dial_data_target in Htarget.
    apply andb_prop in Htarget as [Htarget Hdata].
    apply andb_prop in Htarget as [Htarget Hhide].
    apply andb_prop in Htarget as [Htarget Happs].
    apply andb_prop in Htarget as [Hdd Hrun].
    apply negb_true_iff in Hdd, Hrun, Happs, Hhide.
    unfold status_codes, serve. rewrite (route_reaches _ _ Hreach).
    unfold try_except, handle_request. rewrite Hrun, Happs, Hhide, Hdata.
    change (client_address (make_handler req2)) with (client_ip req2).
    rewrite Hclient. compute_run w2. reflexivity.
Qed.

(** *** The Origin Validator *)

(** An [https] origin is accepted against any non-empty list of patterns:
    [host_matches] is the constant [True]. *)
Lemma is_uri_in_list_https (origin : string) (origin_list : list string) :
  startswith origin "https://" = true -> origin_list <> [] ->
  is_uri_in_list origin origin_list = Ok true.
Proof.
  intros Hs Hne. unfold is_uri_in_list. rewrite Hs.
  destruct origin as [|c origin]; [discriminate Hs|].
  destruct origin_list as [|candidate rest]; [contradiction|]. reflexivity.
Qed.

(** The loop of [is_allowed_origin] on an [https] origin: it stops at the
    first application of that name, and that application accepts the origin
    as soon as it declares a pattern. *)
Lemma is_allowed_origin_loop_https (origin app_name : string) (apps : list DialApp)
    (i : nat) (app : DialApp) :
  startswith origin "https://" = true ->
  list_find (fun a => DIAL_APP_NAME (cls a) = Some app_name) apps = Some (i, app) ->
  DIAL_ORIGINS (cls app) <> [] ->
  is_allowed_origin_loop origin app_name apps = Ok true.
Proof.
  intros Hs Hfind Hne. revert i Hfind.
  induction apps as [|a apps IH]; intros i Hfind; [discriminate Hfind|].
  cbn in Hfind. cbn [is_allowed_origin_loop].
  destruct (decide (DIAL_APP_NAME (cls a) = Some app_name)) as [Hname|Hname].
  - injection Hfind as <- <-.
    rewrite bool_decide_eq_true_2 by (symmetry; exact Hname).
    rewrite (is_uri_in_list_https _ _ Hs Hne).
    destruct (DIAL_ORIGINS (cls a)); [contradiction|reflexivity].
  - rewrite bool_decide_eq_false_2 by (intros Heq; apply Hname; symmetry; exact Heq).
    destruct (list_find _ apps) as [[j b]|] eqn:Hrest; [|discriminate Hfind].
    cbn in Hfind. injection Hfind as <- <-. exact (IH j eq_refl).
Qed.

(** C1.  The host comparison is missing ([host_matches] is the constant
    [True]): for an application that declares at least one allowed-origin
    pattern, every origin that starts with [https://] passes the Origin
    Validator, whatever its host and port and whatever the patterns are, and
    the lock is free again afterwards. *)
Theorem https_origin_always_passes (origin app_name : string) (i : nat)
    (app : DialApp) (w : World) :
  startswith origin "https://" = true ->
  MUTEX w = false ->
  registered app_name i app w ->
  DIAL_ORIGINS (cls app) <> [] ->
  is_uri_in_list origin (DIAL_ORIGINS (cls app)) = Ok true
  /\ is_allowed_origin (Some origin) app_name w = (Ok true, w).
Proof.
  intros Hs Hm Hr Hne. split; [exact (is_uri_in_list_https _ _ Hs Hne)|].
  unfold is_allowed_origin.
  destruct origin as [|c origin]; [discriminate Hs|].
  step (run_acquire Hm). unfold bind at 1, get_APPS at 1. cbn [APPS set_MUTEX].
  rewrite bind_lift, (is_allowed_origin_loop_https _ _ _ _ _ Hs Hr Hne).
  compute_run w. reflexivity.
Qed.

(** *** The answers of the router *)

Lemma reads_cases (req : Request) :
  reads req = Ok tt ->
  target req = "/ssdp/device-desc.xml" \/ reaches_handle_request req = true.
Proof.
  unfold reaches_handle_request. intros Hreads. rewrite Hreads.
  destruct (String.eqb_spec (target req) "/ssdp/device-desc.xml"); auto.
Qed.


Lemma route_cases (req : Request) (w : World) :
  (exists e, reads req = Raise e /\ route req w = (Raise e, w))
  \/ (target req = "/ssdp/device-desc.xml" /\ route req w = handle_dd w)
  \/ (String.eqb (target req) "/ssdp/device-desc.xml" = false
      /\ route req w
         = try_except (handle_request (make_handler req) (command req) (target req)
                         (header_Origin req) (header_Host req)) route_except w).
Proof.
  destruct (reads req) as [[]|e] eqn:Hreads.
  - destruct (reads_cases req Hreads) as [Hdd|Hreach].
    + right. left. split; [exact Hdd|apply route_device_descriptor, Hdd].
    + right. right. split; [|apply route_reaches, Hreach].
      apply reaches_reads in Hreach as (_ & Hdd & _). exact Hdd.
  - left. exists e. split; [reflexivity|apply route_raises, Hreads].
Qed.


(** X2.  A request for the device descriptor is answered with the
    descriptor whatever its method, its [Origin] header and the state of the
    lock, and changes nothing else. *)
Theorem device_descriptor_always_served (req : Request) (w : World) :
  target req = "/ssdp/device-desc.xml" ->
  serve req w
  = set_wfile (wfile w ++ [DD_XML getIPAddress DIAL_SERVER_PORT SP_FRIENDLY_NAME
                              SP_MANUFACTURER_NAME SP_MODEL_NAME DEVICE_UUID]) w.
Proof.
  intros Hdd. unfold serve. rewrite (route_device_descriptor _ _ Hdd). reflexivity.
Qed.


(** X3.  An [OPTIONS] request on a path one of the four rules takes, let
    through by the origin check, is answered with 204 and the methods of the
    rule; the registry, the data folder and the lock are as before. *)
Theorem options_answered_by_router (req : Request) (name methods : string) (w : World) :
  options_rule req = Some (name, methods) ->
  origin_passes (header_Origin req) name w = true ->
  MUTEX w = false ->
  serve req w = set_wfile (wfile w ++ [OPTIONS_RESPONSE (header_Origin req) methods]) w
  /\ status_code (OPTIONS_RESPONSE (header_Origin req) methods) = 204.
Proof.
  intros Hrule Ho Hm. split; [|reflexivity].
  pose proof (origin_passes_run _ _ _ Hm Ho) as Hrun.
  unfold options_rule in Hrule. unfold serve.
  destruct (String.eqb (command req) "OPTIONS") eqn:Hopt; [|discriminate].
  cbn [negb] in Hrule.
  destruct (reaches_handle_request req) eqn:Hreach; [|discriminate].
  cbn [negb] in Hrule. rewrite (route_reaches _ _ Hreach).
  unfold try_except, handle_request.
  destruct (endswith (target req) RUN_URI).
  { destruct (index_from_end _ 2) as [segment|e]; [|discriminate].
    injection Hrule as <- <-. rewrite bind_lift, (bind_Ok _ _ _ _ _ Hrun), Hopt.
    reflexivity. }
  destruct (startswith (target req) APPS_URI).
  { injection Hrule as <- <-. rewrite (bind_Ok _ _ _ _ _ Hrun), Hopt. reflexivity. }
  destruct (endswith (target req) HIDE_URI).
  { destruct (index_from_end _ 2) as [segment|e]; [|discriminate].
    injection Hrule as <- <-. rewrite bind_lift, (bind_Ok _ _ _ _ _ Hrun), Hopt.
    reflexivity. }
  destruct (endswith (target req) DIAL_DATA_URI); [|discriminate].
  change (client_address (make_handler req)) with (client_ip req).
  destruct (_ || _); [|discriminate].
  destruct (index_from_end _ 2) as [segment|e]; [|discriminate].
  rewrite bind_lift. destruct (truthy_str (Some segment)); [|discriminate].
  injection Hrule as <- <-. cbn [negb]. cbv iota.
  rewrite (bind_Ok _ _ _ _ _ Hrun), Hopt. reflexivity.
Qed.

(** X4.  A request with a method its rule does not serve ([/run], [/apps/]
    and [/hide] paths), or for a [/run] or [/hide] path without an
    application name, is answered with 501 and changes nothing. *)
Theorem unsupported_method_answers_501 (req : Request) (name : string) (w : World) :
  not_implemented_rule req = Some name ->
  origin_passes (header_Origin req) name w = true ->
  MUTEX w = false ->
  serve req w = set_wfile (wfile w ++ [ErrorResponse 501 "Not Implemented"]) w.
Proof.
  intros Hrule Ho Hm.
  pose proof (origin_passes_run _ _ _ Hm Ho) as Hrun.
  unfold not_implemented_rule in Hrule. unfold serve.
  destruct (String.eqb (command req) "OPTIONS") eqn:Hopt; [discriminate|].
  destruct (reaches_handle_request req) eqn:Hreach; [|discriminate].
  cbn [negb] in Hrule. rewrite (route_reaches _ _ Hreach).
  unfold try_except, handle_request.
  destruct (endswith (target req) RUN_URI).
  { destruct (index_from_end _ 2) as [segment|e]; [|discriminate].
    rewrite bind_lift. destruct (truthy_str _ && _) eqn:Hserved; [discriminate|].
    injection Hrule as <-. rewrite (bind_Ok _ _ _ _ _ Hrun), Hopt.
    reflexivity. }
  destruct (startswith (target req) APPS_URI).
  { destruct (String.eqb (command req) "POST") eqn:Hpost; [discriminate|].
    destruct (String.eqb (command req) "GET") eqn:Hget; [discriminate|].
    injection Hrule as <-. rewrite (bind_Ok _ _ _ _ _ Hrun), Hopt.
    reflexivity. }
  destruct (endswith (target req) HIDE_URI); [|discriminate].
  destruct (index_from_end _ 2) as [segment|e]; [|discriminate].
  rewrite bind_lift. destruct (truthy_str _ && _) eqn:Hserved; [discriminate|].
  injection Hrule as <-. rewrite (bind_Ok _ _ _ _ _ Hrun), Hopt.
  reflexivity.
Qed.


(** *** What the handlers answer and store *)

Lemma run_find_none {B} {f : option nat -> M B} {app_name : string} {w : World} :
  fst (find_app app_name w) = Ok None ->
  bind (find_app app_name) f (set_MUTEX true w) = f None (set_MUTEX true w).
Proof.
  unfold bind, find_app. cbn. intros [= Hnone].
  destruct (list_find _ (APPS w)); [discriminate Hnone|reflexivity].
Qed.

(** X6.  A start request past the payload checks whose start callback
    reports [RUNNING] is answered with 201 and the location of the
    application; the state [RUNNING] and the payload, as [last_payload], are
    stored on that application and on no other, and the lock is released. *)
Theorem start_running_answers_201 (req : Request) (name : string) (i : nat)
    (app : DialApp) (w : World) :
  dispatch req = Some (OpStart, name) ->
  origin_passes (header_Origin req) name w = true ->
  MUTEX w = false -> wfile w = [] ->
  registered name i app w ->
  (body_data_size (make_handler req) <=? DIAL_MAX_PAYLOAD)%Z = true ->
  is_ascii (PyBytes (body_data (make_handler req))) = Ok true ->
  additional_data_too_long (additional_data_url app name) = false ->
  dial_cb_start (cls app) (string_of_list_byte (body_data (make_handler req)))
    (query_params (make_handler req)) (additional_data_url app name)
  = Ok DialStatus.RUNNING ->
  let payload := string_of_list_byte (body_data (make_handler req)) in
  wfile (serve req w)
  = [CREATED_RESPONSE getIPAddress DIAL_SERVER_PORT name (header_Origin req)]
  /\ status_codes (serve req w) = [201]
  /\ APPS (serve req w)
     = alter (set_last_payload (Some payload)) i
         (alter (set_state DialStatus.RUNNING) i (APPS w))
  /\ APPS (serve req w) !! i
     = Some (set_last_payload (Some payload) (set_state DialStatus.RUNNING app))
  /\ MUTEX (serve req w) = false.
Proof.
  intros Hd Ho Hm Hfresh Hr Hsize Hascii Hurl Hcb payload.
  assert (Hrun : route req w
                 = (Ok tt,
                    mkWorld false
                      (alter (set_last_payload (Some payload)) i
                         (alter (set_state DialStatus.RUNNING) i (APPS w)))
                      (FILES w)
                      [CREATED_RESPONSE getIPAddress DIAL_SERVER_PORT name (header_Origin req)]
                      (LOG w))).
  { rewrite (route_dispatch _ _ _ _ Hd (origin_passes_run _ _ _ Hm Ho)).
    unfold try_except, operation_handler, handle_app_start.
    step (run_acquire Hm). step (run_find Hr). step (run_get Hr).
    rewrite (leb_true_gtb_false _ _ Hsize).
    rewrite bind_lift, Hascii. cbn [negb]. cbv beta iota. rewrite Hurl.
    rewrite is_ascii_bytes in Hascii. unfold decode_utf8.
    destruct (all_ascii _); [|discriminate]. rewrite !bind_lift, Hcb.
    compute_run w. reflexivity. }
  unfold status_codes, serve. rewrite Hrun. cbn.
  split; [reflexivity|]. split; [reflexivity|]. split; [reflexivity|].
  split; [|reflexivity].
  rewrite !list_lookup_alter_eq, (registered_lookup _ _ _ _ Hr). reflexivity.
Qed.

(** X7.  A start request past the payload checks whose start callback
    returns a value other than [RUNNING] is answered with one of 400, 401,
    501 and 503; the value returned is stored as the state of the
    application, its [last_payload] and every other application are as
    before, and the lock is released. *)
Theorem failed_start_keeps_last_payload (req : Request) (name : string) (i : nat)
    (app : DialApp) (w : World) (new_state : Z) :
  dispatch req = Some (OpStart, name) ->
  origin_passes (header_Origin req) name w = true ->
  MUTEX w = false -> wfile w = [] ->
  registered name i app w ->
  (body_data_size (make_handler req) <=? DIAL_MAX_PAYLOAD)%Z = true ->
  is_ascii (PyBytes (body_data (make_handler req))) = Ok true ->
  additional_data_too_long (additional_data_url app name) = false ->
  dial_cb_start (cls app) (string_of_list_byte (body_data (make_handler req)))
    (query_params (make_handler req)) (additional_data_url app name)
  = Ok new_state ->
  new_state <> DialStatus.RUNNING ->
  (exists code, status_codes (serve req w) = [code] /\ code ∈ [400; 401; 501; 503])
  /\ APPS (serve req w) = alter (set_state new_state) i (APPS w)
  /\ last_payload <$> APPS (serve req w) !! i = Some (last_payload app)
  /\ MUTEX (serve req w) = false.
Proof.
  intros Hd Ho Hm Hfresh Hr Hsize Hascii Hurl Hcb Hne.
  assert (Hrun : exists code message,
             code ∈ [400; 401; 501; 503]
             /\ route req w
                = (Ok tt,
                   mkWorld false (alter (set_state new_state) i (APPS w)) (FILES w)
                     [ErrorResponse code message] (LOG w))).
  { rewrite (route_dispatch _ _ _ _ Hd (origin_passes_run _ _ _ Hm Ho)).
    unfold try_except, operation_handler, handle_app_start.
    step (run_acquire Hm). step (run_find Hr). step (run_get Hr).
    rewrite (leb_true_gtb_false _ _ Hsize).
    rewrite bind_lift, Hascii. cbn [negb]. cbv beta iota. rewrite Hurl.
    rewrite is_ascii_bytes in Hascii. unfold decode_utf8.
    destruct (all_ascii _); [|discriminate]. rewrite !bind_lift, Hcb.
    rewrite (proj2 (Z.eqb_neq _ _) Hne).
    destruct (new_state =? DialStatus.ERROR_FORBIDDEN)%Z;
      [exists 400, "403 Forbidden"
      |destruct (new_state =? DialStatus.ERROR_UNAUTH)%Z;
        [exists 401, "401 Unauthorized"
        |destruct (new_state =? DialStatus.ERROR_NOT_IMPLEMENTED)%Z;
          [exists 501, "501 Not Implemented"|exists 503, "503 Service Unavailable"]]];
      (split; [|compute_run w; reflexivity]);
      repeat (apply elem_of_cons; first [left; reflexivity | right]). }
  destruct Hrun as (code & message & Hcode & Hrun).
  unfold status_codes, serve. rewrite Hrun. cbn.
  split; [exists code; split; [reflexivity|exact Hcode]|].
  split; [reflexivity|]. split; [|reflexivity].
  rewrite list_lookup_alter_eq, (registered_lookup _ _ _ _ Hr). reflexivity.
Qed.

(** X8.  A stop request for an application whose status callback reports a
    state other than [STOPPED] and whose stop callback returns is answered
    with 200; the application is stored as [STOPPED], the others are as
    before, and the lock is released. *)
Theorem stop_answers_200 (req : Request) (name : string) (i : nat)
    (app : DialApp) (w : World) (refreshed : Z) :
  dispatch req = Some (OpStop, name) ->
  origin_passes (header_Origin req) name w = true ->
  MUTEX w = false -> wfile w = [] ->
  registered name i app w ->
  dial_cb_status (cls app) = Ok refreshed ->
  refreshed <> DialStatus.STOPPED ->
  dial_cb_stop (cls app) = Ok tt ->
  wfile (serve req w) = [STOP_RESPONSE (header_Origin req)]
  /\ status_codes (serve req w) = [200]
  /\ APPS (serve req w)
     = alter (set_state DialStatus.STOPPED) i (alter (set_state refreshed) i (APPS w))
  /\ state <$> APPS (serve req w) !! i = Some DialStatus.STOPPED
  /\ MUTEX (serve req w) = false.
Proof.
  intros Hd Ho Hm Hfresh Hr Hst Hne Hstop.
  assert (Hrun : route req w
                 = (Ok tt,
                    mkWorld false
                      (alter (set_state DialStatus.STOPPED) i
                         (alter (set_state refreshed) i (APPS w)))
                      (FILES w) [STOP_RESPONSE (header_Origin req)] (LOG w))).
  { rewrite (route_dispatch _ _ _ _ Hd (origin_passes_run _ _ _ Hm Ho)).
    unfold try_except, operation_handler, handle_app_stop.
    step (run_acquire Hm). step (run_find Hr).
    rewrite bind_assoc. step (run_get Hr). rewrite bind_assoc, bind_lift, Hst.
    rewrite (proj2 (Z.eqb_neq _ _) Hne).
    rewrite !bind_assoc. unfold bind at 1, update_app at 1.
    rewrite bind_assoc, bind_lift, Hstop.
    compute_run w. reflexivity. }
  unfold status_codes, serve. rewrite Hrun. cbn.
  split; [reflexivity|]. split; [reflexivity|]. split; [reflexivity|].
  split; [|reflexivity].
  rewrite !list_lookup_alter_eq, (registered_lookup _ _ _ _ Hr). reflexivity.
Qed.

(** X9.  A stop request for an application that reports [STOPPED], and a
    hide request for one that reports neither [RUNNING] nor [HIDE], is
    answered with 404 whatever the stop or hide callback would do: the
    callback is not called.  The state reported is stored and the lock is
    released. *)
Theorem idle_application_answers_404 (req : Request) (op : Operation) (name : string)
    (i : nat) (app : DialApp) (w : World) (refreshed : Z) :
  dispatch req = Some (op, name) ->
  origin_passes (header_Origin req) name w = true ->
  MUTEX w = false ->
  registered name i app w ->
  dial_cb_status (cls app) = Ok refreshed ->
  (op = OpStop /\ refreshed = DialStatus.STOPPED)
  \/ (op = OpHide /\ refreshed <> DialStatus.RUNNING /\ refreshed <> DialStatus.HIDE) ->
  serve req w
  = set_APPS (alter (set_state refreshed) i (APPS w))
      (set_wfile (wfile w ++ [ErrorResponse 404 "Not found"]) w).
Proof.
  intros Hd Ho Hm Hr Hst Hidle. unfold serve.
  rewrite (route_dispatch _ _ _ _ Hd (origin_passes_run _ _ _ Hm Ho)).
  unfold try_except, operation_handler.
  destruct Hidle as [[-> ->]|(-> & Hrunning & Hhidden)].
  - unfold handle_app_stop. step (run_acquire Hm). step (run_find Hr).
    rewrite bind_assoc. step (run_get Hr). rewrite bind_assoc, bind_lift, Hst.
    compute_run w. reflexivity.
  - unfold handle_app_hide. step (run_acquire Hm). step (run_find Hr).
    rewrite bind_assoc. step (run_get Hr). rewrite bind_assoc, bind_lift, Hst.
    rewrite (proj2 (Z.eqb_neq _ _) Hrunning), (proj2 (Z.eqb_neq _ _) Hhidden).
    compute_run w. reflexivity.
Qed.

(** X10.  A hide request for an application that reports [RUNNING] or
    [HIDE]: when the hide callback returns [HIDE] the answer is 200 and
    [HIDE] is stored; when it returns anything else (the reference
    application returns [ERROR_NOT_IMPLEMENTED]) the answer is 501 and the
    state stored is the one the status callback reported.  The lock is
    released in both cases. *)
Theorem hide_answer (req : Request) (name : string) (i : nat)
    (app : DialApp) (w : World) (refreshed status : Z) :
  dispatch req = Some (OpHide, name) ->
  origin_passes (header_Origin req) name w = true ->
  MUTEX w = false -> wfile w = [] ->
  registered name i app w ->
  dial_cb_status (cls app) = Ok refreshed ->
  refreshed = DialStatus.RUNNING \/ refreshed = DialStatus.HIDE ->
  dial_cb_hide (cls app) = Ok status ->
  status_codes (serve req w) = [if (status =? DialStatus.HIDE)%Z then 200 else 501]
  /\ state <$> APPS (serve req w) !! i
     = Some (if (status =? DialStatus.HIDE)%Z then DialStatus.HIDE else refreshed)
  /\ (forall j, j <> i -> APPS (serve req w) !! j = APPS w !! j)
  /\ MUTEX (serve req w) = false.
Proof.
  intros Hd Ho Hm Hfresh Hr Hst Hshown Hhide.
  pose proof (registered_lookup _ _ _ _ Hr) as Hi.
  assert (Hrun : route req w
                 = (Ok tt,
                    if (status =? DialStatus.HIDE)%Z
                    then mkWorld false
                           (alter (set_state DialStatus.HIDE) i
                              (alter (set_state refreshed) i (APPS w)))
                           (FILES w) [RESPONSE_OK (header_Origin req)] (LOG w)
                    else mkWorld false (alter (set_state refreshed) i (APPS w))
                           (FILES w) [ErrorResponse 501 "501 Not Implemented"]
                           (LOG w ++ [LOG_error "Hide not implemented for reference." None]))).
  { rewrite (route_dispatch _ _ _ _ Hd (origin_passes_run _ _ _ Hm Ho)).
    unfold try_except, operation_handler, handle_app_hide.
    step (run_acquire Hm). step (run_find Hr).
    rewrite bind_assoc. step (run_get Hr). rewrite bind_assoc, bind_lift, Hst.
    replace (negb (refreshed =? DialStatus.RUNNING)%Z
             && negb (refreshed =? DialStatus.HIDE)%Z) with false
      by (destruct Hshown as [-> | ->]; reflexivity).
    rewrite !bind_assoc. unfold bind at 1, update_app at 1.
    rewrite bind_assoc, bind_lift, Hhide.
    destruct (status =? DialStatus.HIDE)%Z; compute_run w; reflexivity. }
  unfold status_codes, serve. rewrite Hrun.
  destruct (status =? DialStatus.HIDE)%Z; cbn;
    (split; [reflexivity|]); (split; [|split; [|reflexivity]]).
  - rewrite !list_lookup_alter_eq, Hi. reflexivity.
  - intros j Hj. rewrite !list_lookup_alter_ne by (intros Heq; apply Hj; symmetry; exact Heq).
    reflexivity.
  - rewrite !list_lookup_alter_eq, Hi. reflexivity.
  - intros j Hj. rewrite !list_lookup_alter_ne by (intros Heq; apply Hj; symmetry; exact Heq).
    reflexivity.
Qed.

(** X11.  A request for one of the five operations that names an
    application the registry does not hold is answered with 404; the
    registry, the data folder and the log are as before and the lock is
    released.  (For a status request the client version must parse: it is
    read before the application is looked up.) *)
Theorem unknown_application_answers_404 (req : Request) (op : Operation)
    (name : string) (w : World) (client_version : float) :
  dispatch req = Some (op, name) ->
  origin_passes (header_Origin req) name w = true ->
  MUTEX w = false ->
  fst (find_app name w) = Ok None ->
  (op = OpStatus -> client_version_of req = Ok client_version) ->
  serve req w = set_wfile (wfile w ++ [ErrorResponse 404 "Not found"]) w.
Proof.
  intros Hd Ho Hm Hnone Hver. unfold serve.
  rewrite (route_dispatch _ _ _ _ Hd (origin_passes_run _ _ _ Hm Ho)).
  unfold try_except, operation_handler.
  destruct op.
  - unfold handle_app_stop. step (run_acquire Hm). step (run_find_none Hnone).
    compute_run w. reflexivity.
  - unfold handle_app_start. step (run_acquire Hm). step (run_find_none Hnone).
    compute_run w. reflexivity.
  - unfold handle_app_status. fold (client_version_of req).
    rewrite bind_lift, (Hver eq_refl).
    step (run_acquire Hm). step (run_find_none Hnone).
    compute_run w. reflexivity.
  - unfold handle_app_hide. step (run_acquire Hm). step (run_find_none Hnone).
    compute_run w. reflexivity.
  - unfold handle_dial_data. step (run_acquire Hm). step (run_find_none Hnone).
    compute_run w. reflexivity.
Qed.

(** *** Origins the registry does not know *)

Lemma is_allowed_origin_loop_undeclared (origin app_name : string) (apps : list DialApp) :
  no_origin_declared app_name apps ->
  is_allowed_origin_loop origin app_name apps = Ok false.
Proof.
  unfold no_origin_declared.
  induction 1 as [|a apps Hnone _ IH]; [reflexivity|].
  cbn [is_allowed_origin_loop].
  destruct (bool_decide (Some app_name = DIAL_APP_NAME (cls a))) eqn:Hname; [|exact IH].
  apply bool_decide_eq_true_1 in Hname. rewrite (Hnone (eq_sym Hname)). exact IH.
Qed.

(** X12.  A request that carries an [Origin] header for an application name
    under which nothing that declares an allowed origin is registered (the
    name is unknown, or its applications leave [DIAL_ORIGINS] empty) is
    answered with 403 before any handler runs; no pattern is matched, and
    the registry, the data folder, the log and the lock are as before. *)
Theorem undeclared_origin_answers_403 (req : Request) (op : Operation)
    (name : string) (w : World) :
  dispatch req = Some (op, name) ->
  truthy_str (header_Origin req) = true ->
  MUTEX w = false ->
  no_origin_declared name (APPS w) ->
  serve req w = set_wfile (wfile w ++ [ErrorResponse 403 "Forbidden"]) w.
Proof.
  intros Hd Ho Hm Hnone.
  assert (Hrefused : origin_refused (header_Origin req) name w = (Ok true, w)).
  { unfold origin_refused. rewrite Ho. unfold is_allowed_origin.
    destruct (header_Origin req) as [[|c o]|]; try discriminate Ho.
    rewrite bind_assoc. step (run_acquire Hm).
    rewrite bind_assoc. unfold bind at 1, get_APPS at 1. cbn [APPS set_MUTEX].
    rewrite bind_assoc, bind_lift, (is_allowed_origin_loop_undeclared _ _ _ Hnone).
    compute_run w. reflexivity. }
  unfold serve. rewrite (route_dispatch_origin _ _ _ _ _ Hd Hrefused).
  compute_run w. reflexivity.
Qed.

(** *** The checks of the status and dial-data handlers *)

(** X13.  A status request whose [clientDialVer] cannot be read as a number
    is answered with 500 by [route]: the conversion is the first statement
    of the handler, so the lock is not taken, the application is not looked
    up, and the registry is as before. *)
Theorem unreadable_client_version_answers_500 (req : Request) (name : string)
    (w : World) (e : PyExc) :
  dispatch req = Some (OpStatus, name) ->
  origin_passes (header_Origin req) name w = true ->
  MUTEX w = false ->
  client_version_of req = Raise e ->
  serve req w
  = set_LOG (LOG w ++ [LOG_error "handle_request raised an exception: {}" (Some e);
                       LOG_error "traceback.format_exc()" (Some e)])
      (set_wfile (wfile w ++ [ErrorResponse 500 "ERROR"]) w).
Proof.
  intros Hd Ho Hm Hver. unfold serve.
  rewrite (route_dispatch _ _ _ _ Hd (origin_passes_run _ _ _ Hm Ho)).
  unfold try_except, operation_handler, handle_app_status.
  fold (client_version_of req). rewrite bind_lift, Hver.
  compute_run w. rewrite <- app_assoc. reflexivity.
Qed.

(** X14.  A status request for an application whose [dial_data], rendered as
    XML elements, takes more than 8192 bytes is answered with 500; the
    status callback is not called, the state stored is as before, the
    failure is logged and the lock is released. *)
Theorem oversized_status_data_answers_500 (req : Request) (name : string) (i : nat)
    (app : DialApp) (w : World) (client_version : float) :
  dispatch req = Some (OpStatus, name) ->
  origin_passes (header_Origin req) name w = true ->
  MUTEX w = false ->
  registered name i app w ->
  client_version_of req = Ok client_version ->
  (get_string_size (status_dial_data (dial_data app)) >? DIAL_DATA_SIZE)%Z = true ->
  serve req w
  = set_LOG (LOG w ++ [LOG_error "Exceeded maximum size for dial_data" None])
      (set_wfile (wfile w ++ [ErrorResponse 500 "500 Internal Server Error"]) w).
Proof.
  intros Hd Ho Hm Hr Hver Hsize. unfold serve.
  rewrite (route_dispatch _ _ _ _ Hd (origin_passes_run _ _ _ Hm Ho)).
  unfold try_except, operation_handler, handle_app_status.
  fold (client_version_of req). rewrite bind_lift, Hver.
  step (run_acquire Hm). step (run_find Hr). step (run_get Hr).
  rewrite Hsize. compute_run w. reflexivity.
Qed.


(** X16.  A dial-data request that is not a [POST] carries its payload in
    the query string, a [str]: [is_ascii] calls [decode] on it, which a
    [str] does not have, and the [AttributeError] is not the exception its
    [except] clause names.  Every such request that reaches that point is
    answered with 500 by [route]; nothing is stored, the state of the
    application has been refreshed, and the lock stays held. *)
Theorem dial_data_without_body_answers_500 (req : Request) (name : string) (i : nat)
    (app : DialApp) (w : World) (refreshed : Z) :
  dispatch req = Some (OpDialData, name) ->
  String.eqb (command req) "POST" = false ->
  origin_passes (header_Origin req) name w = true ->
  MUTEX w = false -> wfile w = [] ->
  registered name i app w ->
  dial_cb_status (cls app) = Ok refreshed ->
  (get_string_size (url_query (parsed_url req)) <=? DIAL_DATA_MAX_PAYLOAD)%Z = true ->
  status_codes (serve req w) = [500]
  /\ LOG_error "handle_request raised an exception: {}" (Some AttributeError)
     ∈ LOG (serve req w)
  /\ APPS (serve req w) = alter (set_state refreshed) i (APPS w)
  /\ FILES (serve req w) = FILES w
  /\ MUTEX (serve req w) = true.
Proof.
  intros Hd Hmethod Ho Hm Hfresh Hr Hst Hsize.
  assert (Hrun : route req w
                 = (Ok tt,
                    mkWorld true (alter (set_state refreshed) i (APPS w)) (FILES w)
                      [ErrorResponse 500 "ERROR"]
                      ((LOG w ++ [LOG_error "handle_request raised an exception: {}"
                                    (Some AttributeError)])
                         ++ [LOG_error "traceback.format_exc()" (Some AttributeError)]))).
  { rewrite (route_dispatch _ _ _ _ Hd (origin_passes_run _ _ _ Hm Ho)).
    unfold try_except, operation_handler, handle_dial_data. rewrite Hmethod.
    step (run_acquire Hm). step (run_find Hr). step (run_get Hr).
    rewrite bind_lift, Hst. cbn [negb]. cbv iota.
    unfold bind at 1, update_app at 1.
    destruct (reaches_reads _ (dispatch_reaches _ _ _ Hd)) as (Hparse & _).
    change (path (make_handler req)) with (raw_path req).
    rewrite bind_lift, Hparse, (leb_true_gtb_false _ _ Hsize).
    compute_run w. reflexivity. }
  unfold status_codes, serve. rewrite Hrun. cbn.
  split; [reflexivity|]. split; [apply caught_is_logged|auto].
Qed.

(** *** The additional-data URL *)

Lemma get_string_size_app (s t : string) :
  get_string_size (s +:+ t) = get_string_size s + get_string_size t.
Proof. induction s as [|c s IH]; simpl; [reflexivity|rewrite IH; lia]. Qed.

(** The URL built for an application that uses additional data is 38 bytes
    longer than the name: it is over the limit of 1024 exactly when the name
    takes more than 986 bytes. *)
Lemma additional_data_url_bound (app : DialApp) (app_name : string) :
  USE_ADDITIONAL_DATA (cls app) = true ->
  additional_data_too_long (additional_data_url app app_name)
  = (get_string_size app_name >? 986)%Z.
Proof.
  intros Huse. unfold additional_data_too_long, additional_data_url. rewrite Huse.
  rewrite !get_string_size_app.
  change (get_string_size "http://127.0.0.1:") with 17.
  replace (get_string_size (pretty DIAL_SERVER_PORT)) with 5 by (vm_compute; reflexivity).
  change (get_string_size "/apps/") with 6.
  change (get_string_size "/dial_data") with 10.
  unfold DIAL_MAX_ADDITIONALURL. rewrite !Z.gtb_ltb.
  destruct (Z.ltb_spec 986 (get_string_size app_name));
    destruct (Z.ltb_spec 1024 (17 + (5 + (6 + (get_string_size app_name + 10)))));
    (reflexivity || lia).
Qed.

(** X17.  For an application that sets [USE_ADDITIONAL_DATA], the
    additional-data URL is over its limit of 1024 bytes exactly when the
    application name takes more than 986 bytes in UTF-8; a start request
    for such a name, past the payload checks, is answered with 500 without
    the start callback being called: the registry is as before, the failure
    is logged and the lock is released. *)
Theorem long_name_start_answers_500 (req : Request) (name : string) (i : nat)
    (app : DialApp) (w : World) :
  dispatch req = Some (OpStart, name) ->
  origin_passes (header_Origin req) name w = true ->
  MUTEX w = false ->
  registered name i app w ->
  (body_data_size (make_handler req) <=? DIAL_MAX_PAYLOAD)%Z = true ->
  is_ascii (PyBytes (body_data (make_handler req))) = Ok true ->
  USE_ADDITIONAL_DATA (cls app) = true ->
  get_string_size name > 986 ->
  serve req w
  = set_LOG (LOG w ++ [LOG_error "Exceeded maximum size for additional_data_param" None])
      (set_wfile (wfile w ++ [ErrorResponse 500 "500 Internal Server Error"]) w).
Proof.
  intros Hd Ho Hm Hr Hsize Hascii Huse Hlong. unfold serve.
  rewrite (route_dispatch _ _ _ _ Hd (origin_passes_run _ _ _ Hm Ho)).
  unfold try_except, operation_handler, handle_app_start.
  step (run_acquire Hm). step (run_find Hr). step (run_get Hr).
  rewrite (leb_true_gtb_false _ _ Hsize).
  rewrite bind_lift, Hascii. cbn [negb]. cbv beta iota.
  rewrite (additional_data_url_bound _ _ Huse).
  apply Z.gt_lt, Z.ltb_lt in Hlong. rewrite <- Z.gtb_ltb in Hlong. rewrite Hlong.
  compute_run w. reflexivity.
Qed.

(** X18.  A status request for an application whose status callback returns
    a value that is none of [STOPPED], [HIDE] and [RUNNING] (an error value)
    reports the state [stopped] together with a run link, which a stopped
    application does not get; the value returned is what is stored. *)
Theorem error_state_reported_stopped_with_link (req : Request) (name : string)
    (i : nat) (app : DialApp) (w : World) (client_version : float) (local_state : Z) :
  dispatch req = Some (OpStatus, name) ->
  origin_passes (header_Origin req) name w = true ->
  MUTEX w = false -> wfile w = [] ->
  registered name i app w ->
  client_version_of req = Ok client_version ->
  (get_string_size (status_dial_data (dial_data app)) <=? DIAL_DATA_SIZE)%Z = true ->
  dial_cb_status (cls app) = Ok local_state ->
  local_state <> DialStatus.STOPPED ->
  local_state <> DialStatus.HIDE ->
  local_state <> DialStatus.RUNNING ->
  wfile (serve req w)
  = [STATUS_RESPONSE (header_Origin req) DIAL_VERSION name "true" "stopped" run_link
       (status_dial_data (dial_data app) +:+ CRLF +:+ "  ")]
  /\ state <$> APPS (serve req w) !! i = Some local_state.
Proof.
  intros Hd Ho Hm Hfresh Hr Hver Hsize Hcb Hstopped Hhidden Hrunning.
  unfold client_version_of in Hver.
  destruct (index0 _) as [v|] eqn:Hv; [|discriminate Hver]. cbn [res_bind] in Hver.
  destruct (status_answer req name i app w v client_version local_state
              Hd Ho Hm Hfresh Hr Hv Hver Hsize Hcb) as (Hout & Happs & _).
  rewrite (proj2 (Z.eqb_neq _ _) Hhidden), andb_false_r in Hout.
  rewrite (proj2 (Z.eqb_neq _ _) Hhidden), (proj2 (Z.eqb_neq _ _) Hrunning),
    (proj2 (Z.eqb_neq _ _) Hstopped) in Hout.
  split; [exact Hout|].
  rewrite Happs, list_lookup_alter_eq, (registered_lookup _ _ _ _ Hr). reflexivity.
Qed.

(** *** What no request changes *)

Lemma cls_alter (f : DialApp -> DialApp) (i : nat) (apps : list DialApp) :
  (forall a, cls (f a) = cls a) -> cls <$> alter f i apps = cls <$> apps.
Proof.
  intros Hf. revert i. induction apps as [|a apps IH]; intros [|i]; cbn;
    rewrite ?Hf, ?IH; reflexivity.
Qed.

Lemma handle_app_stop_handled (server : Handler) (name : string) (o : option string)
    (w : World) :
  handled true w (handle_app_stop server name o w).
Proof.
  destruct w as [m apps files out log].
  unfold handle_app_stop, bind, MUTEX_acquire_nonblocking, find_app, get_app, lift,
    update_app, call_error, call_response, MUTEX_release.
  open_run; close_handled cls_alter.
Qed.

Lemma handle_app_hide_handled (server : Handler) (name : string) (o : option string)
    (w : World) :
  handled true w (handle_app_hide server name o w).
Proof.
  destruct w as [m apps files out log].
  unfold handle_app_hide, bind, MUTEX_acquire_nonblocking, find_app, get_app, lift,
    update_app, call_error, call_response, MUTEX_release, LOGGER.
  open_run; close_handled cls_alter.
Qed.

Lemma handle_app_start_handled (server : Handler) (name : string) (o : option string)
    (w : World) :
  handled true w (handle_app_start server name o w).
Proof.
  destruct w as [m apps files out log].
  unfold handle_app_start, bind, MUTEX_acquire_nonblocking, find_app, get_app, lift,
    update_app, call_error, call_response, MUTEX_release, LOGGER.
  destruct m; cbn; [close_handled cls_alter|].
  destruct (list_find _ apps) as [[i a]|]; cbn; [|close_handled cls_alter].
  destruct (apps !! i) as [app|]; cbn; [|close_handled cls_alter].
  destruct (_ >? _)%Z; [close_handled cls_alter|].
  destruct (is_ascii _) as [[|]|e]; cbn; [|close_handled cls_alter..].
  destruct (additional_data_too_long _); [close_handled cls_alter|].
  destruct (decode_utf8 _) as [payload|e]; cbn; [|close_handled cls_alter].
  destruct (dial_cb_start _ _ _ _) as [new_state|e]; cbn; [|close_handled cls_alter].
  destruct (new_state =? DialStatus.RUNNING)%Z; [close_handled cls_alter|].
  destruct (new_state =? DialStatus.ERROR_FORBIDDEN)%Z; [close_handled cls_alter|].
  destruct (new_state =? DialStatus.ERROR_UNAUTH)%Z; [close_handled cls_alter|].
  destruct (new_state =? DialStatus.ERROR_NOT_IMPLEMENTED)%Z; close_handled cls_alter.
Qed.

Lemma handle_app_status_handled (server : Handler) (name : string) (o : option string)
    (w : World) :
  handled true w (handle_app_status server name o w).
Proof.
  destruct w as [m apps files out log].
  unfold handle_app_status, bind, MUTEX_acquire_nonblocking, find_app, get_app, lift,
    update_app, call_error, call_response, MUTEX_release, LOGGER.
  destruct (res_bind _ _) as [client_version|e]; [|close_handled cls_alter].
  destruct m; cbn; [close_handled cls_alter|].
  destruct (list_find _ apps) as [[i a]|]; cbn; [|close_handled cls_alter].
  destruct (apps !! i) as [app|]; cbn; [|close_handled cls_alter].
  destruct (_ >? _)%Z; [close_handled cls_alter|].
  destruct (dial_cb_status _) as [local_state|e]; close_handled cls_alter.
Qed.

Lemma handle_dial_data_handled (server : Handler) (name : string) (o : option string)
    (use_payload : bool) (w : World) :
  handled false w (handle_dial_data server name o use_payload w).
Proof.
  destruct w as [m apps files out log].
  unfold handle_dial_data, deliver_dial_data, store_dial_data, save_file_def, bind,
    MUTEX_acquire_nonblocking, find_app, get_app, lift,
    update_app, call_error, call_response, MUTEX_release, LOGGER.
  destruct m; cbn; [close_handled cls_alter|].
  destruct (list_find _ apps) as [[i a]|]; cbn; [|close_handled cls_alter].
  destruct (apps !! i) as [app|]; cbn; [|close_handled cls_alter].
  destruct (dial_cb_status _) as [refreshed|e]; cbn; [|close_handled cls_alter].
  destruct use_payload; cbn.
  - destruct (_ >? _)%Z; [close_handled cls_alter|]. open_run; close_handled cls_alter.
  - destruct (urlparse (path server)) as [parsed_path|e]; cbn; [|close_handled cls_alter].
    destruct (_ >? _)%Z; [close_handled cls_alter|]. open_run; close_handled cls_alter.
Qed.

(** The origin check writes no response and touches neither the registry
    nor the data folder; when it returns, the lock is as it found it. *)
Lemma origin_refused_frame (o : option string) (n : string) (w : World) :
  APPS (origin_refused o n w).2 = APPS w
  /\ FILES (origin_refused o n w).2 = FILES w
  /\ wfile (origin_refused o n w).2 = wfile w
  /\ (forall b, (origin_refused o n w).1 = Ok b -> MUTEX (origin_refused o n w).2 = MUTEX w).
Proof.
  destruct w as [m apps files out log].
  unfold origin_refused, is_allowed_origin, bind, MUTEX_acquire_nonblocking, get_APPS,
    lift, MUTEX_release, ret.
  destruct o as [[|c o]|]; cbn; auto.
  destruct m; cbn; auto.
  destruct (is_allowed_origin_loop _ _ _) as [hit|e]; cbn; auto.
  repeat split; auto. discriminate.
Qed.

Lemma handled_after_origin_check (keeps_files : bool) (o : option string) (n : string)
    (w : World) (f : bool -> M unit) :
  (forall b w1, handled keeps_files w1 (f b w1)) ->
  handled keeps_files w (bind (origin_refused o n) f w).
Proof.
  intros Hf. destruct (origin_refused_frame o n w) as (Happs & Hfiles & Hout & Hlock).
  unfold bind. destruct (origin_refused o n w) as [[b|e] w1]; cbn in *.
  - specialize (Hf b w1). unfold handled in *.
    rewrite <- Happs, <- Hfiles, <- Hout, <- (Hlock b eq_refl). exact Hf.
  - unfold handled. cbn. rewrite Happs. auto.
Qed.

Lemma handled_call_error (keeps_files : bool) (code : Z) (message : string) (w : World) :
  handled keeps_files w (call_error code message w).
Proof. unfold handled, call_error. cbn. eauto. Qed.

Lemma handled_call_response (keeps_files : bool) (data : Response) (w : World) :
  handled keeps_files w (call_response data w).
Proof. unfold handled, call_response. cbn. eauto. Qed.

Lemma handled_lift_raise (keeps_files : bool) (e : PyExc) (w : World) :
  handled keeps_files w (Raise e, w).
Proof. unfold handled. cbn. auto. Qed.

(** [handle_request] on a path one of its rules takes. *)
Lemma handle_request_handled (server : Handler) (req_method req_path : string)
    (o h : option string) (w : World) :
  rule_matches req_path = true ->
  handled (control_rule req_path) w (handle_request server req_method req_path o h w).
Proof.
  unfold rule_matches, control_rule, handle_request.
  destruct (endswith req_path RUN_URI).
  { intros _. cbn [orb]. rewrite bind_lift.
    destruct (index_from_end _ 2) as [segment|e]; [|apply handled_lift_raise].
    apply handled_after_origin_check. intros b w1.
    destruct b; [apply handled_call_error|].
    destruct (String.eqb req_method "OPTIONS"); [apply handled_call_response|].
    destruct (_ && _); [apply handle_app_stop_handled|apply handled_call_error]. }
  destruct (startswith req_path APPS_URI).
  { intros _. cbn [orb].
    apply handled_after_origin_check. intros b w1.
    destruct b; [apply handled_call_error|].
    destruct (String.eqb req_method "OPTIONS"); [apply handled_call_response|].
    destruct (String.eqb req_method "POST"); [apply handle_app_start_handled|].
    destruct (String.eqb req_method "GET");
      [apply handle_app_status_handled|apply handled_call_error]. }
  destruct (endswith req_path HIDE_URI).
  { intros _. cbn [orb]. rewrite bind_lift.
    destruct (index_from_end _ 2) as [segment|e]; [|apply handled_lift_raise].
    apply handled_after_origin_check. intros b w1.
    destruct b; [apply handled_call_error|].
    destruct (String.eqb req_method "OPTIONS"); [apply handled_call_response|].
    destruct (_ && _); [apply handle_app_hide_handled|apply handled_call_error]. }
  cbn [orb]. intros ->.
  destruct (_ || _); [|apply handled_call_error].
  rewrite bind_lift.
  destruct (index_from_end _ 2) as [app_name|e]; [|apply handled_lift_raise].
  destruct (negb _); [apply handled_call_error|].
  apply handled_after_origin_check. intros b w1.
  destruct b; [apply handled_call_error|].
  destruct (String.eqb req_method "OPTIONS"); [apply handled_call_response|].
  apply handle_dial_data_handled.
Qed.

Lemma handle_request_unmatched (server : Handler) (req_method req_path : string)
    (o h : option string) (w : World) :
  rule_matches req_path = false ->
  handle_request server req_method req_path o h w = (Ok tt, w).
Proof.
  unfold rule_matches, control_rule, handle_request.
  destruct (endswith req_path RUN_URI); [discriminate|].
  destruct (startswith req_path APPS_URI); [discriminate|].
  destruct (endswith req_path HIDE_URI); [discriminate|].
  cbn [orb]. intros ->. reflexivity.
Qed.

(** X19.  When [handle_request] returns, the lock is as the request found
    it: every path that does not end in an exception releases the lock it
    took, and none releases a lock it did not take. *)
Theorem returning_handler_restores_lock (server : Handler) (req_method req_path : string)
    (o h : option string) (w : World) :
  (handle_request server req_method req_path o h w).1 = Ok tt ->
  MUTEX (handle_request server req_method req_path o h w).2 = MUTEX w.
Proof.
  destruct (rule_matches req_path) eqn:Hrule.
  - destruct (handle_request_handled server req_method req_path o h w Hrule)
      as (_ & _ & Hr).
    intros Hok. rewrite Hok in Hr. exact (proj1 Hr).
  - rewrite (handle_request_unmatched _ _ _ _ _ _ Hrule). reflexivity.
Qed.

Lemma route_keeps_classes (req : Request) (w : World) :
  cls <$> APPS (serve req w) = cls <$> APPS w.
Proof.
  unfold serve.
  destruct (route_cases req w) as [(e & _ & ->)|[(_ & ->)|(_ & ->)]]; [reflexivity..|].
  unfold try_except.
  destruct (rule_matches (target req)) eqn:Hrule.
  - destruct (handle_request_handled (make_handler req) (command req) _
                (header_Origin req) (header_Host req) w Hrule) as (Hc & _).
    destruct (handle_request _ _ _ _ _ w) as [[[]|e] w1]; exact Hc.
  - rewrite (handle_request_unmatched _ _ _ _ _ _ Hrule). reflexivity.
Qed.

(** X20.  No request adds, removes, reorders or replaces an application:
    after any request the registry holds as many applications as before,
    each position with the class it had, whatever the callbacks return or
    raise. *)
Theorem requests_keep_registry_classes (req : Request) (w : World) :
  length (APPS (serve req w)) = length (APPS w)
  /\ forall i, cls <$> APPS (serve req w) !! i = cls <$> APPS w !! i.
Proof.
  pose proof (route_keeps_classes req w) as Hcls. split.
  - rewrite <- (length_fmap cls), Hcls. apply length_fmap.
  - intros i. rewrite <- !list_lookup_fmap, Hcls. reflexivity.
Qed.



(** X22.  Only the dial-data rule writes to the data folder: a request on
    any path another rule takes, or no rule, leaves every file as it was. *)
Theorem only_dial_data_writes_files (req : Request) (w : World) :
  dial_data_target req = false ->
  FILES (serve req w) = FILES w.
Proof.
  unfold dial_data_target, serve. intros Hrule.
  destruct (route_cases req w) as [(e & _ & ->)|[(_ & ->)|(Hdd & ->)]]; [reflexivity..|].
  rewrite Hdd in Hrule.
  unfold try_except. cbn [negb andb] in Hrule.
  destruct (rule_matches (target req)) eqn:Hmatch.
  - assert (Hcontrol : control_rule (target req) = true).
    { unfold rule_matches in Hmatch. unfold control_rule in *.
      destruct (endswith (target req) RUN_URI); [reflexivity|].
      destruct (startswith (target req) APPS_URI); [reflexivity|].
      destruct (endswith (target req) HIDE_URI); [reflexivity|].
      cbn in *. congruence. }
    destruct (handle_request_handled (make_handler req) (command req) _
                (header_Origin req) (header_Host req) w Hmatch) as (_ & Hf & _).
    specialize (Hf Hcontrol).
    destruct (handle_request _ _ _ _ _ w) as [[[]|e] w1]; exact Hf.
  - rewrite (handle_request_unmatched _ _ _ _ _ _ Hmatch). reflexivity.
Qed.

(** *** The registry invariant *)

Lemma retrieve_dial_data_apps (app_name : string) (w : World) :
  APPS (retrieve_dial_data app_name w).2 = APPS w.
Proof.
  unfold retrieve_dial_data, bind, file_exists, load_file_def, lift, ret. cbn.
  destruct (bool_decide _); cbn; [|reflexivity].
  destruct (FILES w !! _); reflexivity.
Qed.

Lemma registry_ok_classes (apps apps' : list DialApp) :
  cls <$> apps' = cls <$> apps -> registry_ok apps -> registry_ok apps'.
Proof.
  intros Hcls [Hnodup Hids]. unfold registry_ok.
  assert (Hnames : forall g : AppClass -> option string,
             (fun a => g (cls a)) <$> apps' = (fun a => g (cls a)) <$> apps).
  { intros g. rewrite !(list_fmap_compose cls g). f_equal. exact Hcls. }
  split; [rewrite (Hnames DIAL_APP_NAME); exact Hnodup|].
  apply Forall_fmap with (f := cls)
    (P := fun c => truthy_str (KODI_ADDON_ID c) = true /\ truthy_str (DIAL_APP_NAME c) = true).
  rewrite Hcls. apply Forall_fmap. exact Hids.
Qed.

(** X23.  The registry stays well formed: [register_app] never brings in a
    second application under a name that is taken, nor one without an
    add-on id or a name, whatever the class it is given and whether or not
    the stored data can be loaded; and no request disturbs this. *)
Theorem registry_stays_well_formed :
  registry_ok []
  /\ (forall (c : AppClass) (w : World),
        registry_ok (APPS w) -> registry_ok (APPS (register_app c w).2))
  /\ (forall (req : Request) (w : World),
        registry_ok (APPS w) -> registry_ok (APPS (serve req w))).
Proof.
  split; [split; [apply NoDup_nil_2|apply Forall_nil_2]|]. split.
  - intros c w [Hnodup Hids]. unfold register_app.
    destruct (truthy_str (KODI_ADDON_ID c)) eqn:Hid; [|split; assumption].
    destruct (truthy_str (DIAL_APP_NAME c)) eqn:Hname; [|split; assumption].
    cbn [negb orb]. unfold bind at 1, get_APPS at 1.
    destruct (list_find _ (APPS w)) as [[j b]|] eqn:Hfind; [split; assumption|].
    pose proof (retrieve_dial_data_apps (default "" (DIAL_APP_NAME c)) w) as Happs.
    unfold bind at 1.
    destruct (retrieve_dial_data _ w) as [[data|e] w1]; cbn in Happs;
      [|cbn; rewrite Happs; split; assumption].
    unfold bind, APPS_append, LOGGER. cbn. rewrite Happs. split.
    + rewrite fmap_app. apply NoDup_app. split; [exact Hnodup|].
      split; [|apply NoDup_singleton].
      intros name Hin Hnew. apply list_elem_of_singleton in Hnew. subst name.
      apply list_elem_of_fmap in Hin as (a & Ha & Hin).
      apply list_find_None in Hfind.
      apply (proj1 (Forall_forall _ _) Hfind a Hin). symmetry. exact Ha.
    + apply Forall_app. split; [exact Hids|].
      apply Forall_singleton. cbn. split; assumption.
  - intros req w. apply registry_ok_classes. apply route_keeps_classes.
Qed.

(** *** Origins that are not [https] *)

Lemma is_uri_in_list_loop_plain (origin : string) (matches : string -> bool)
    (origin_list : list string) :
  (forall candidate, candidate ∈ origin_list ->
                     re_match candidate origin = Ok (matches candidate)) ->
  is_uri_in_list_loop false origin origin_list = Ok (existsb matches origin_list).
Proof.
  induction origin_list as [|candidate rest IH]; intros Hm; [reflexivity|].
  cbn [is_uri_in_list_loop existsb]. unfold origin_matches.
  rewrite (Hm candidate) by (apply elem_of_cons; left; reflexivity).
  cbn [res_bind]. destruct (matches candidate); [reflexivity|].
  apply IH. intros c Hc. apply Hm. apply elem_of_cons. right. exact Hc.
Qed.

(** X24.  For an origin that does not start with [https://], the Origin
    Validator is a search: the origin is allowed exactly when an
    application registered under the requested name declares a pattern
    that [re.match] accepts at the start of the origin ([matches] stands
    for the outcome of [re.match] on the patterns of those applications,
    which must all compile).  The lock is taken for the search and free
    again afterwards. *)
Theorem plain_origin_allowed_iff_pattern_matches (origin app_name : string)
    (matches : string -> bool) (w : World) :
  origin <> "" ->
  startswith origin "https://" = false ->
  MUTEX w = false ->
  (forall a candidate,
      a ∈ APPS w -> DIAL_APP_NAME (cls a) = Some app_name ->
      candidate ∈ DIAL_ORIGINS (cls a) ->
      re_match candidate origin = Ok (matches candidate)) ->
  is_allowed_origin (Some origin) app_name w
  = (Ok (some_pattern_matches matches app_name (APPS w)), w).
Proof.
  intros Hne Hplain Hm Hmatch.
  assert (Hloop : is_allowed_origin_loop origin app_name (APPS w)
                  = Ok (some_pattern_matches matches app_name (APPS w))).
  { unfold some_pattern_matches.
    induction (APPS w) as [|a apps IH]; [reflexivity|].
    cbn [is_allowed_origin_loop existsb].
    assert (IH' : is_allowed_origin_loop origin app_name apps
                  = Ok (existsb (fun a => bool_decide (DIAL_APP_NAME (cls a) = Some app_name)
                                          && existsb matches (DIAL_ORIGINS (cls a))) apps)).
    { apply IH. intros b c Hb. apply Hmatch. apply elem_of_cons. right. exact Hb. }
    destruct (decide (DIAL_APP_NAME (cls a) = Some app_name)) as [Hname|Hname].
    - rewrite bool_decide_eq_true_2 by (symmetry; exact Hname).
      rewrite (bool_decide_eq_true_2 _ Hname). cbn [andb].
      assert (Hlist : is_uri_in_list origin (DIAL_ORIGINS (cls a))
                      = Ok (existsb matches (DIAL_ORIGINS (cls a)))).
      { unfold is_uri_in_list. rewrite Hplain.
        destruct origin as [|c origin]; [contradiction|].
        destruct (DIAL_ORIGINS (cls a)) as [|p ps] eqn:Hps; [reflexivity|].
        cbn [truthy_str truthy_list negb orb].
        apply is_uri_in_list_loop_plain. intros candidate Hc.
        apply (Hmatch a); [apply elem_of_cons; left; reflexivity|exact Hname|].
        rewrite Hps. exact Hc. }
      destruct (DIAL_ORIGINS (cls a)) as [|p ps] eqn:Hps; [exact IH'|].
      cbn [truthy_list]. rewrite Hlist. cbn [res_bind].
      destruct (existsb matches (p :: ps)); [reflexivity|exact IH'].
    - rewrite bool_decide_eq_false_2 by (intros Heq; apply Hname; symmetry; exact Heq).
      rewrite (bool_decide_eq_false_2 _ Hname). exact IH'. }
  unfold is_allowed_origin. destruct origin as [|c origin]; [contradiction|].
  step (run_acquire Hm). unfold bind at 1, get_APPS at 1. cbn [APPS set_MUTEX].
  rewrite bind_lift, Hloop. compute_run w. reflexivity.
Qed.

Lemma bind_Raise {A B} (m : M A) (f : A -> M B) (w w' : World) (e : PyExc) :
  m w = (Raise e, w') -> bind m f w = (Raise e, w').
Proof. intros Hm. unfold bind. rewrite Hm. reflexivity. Qed.

(** X25.  When a pattern the Origin Validator reaches does not compile
    ([re.match] raises), the exception leaves [is_allowed_origin] between
    its [acquire] and its [release]: the request is answered with 500 by
    [route], the registry is as before, and the lock stays held. *)
Theorem broken_pattern_keeps_lock (req : Request) (op : Operation) (name : string)
    (w : World) (e : PyExc) :
  dispatch req = Some (op, name) ->
  truthy_str (header_Origin req) = true ->
  MUTEX w = false -> wfile w = [] ->
  is_allowed_origin_loop (default "" (header_Origin req)) name (APPS w) = Raise e ->
  status_codes (serve req w) = [500]
  /\ APPS (serve req w) = APPS w
  /\ MUTEX (serve req w) = true.
Proof.
  intros Hd Ho Hm Hfresh Hloop.
  assert (Hrun : handle_request (make_handler req) (command req) (target req)
                   (header_Origin req) (header_Host req) w
                 = (Raise e, set_MUTEX true w)).
  { assert (Hcheck : origin_refused (header_Origin req) name w = (Raise e, set_MUTEX true w)).
    { unfold origin_refused. rewrite Ho. unfold is_allowed_origin.
      destruct (header_Origin req) as [[|c o]|]; try discriminate Ho.
      rewrite bind_assoc. step (run_acquire Hm).
      rewrite bind_assoc. unfold bind at 1, get_APPS at 1. cbn [APPS set_MUTEX].
      change (default "" (Some (String c o))) with (String c o) in Hloop.
      rewrite bind_assoc, bind_lift, Hloop. reflexivity. }
    revert Hd. unfold dispatch, handle_request.
    destruct (reaches_handle_request req); [|discriminate]. cbn [negb].
    destruct (endswith (target req) RUN_URI).
    { destruct (index_from_end _ 2) as [segment|e']; [|discriminate].
      rewrite bind_lift. destruct (_ && _); [|discriminate].
      intros [= <- <-]. exact (bind_Raise _ _ _ _ _ Hcheck). }
    destruct (startswith (target req) APPS_URI).
    { destruct (String.eqb (command req) "OPTIONS"); [discriminate|].
      destruct (String.eqb (command req) "POST");
        [|destruct (String.eqb (command req) "GET"); [|discriminate]];
        intros [= <- <-]; exact (bind_Raise _ _ _ _ _ Hcheck). }
    destruct (endswith (target req) HIDE_URI).
    { destruct (index_from_end _ 2) as [segment|e']; [|discriminate].
      rewrite bind_lift. destruct (_ && _); [|discriminate].
      intros [= <- <-]. exact (bind_Raise _ _ _ _ _ Hcheck). }
    destruct (endswith (target req) DIAL_DATA_URI); [|discriminate].
    change (client_address (make_handler req)) with (client_ip req).
    destruct (_ || _); [|discriminate].
    destruct (index_from_end _ 2) as [segment|e']; [|discriminate].
    rewrite bind_lift. destruct (truthy_str (Some segment)); [|discriminate].
    cbn [andb negb]. destruct (negb _); [|discriminate].
    intros [= <- <-]. exact (bind_Raise _ _ _ _ _ Hcheck). }
  unfold status_codes, serve. rewrite (route_reaches _ _ (dispatch_reaches _ _ _ Hd)).
  unfold try_except. rewrite Hrun. compute_run w. auto.
Qed.

End DialServer.

(** ** Properties of the helpers *)

(** *** Strings *)

Lemma string_app_cons (c : ascii) (s t : string) : String c s +:+ t = String c (s +:+ t).
Proof. reflexivity. Qed.

Lemma string_app_nil_l (s : string) : "" +:+ s = s.
Proof. reflexivity. Qed.

Lemma string_app_nil_r (s : string) : s +:+ "" = s.
Proof.
  induction s as [|c s IH]; [reflexivity|]. rewrite string_app_cons, IH. reflexivity.
Qed.

Lemma string_app_assoc (s t u : string) : (s +:+ t) +:+ u = s +:+ t +:+ u.
Proof.
  induction s as [|c s IH]; [reflexivity|]. rewrite !string_app_cons, IH. reflexivity.
Qed.

(** Induction on a string through its length, for functions that take two
    characters at a time. *)
Lemma string_length_ind (P : string -> Prop) :
  (forall s, (forall t, (String.length t < String.length s)%nat -> P t) -> P s) ->
  forall s, P s.
Proof.
  intros Hstep s. apply Hstep.
  induction s as [|c s IH]; intros t Hlt; [inversion Hlt|].
  apply Hstep. intros u Hu. apply IH. simpl in Hlt. lia.
Qed.

(** *** [fix_return_chars] *)

Lemma splitlines_lines (s : string) : Forall (fun line => one_line line = true) (splitlines s).
Proof.
  induction s as [s IH] using string_length_ind.
  destruct s as [|c r]; [constructor|].
  cbn [splitlines]. destruct (is_line_boundary c) eqn:Hc.
  - destruct r as [|c2 r2]; [repeat constructor|].
    destruct (Ascii.eqb c "013" && Ascii.eqb c2 "010");
      (constructor; [reflexivity|apply IH; simpl; lia]).
  - pose proof (IH r ltac:(simpl; lia)) as Hr.
    destruct (splitlines r) as [|line lines].
    + repeat constructor. simpl. rewrite Hc. reflexivity.
    + inversion Hr as [|? ? Hline Hlines]; subst.
      constructor; [|exact Hlines]. simpl. rewrite Hc, Hline. reflexivity.
Qed.

Lemma crlf_only_after_line (line rest : string) :
  one_line line = true -> crlf_only (line +:+ rest) = crlf_only rest.
Proof.
  induction line as [|c line IH]; [reflexivity|].
  simpl. destruct (is_line_boundary c); [discriminate|]. exact IH.
Qed.

Lemma crlf_only_join (lines : list string) :
  Forall (fun line => one_line line = true) lines -> crlf_only (join CRLF lines) = true.
Proof.
  induction 1 as [|line lines Hline Hlines IH]; [reflexivity|].
  cbn [join]. destruct lines as [|next lines].
  - rewrite <- (string_app_nil_r line). rewrite (crlf_only_after_line _ _ Hline). reflexivity.
  - rewrite (crlf_only_after_line _ _ Hline). exact IH.
Qed.

Lemma splitlines_nonempty (s : string) : s <> "" -> splitlines s <> [].
Proof.
  destruct s as [|c r]; [contradiction|]. intros _. simpl.
  destruct (is_line_boundary c).
  - destruct r as [|c2 r2]; [discriminate|].
    destruct (Ascii.eqb c "013" && Ascii.eqb c2 "010"); discriminate.
  - destruct (splitlines r); discriminate.
Qed.

Lemma join_blank_line (sep : string) (lines : list string) :
  lines <> [] -> join sep ("" :: lines) = sep +:+ join sep lines.
Proof. destruct lines as [|line lines]; [contradiction|reflexivity]. Qed.

Lemma join_cons_char (sep : string) (c : ascii) (line : string) (lines : list string) :
  join sep (String c line :: lines) = String c (join sep (line :: lines)).
Proof. destruct lines as [|next lines]; reflexivity. Qed.

Lemma fix_return_chars_crlf_text (s : string) : fix_return_chars s = crlf_text s.
Proof.
  unfold fix_return_chars.
  induction s as [s IH] using string_length_ind.
  destruct s as [|c r]; [reflexivity|].
  cbn [splitlines crlf_text]. destruct (is_line_boundary c).
  - destruct r as [|c2 r2]; [reflexivity|].
    destruct (Ascii.eqb c "013" && Ascii.eqb c2 "010").
    + destruct r2 as [|c3 r3]; [reflexivity|].
      rewrite join_blank_line by (apply splitlines_nonempty; discriminate).
      rewrite (IH (String c3 r3)) by (simpl; lia). reflexivity.
    + rewrite join_blank_line by (apply splitlines_nonempty; discriminate).
      rewrite (IH (String c2 r2)) by (simpl; lia). reflexivity.
  - rewrite <- (IH r) by (simpl; lia).
    destruct (splitlines r) as [|line lines]; [reflexivity|].
    apply join_cons_char.
Qed.

Lemma line_characters_crlf_text (s : string) :
  line_characters (crlf_text s) = line_characters s.
Proof.
  induction s as [s IH] using string_length_ind.
  destruct s as [|c r]; [reflexivity|].
  cbn [crlf_text line_characters]. destruct (is_line_boundary c) eqn:Hc.
  - destruct r as [|c2 r2]; [reflexivity|].
    destruct (Ascii.eqb c "013" && Ascii.eqb c2 "010") eqn:Hpair.
    + apply andb_true_iff in Hpair as (_ & Hlf). apply Ascii.eqb_eq in Hlf. subst c2.
      destruct r2 as [|c3 r3]; [reflexivity|].
      change (line_characters (crlf_text (String c3 r3)) = line_characters (String c3 r3)).
      apply IH. simpl. lia.
    + change (line_characters (crlf_text (String c2 r2)) = line_characters (String c2 r2)).
      apply IH. simpl. lia.
  - cbn [line_characters]. rewrite Hc. f_equal. apply IH. simpl. lia.
Qed.

(** X26.  What [fix_return_chars] does to a text, character by character:
    it copies every character that is no line boundary, turns every line
    break that text follows (LF, CR, CR LF as one, VT, FF, FS, GS, RS,
    NEL) into CR LF, and drops a line break that ends the text.  So the
    characters other than line boundaries are those of the text, in their
    order, and the only line breaks of the result are CR LF pairs. *)
Theorem fix_return_chars_line_breaks (string_value : string) :
  fix_return_chars string_value = crlf_text string_value
  /\ line_characters (fix_return_chars string_value) = line_characters string_value
  /\ crlf_only (fix_return_chars string_value) = true.
Proof.
  split; [apply fix_return_chars_crlf_text|split].
  - rewrite fix_return_chars_crlf_text. apply line_characters_crlf_text.
  - apply crlf_only_join, splitlines_lines.
Qed.

Lemma splitlines_one_line (s : string) :
  one_line s = true -> s <> "" -> splitlines s = [s].
Proof.
  induction s as [|c r IH]; [contradiction|].
  simpl. destruct (is_line_boundary c); [discriminate|]. cbn [negb andb].
  intros Hr _. destruct r as [|c2 r2]; [reflexivity|].
  rewrite (IH Hr) by discriminate. reflexivity.
Qed.

(** A text without line boundaries comes out of [fix_return_chars] as it
    is. *)
Lemma fix_return_chars_keeps_one_line (string_value : string) :
  one_line string_value = true -> fix_return_chars string_value = string_value.
Proof.
  intros Hs. unfold fix_return_chars.
  destruct string_value as [|c r]; [reflexivity|].
  rewrite (splitlines_one_line _ Hs) by discriminate. reflexivity.
Qed.

Lemma string_app_nonempty (u : string) (c : ascii) (r : string) : u +:+ String c r <> "".
Proof. destruct u; discriminate. Qed.

Lemma splitlines_final_blank_line (u : string) (c : ascii) :
  is_line_boundary c = false ->
  splitlines (u +:+ String c (String "010" (String "010" "")))
  = splitlines (u +:+ String c "") ++ [""].
Proof.
  intros Hc.
  assert (Hlf : Ascii.eqb c "010" = false).
  { destruct (Ascii.eqb c "010") eqn:Heq; [|reflexivity].
    apply Ascii.eqb_eq in Heq. subst c. discriminate Hc. }
  induction u as [u IH] using string_length_ind.
  destruct u as [|a u].
  - rewrite !string_app_nil_l. simpl. rewrite Hc. reflexivity.
  - rewrite !string_app_cons. cbn [splitlines]. destruct (is_line_boundary a) eqn:Ha.
    + destruct u as [|b u].
      * rewrite !string_app_nil_l. rewrite Hlf, andb_false_r.
        rewrite <- (string_app_nil_l (String c (String "010" (String "010" "")))).
        rewrite <- (string_app_nil_l (String c "")).
        rewrite (IH "") by (simpl; lia). reflexivity.
      * rewrite !string_app_cons. destruct (Ascii.eqb a "013" && Ascii.eqb b "010").
        -- rewrite (IH u) by (simpl; lia). reflexivity.
        -- rewrite <- !string_app_cons. rewrite (IH (String b u)) by (simpl; lia).
           reflexivity.
    + rewrite (IH u) by (simpl; lia).
      pose proof (splitlines_nonempty _ (string_app_nonempty u c "")) as Hne.
      destruct (splitlines (u +:+ String c "")); [contradiction|reflexivity].
Qed.

Lemma join_final_blank_line (sep : string) (lines : list string) :
  lines <> [] -> join sep (lines ++ [""]) = join sep lines +:+ sep.
Proof.
  induction lines as [|line lines IH]; [contradiction|]. intros _.
  destruct lines as [|next lines].
  - simpl. rewrite string_app_nil_r. reflexivity.
  - change (join sep ((line :: next :: lines) ++ [""]))
      with (line +:+ sep +:+ join sep ((next :: lines) ++ [""])).
    rewrite IH by discriminate.
    change (join sep (line :: next :: lines)) with (line +:+ sep +:+ join sep (next :: lines)).
    rewrite !string_app_assoc. reflexivity.
Qed.

(** X27.  The blank line that ends a message is lost: for a text whose
    last character is no line boundary, followed by two line feeds (as the
    SSDP and device-descriptor templates are), [fix_return_chars] returns
    the converted text followed by a single CR LF, not by the CR LF CR LF
    that ends an HTTP header block. *)
Theorem fix_return_chars_final_blank_line (u : string) (c : ascii) :
  is_line_boundary c = false ->
  fix_return_chars (u +:+ String c (String "010" (String "010" "")))
  = fix_return_chars (u +:+ String c "") +:+ CRLF.
Proof.
  intros Hc. unfold fix_return_chars.
  rewrite (splitlines_final_blank_line u c Hc).
  apply join_final_blank_line, splitlines_nonempty, string_app_nonempty.
Qed.

(** *** [is_less_version] *)

Lemma list_lt_irrefl (x : list Z) : list_lt x x = false.
Proof. induction x as [|a x IH]; [reflexivity|]. simpl. rewrite Z.eqb_refl. exact IH. Qed.

Lemma list_lt_trans (x y z : list Z) :
  list_lt x y = true -> list_lt y z = true -> list_lt x z = true.
Proof.
  revert y z. induction x as [|a x IH]; intros [|b y] [|c z]; simpl; try congruence.
  destruct (Z.eqb_spec a b) as [->|Hab], (Z.eqb_spec b c) as [->|Hbc].
  - apply IH.
  - intros _ Hlt. exact Hlt.
  - rewrite (proj2 (Z.eqb_neq _ _) Hab). intros Hlt _. exact Hlt.
  - intros Hlt1 Hlt2. apply Z.ltb_lt in Hlt1, Hlt2.
    rewrite (proj2 (Z.eqb_neq a c)) by lia. apply Z.ltb_lt. lia.
Qed.

Lemma list_lt_total (x y : list Z) : x <> y -> list_lt x y = true \/ list_lt y x = true.
Proof.
  revert y. induction x as [|a x IH]; intros [|b y] Hne; simpl;
    [contradiction|left; reflexivity|right; reflexivity|].
  destruct (Z.eqb_spec a b) as [->|Hab].
  - rewrite Z.eqb_refl. apply IH. congruence.
  - rewrite (proj2 (Z.eqb_neq b a)) by lia.
    destruct (Z.ltb_spec a b); [left; reflexivity|right; apply Z.ltb_lt; lia].
Qed.

Section Versions.
Context {builtins : Builtins}.

Lemma split_nonempty (sep : ascii) (s : string) : split sep s <> [].
Proof.
  destruct s as [|a r]; [discriminate|]. simpl.
  destruct (Ascii.eqb a sep); [discriminate|]. destruct (split sep r); discriminate.
Qed.

Lemma split_app_sep (sep : ascii) (s t : string) :
  split sep (s +:+ String sep t) = split sep s ++ split sep t.
Proof.
  induction s as [|a r IH].
  - rewrite string_app_nil_l. simpl. rewrite Ascii.eqb_refl. reflexivity.
  - rewrite string_app_cons. cbn [split]. rewrite IH.
    destruct (Ascii.eqb a sep); [reflexivity|].
    pose proof (split_nonempty sep r) as Hne.
    destruct (split sep r); [contradiction|reflexivity].
Qed.

Lemma map_res_app {A B} (f : A -> Res B) (l1 l2 : list A) (y1 y2 : list B) :
  map_res f l1 = Ok y1 -> map_res f l2 = Ok y2 -> map_res f (l1 ++ l2) = Ok (y1 ++ y2).
Proof.
  revert y1. induction l1 as [|a l1 IH]; intros y1; simpl.
  - intros [= <-] H2. exact H2.
  - destruct (f a) as [b|e]; [|discriminate]. cbn [res_bind].
    destruct (map_res f l1) as [ys|e]; [|discriminate]. cbn [res_bind].
    intros [= <-] H2. rewrite (IH ys eq_refl H2). reflexivity.
Qed.

Lemma list_lt_snoc (x : list Z) (n : Z) : list_lt x (x ++ [n]) = true.
Proof. induction x as [|a x IH]; [reflexivity|]. simpl. rewrite Z.eqb_refl. exact IH. Qed.

(** X28.  On versions whose components [int] reads, [is_less_version] is a
    strict total order of the lists of components: no version is less than
    itself, the relation is transitive, and of two versions with different
    lists of components one is less than the other.  A proper prefix is
    smaller, so a version is less than itself with [.0] appended: [3.24]
    is less than [3.24.0]. *)
Theorem is_less_version_strict_order (a b c : string) (x y z : list Z) :
  map_res int (split "." a) = Ok x ->
  map_res int (split "." b) = Ok y ->
  map_res int (split "." c) = Ok z ->
  is_less_version a a = Ok false
  /\ (is_less_version a b = Ok true -> is_less_version b c = Ok true ->
      is_less_version a c = Ok true)
  /\ (x <> y -> is_less_version a b = Ok true \/ is_less_version b a = Ok true)
  /\ (forall zero, int "0" = Ok zero -> is_less_version a (a +:+ ".0") = Ok true).
Proof.
  intros Ha Hb Hc. unfold is_less_version. rewrite Ha, Hb, Hc. cbn [res_bind].
  split; [rewrite list_lt_irrefl; reflexivity|]. split; [|split].
  - intros [= Hxy] [= Hyz]. rewrite (list_lt_trans _ _ _ Hxy Hyz). reflexivity.
  - intros Hne. destruct (list_lt_total x y Hne) as [-> | ->]; auto.
  - intros zero Hzero.
    change (a +:+ ".0") with (a +:+ String "." "0").
    rewrite split_app_sep.
    rewrite (map_res_app int _ _ x [zero] Ha) by (simpl; rewrite Hzero; reflexivity).
    cbn [res_bind]. rewrite list_lt_snoc. reflexivity.
Qed.

End Versions.

(** *** [sql_filtered_insert] and [sql_filtered_update] *)

Section Sql.
Context {V : Type}.

Lemma bound_columns_snoc (cs : list string) (vs : SqlValues V) (c : string) (v : option V) :
  length cs = length vs ->
  bound_columns (cs ++ [c]) (vs ++ [v])
  = bound_columns cs vs ++ (if v is Some _ then [(c, v)] else []).
Proof.
  intros Hlen. unfold bound_columns.
  rewrite zip_with_app by exact Hlen. rewrite filter_app. f_equal.
  destruct v; reflexivity.
Qed.

Lemma bound_columns_take (cs : list string) (vs tail : SqlValues V) :
  length cs = length vs -> bound_columns cs (vs ++ tail) = bound_columns cs vs.
Proof.
  intros Hlen. unfold bound_columns. f_equal.
  revert vs Hlen. induction cs as [|c cs IH]; intros [|v vs] Hlen; try discriminate Hlen.
  - destruct tail; reflexivity.
  - simpl. f_equal. apply IH. simpl in Hlen. lia.
Qed.

(** The loop over the first [length cs] positions, whatever follows them in
    either list. *)
Lemma drop_None_loop_spec (cs : list string) (vs : SqlValues V)
    (tail_columns : list string) (tail_values : SqlValues V) :
  length cs = length vs ->
  drop_None_loop (rev (seq 0 (length cs))) (cs ++ tail_columns) (vs ++ tail_values)
  = Ok ((bound_columns cs vs).*1 ++ tail_columns, (bound_columns cs vs).*2 ++ tail_values).
Proof.
  unfold SqlValues in *. revert vs tail_columns tail_values.
  induction cs as [|c cs IH] using rev_ind; intros vs tail_columns tail_values Hlen.
  - destruct vs; [reflexivity|discriminate Hlen].
  - destruct vs as [|v vs _] using rev_ind;
      [rewrite length_app in Hlen; simpl in Hlen; lia|].
    rewrite !length_app in Hlen. simpl in Hlen.
    assert (Hlen' : length cs = length vs) by lia.
    rewrite length_app. simpl. rewrite Nat.add_1_r, seq_S, rev_app_distr. simpl.
    rewrite <- !app_assoc. simpl.
    rewrite (bound_columns_snoc _ _ _ _ Hlen').
    replace ((vs ++ v :: tail_values) !! length cs) with (Some v)
      by (rewrite Hlen', list_lookup_middle; reflexivity).
    destruct v as [x|].
    + rewrite (IH vs (c :: tail_columns) (Some x :: tail_values) Hlen').
      rewrite !fmap_app, <- !app_assoc. reflexivity.
    + unfold SqlValues. rewrite delete_middle. rewrite Hlen', delete_middle, <- Hlen'.
      rewrite (IH vs tail_columns tail_values Hlen').
      rewrite !app_nil_r. reflexivity.
Qed.

(** X29.  With at least as many values as columns to set, the loop of
    [sql_filtered_insert] and [sql_filtered_update] removes exactly the
    columns whose value is [None], together with those values: the columns
    that remain are in their order, each still at the position of its own
    value, the values after those of the columns (the ones of the [WHERE]
    clause) are untouched, and [sql_filtered_insert] writes one [?] for
    each column that remains. *)
Theorem sql_filtered_keeps_bound_columns (table : string) (set_columns where_columns : list string)
    (values : SqlValues V) :
  (length set_columns <= length values)%nat ->
  let kept := bound_columns set_columns values in
  let rest := drop (length set_columns) values in
  drop_None set_columns values = Ok (kept.*1, kept.*2 ++ rest)
  /\ Forall is_Some kept.*2
  /\ sql_filtered_insert table set_columns values
     = Ok ("INSERT INTO " +:+ table +:+ " (" +:+ join ", " kept.*1
             +:+ ") VALUES (" +:+ join ", " (replicate (length kept.*2) "?") +:+ ")",
           kept.*2 ++ rest)
  /\ sql_filtered_update table set_columns where_columns values
     = Ok ("UPDATE " +:+ table +:+ " SET "
             +:+ join ", " (map (fun col => col +:+ " = ?") kept.*1)
             +:+ " WHERE " +:+ join " AND " (map (fun col => col +:+ " = ?") where_columns),
           kept.*2 ++ rest).
Proof.
  intros Hlen kept rest.
  assert (Hrun : drop_None set_columns values = Ok (kept.*1, kept.*2 ++ rest)).
  { unfold drop_None, kept, rest.
    rewrite <- (take_drop (length set_columns) values) at 1.
    rewrite <- (app_nil_r set_columns) at 2.
    assert (Htake : length set_columns = length (take (length set_columns) values))
      by (rewrite length_take; lia).
    rewrite (drop_None_loop_spec _ _ _ _ Htake), app_nil_r.
    rewrite <- (bound_columns_take set_columns _ (drop (length set_columns) values) Htake).
    rewrite take_drop. reflexivity. }
  split; [exact Hrun|]. split.
  - unfold kept, bound_columns. apply Forall_fmap.
    apply Forall_forall. intros cv Hin. apply list_elem_of_filter in Hin as [Hsome _].
    exact Hsome.
  - unfold sql_filtered_insert, sql_filtered_update. rewrite Hrun. cbn [res_bind].
    rewrite !length_fmap. split; reflexivity.
Qed.

(** X30.  With fewer values than columns to set, the first read of
    [values[index]] is out of range: both functions raise [IndexError]
    before either list is changed. *)
Theorem sql_filtered_short_values_raise (table : string) (set_columns where_columns : list string)
    (values : SqlValues V) :
  (length values < length set_columns)%nat ->
  drop_None set_columns values = Raise IndexError
  /\ sql_filtered_insert table set_columns values = Raise IndexError
  /\ sql_filtered_update table set_columns where_columns values = Raise IndexError.
Proof.
  intros Hlen.
  assert (Hrun : drop_None set_columns values = Raise IndexError).
  { unfold drop_None. destruct set_columns as [|c cs] using rev_ind; [inversion Hlen|].
    rewrite length_app in *. cbn [length] in *.
    rewrite Nat.add_1_r, seq_S, rev_app_distr. cbn [rev app Nat.add drop_None_loop].
    unfold SqlValues in *.
    rewrite (lookup_ge_None_2 values (length cs)) by lia. reflexivity. }
  unfold sql_filtered_insert, sql_filtered_update. rewrite Hrun. auto.
Qed.

End Sql.

(** ** Worked examples on the reference implementation *)

#[local] Existing Instance Reference.python.
#[local] Existing Instance Reference.kodi.

(** C1 on the origin [https://evil.example:8443] and an application that
    declares the one pattern [https://good.example]. *)
Lemma https_origin_always_passes_witness :
  DIAL_ORIGINS
    (Samples.test_class ["https://good.example"] (Ok 2) (Ok 0) (Ok 3))
  = ["https://good.example"]
  /\ fst (is_allowed_origin (Some "https://evil.example:8443") "Test"
            (Samples.world false
               (Samples.test_class ["https://good.example"] (Ok 2) (Ok 0) (Ok 3))))
     = Ok true.
Proof.
  split; [reflexivity|].
  rewrite (proj2 (https_origin_always_passes "https://evil.example:8443" "Test" 0%nat
                    (Samples.instance
                       (Samples.test_class ["https://good.example"] (Ok 2) (Ok 0) (Ok 3)))
                    (Samples.world false
                       (Samples.test_class ["https://good.example"] (Ok 2) (Ok 0) (Ok 3)))
                    eq_refl eq_refl eq_refl ltac:(discriminate))).
  reflexivity.
Defined.

(** The round trip of C10 on the mapping [{"a": "1", "b": "2"}] stored for
    the application [X]. *)
Lemma store_retrieve_roundtrip_witness :
  json_loads (json_dumps [("a", "1"); ("b", "2")]) = Ok [("a", "1"); ("b", "2")]
  /\ fst (retrieve_dial_data "X"
            (snd (store_dial_data "X" [("a", "1"); ("b", "2")] Samples.empty_world)))
     = Ok [("a", "1"); ("b", "2")].
Proof.
  assert (Hcodec : json_loads (json_dumps [("a", "1"); ("b", "2")])
                   = Ok [("a", "1"); ("b", "2")]) by (vm_compute; reflexivity).
  split; [exact Hcodec|].
  rewrite (proj1 (store_retrieve_roundtrip "X" [("a", "1"); ("b", "2")]
                    Samples.empty_world Hcodec)).
  reflexivity.
Defined.


(** C5 on [POST /apps/Test] with the body [v=1], the start callback
    answering [ERROR_FORBIDDEN]. *)
Lemma forbidden_start_sends_400_witness :
  dial_cb_start (Samples.test_class [] (Ok DialStatus.ERROR_FORBIDDEN) (Ok 0) (Ok 3))
    "v=1" [] None = Ok DialStatus.ERROR_FORBIDDEN
  /\ status_codes
       (serve (Samples.request "POST" "/apps/Test" Samples.phone None
                 (list_byte_of_string "v=1"))
          (Samples.world false
             (Samples.test_class [] (Ok DialStatus.ERROR_FORBIDDEN) (Ok 0) (Ok 3))))
     = [400].
Proof.
  split; [reflexivity|].
  refine (proj2 (forbidden_start_sends_400 _ "Test" 0%nat
                   (Samples.instance
                      (Samples.test_class [] (Ok DialStatus.ERROR_FORBIDDEN) (Ok 0) (Ok 3)))
                   _ _ _ _ _ _ _ _ _ _));
    vm_compute; reflexivity.
Defined.

(** C2 on [POST /apps/Test] with the two bytes of a UTF-8 encoded accented
    letter as body. *)
Lemma non_ascii_payload_sends_500_witness :
  all_ascii [xc3; xa9] = false
  /\ status_codes
       (serve (Samples.request "POST" "/apps/Test" Samples.phone None [xc3; xa9])
          (Samples.world false Samples.plain)) = [500]
  /\ MUTEX
       (serve (Samples.request "POST" "/apps/Test" Samples.phone None [xc3; xa9])
          (Samples.world false Samples.plain)) = true.
Proof.
  split; [reflexivity|].
  refine (non_ascii_payload_sends_500 _ OpStart "Test" 0%nat
            (Samples.instance Samples.plain) _ _ _ _ _ _ _ _ _);
    try (vm_compute; reflexivity).
  left. reflexivity.
Defined.


(** C3 on [DELETE /apps/Test/run] for an application whose status callback
    raises, followed by [GET /apps/Test] on a new connection. *)
Lemma callback_exception_keeps_lock_witness :
  status_codes
    (serve (Samples.request "DELETE" "/apps/Test/run" Samples.phone None [])
       (Samples.world false
          (Samples.test_class [] (Ok 2) (Raise (AppError "boom")) (Ok 3)))) = [500]
  /\ MUTEX
       (serve (Samples.request "DELETE" "/apps/Test/run" Samples.phone None [])
          (Samples.world false
             (Samples.test_class [] (Ok 2) (Raise (AppError "boom")) (Ok 3)))) = true
  /\ status_codes
       (serve (Samples.request "GET" "/apps/Test" Samples.phone None [])
          (new_connection
             (serve (Samples.request "DELETE" "/apps/Test/run" Samples.phone None [])
                (Samples.world false
                   (Samples.test_class [] (Ok 2) (Raise (AppError "boom")) (Ok 3))))))
     = [500].
Proof.
  destruct (callback_exception_keeps_lock
              (Samples.request "DELETE" "/apps/Test/run" Samples.phone None [])
              OpStop "Test" 0%nat
              (Samples.instance
                 (Samples.test_class [] (Ok 2) (Raise (AppError "boom")) (Ok 3)))
              (Samples.world false
                 (Samples.test_class [] (Ok 2) (Raise (AppError "boom")) (Ok 3)))
              (AppError "boom"))
    as (Hcode & _ & Hheld & Hnext);
    [vm_compute; reflexivity ..|apply status_raises_in_stop; reflexivity|].
  split; [exact Hcode|]. split; [exact Hheld|].
  refine (Hnext (Samples.request "GET" "/apps/Test" Samples.phone None [])
            OpStatus "Test" _ _); vm_compute; reflexivity.
Defined.

(** A body with a control character, which is ASCII but not printable, is
    accepted by the start handler: [is_ascii] checks no more than [decode]
    does. *)
Lemma control_character_payload_accepted :
  status_codes
    (serve (Samples.request "POST" "/apps/Test" Samples.phone None [x01])
       (Samples.world false Samples.plain)) = [201].
Proof. vm_compute. reflexivity. Qed.

(** C6 on [GET /apps/Test?clientDialVer=2.09]: the version is below [2.1]
    and the application, whose status callback answers [HIDE], is reported as
    hidden. *)
Lemma hidden_reported_from_2_09_witness :
  float_of_str "2.09" = Ok lit_2_09
  /\ PrimFloat.ltb lit_2_09 Samples.lit_2_1 = true
  /\ wfile
       (serve (Samples.request "GET" "/apps/Test?clientDialVer=2.09" Samples.phone None [])
          (Samples.world false
             (Samples.test_class [] (Ok DialStatus.RUNNING) (Ok DialStatus.HIDE)
                (Ok DialStatus.ERROR_NOT_IMPLEMENTED))))
     = [STATUS_RESPONSE None "2.2" "Test" "true" "hidden" run_link (CRLF +:+ "  ")].
Proof.
  split; [vm_compute; reflexivity|]. split; [vm_compute; reflexivity|].
  refine (proj1 (hidden_reported_from_2_09 _ "Test" 0%nat
                   (Samples.instance
                      (Samples.test_class [] (Ok DialStatus.RUNNING) (Ok DialStatus.HIDE)
                         (Ok DialStatus.ERROR_NOT_IMPLEMENTED)))
                   _ "2.09" lit_2_09 _ _ _ _ _ _ _ _ _ _));
    vm_compute; reflexivity.
Defined.

(** C7 on [POST /apps/Test] without an [Origin] header while the lock is
    held. *)
Lemma held_lock_answer_witness :
  status_codes
    (serve (Samples.request "POST" "/apps/Test" Samples.phone None [])
       (Samples.world true Samples.plain)) = [500]
  /\ APPS (serve (Samples.request "POST" "/apps/Test" Samples.phone None [])
             (Samples.world true Samples.plain))
     = APPS (Samples.world true Samples.plain).
Proof.
  destruct (held_lock_answer
              (Samples.request "POST" "/apps/Test" Samples.phone None [])
              OpStart "Test" (Samples.world true Samples.plain))
    as (Hcode & Happs & _); try (vm_compute; reflexivity).
  split; [exact Hcode|exact Happs].
Defined.

(** The same request with an [Origin] header is answered with 403, not with
    500: the origin check runs first and cannot take the lock. *)
Lemma held_lock_with_origin_answers_403 :
  dispatch (Samples.request "POST" "/apps/Test" Samples.phone
              (Some "http://phone.example") [])
  = Some (OpStart, "Test")
  /\ MUTEX (Samples.world true
              (Samples.test_class ["http://phone.example"] (Ok 2) (Ok 0) (Ok 3))) = true
  /\ wfile
       (serve (Samples.request "POST" "/apps/Test" Samples.phone
                 (Some "http://phone.example") [])
          (Samples.world true
             (Samples.test_class ["http://phone.example"] (Ok 2) (Ok 0) (Ok 3))))
     = [ErrorResponse 403 "Forbidden"].
Proof. vm_compute. auto. Qed.

(** C4 on [POST /Test/dial_data] from the loopback address: the body
    [a=1&b=2] is answered with 200 and stored as the empty mapping; the body
    [?a=1&b=2&a=3] is stored as [{"a": "1", "b": "2"}]; the body [//[?a=1],
    which [urlparse] refuses, is answered with 500 and the lock stays held;
    and the request from another address is answered with 404. *)
Lemma dial_data_post_stored_witness :
  (status_codes
     (serve (Samples.request "POST" "/Test/dial_data" "127.0.0.1" None
               (list_byte_of_string "a=1&b=2"))
        (Samples.world false Samples.plain)) = [200]
   /\ dial_data <$> APPS
        (serve (Samples.request "POST" "/Test/dial_data" "127.0.0.1" None
                  (list_byte_of_string "a=1&b=2"))
           (Samples.world false Samples.plain)) = [[]])
  /\ (dial_data <$> APPS
        (serve (Samples.request "POST" "/Test/dial_data" "127.0.0.1" None
                  (list_byte_of_string "?a=1&b=2&a=3"))
           (Samples.world false Samples.plain)) = [[("a", "1"); ("b", "2")]])
  /\ (status_codes
        (serve (Samples.request "POST" "/Test/dial_data" "127.0.0.1" None
                  (list_byte_of_string "//[?a=1"))
           (Samples.world false Samples.plain)) = [500]
      /\ MUTEX
           (serve (Samples.request "POST" "/Test/dial_data" "127.0.0.1" None
                     (list_byte_of_string "//[?a=1"))
              (Samples.world false Samples.plain)) = true)
  /\ status_codes
       (serve (Samples.request "POST" "/Test/dial_data" Samples.phone None
                 (list_byte_of_string "a=1&b=2"))
          (Samples.world false Samples.plain)) = [404].
Proof.
  assert (Hbare : urlparse "a=1&b=2" = Ok (mkParseResult "a=1&b=2" ""))
    by (vm_compute; reflexivity).
  assert (Hquery : urlparse "?a=1&b=2&a=3" = Ok (mkParseResult "" "a=1&b=2&a=3"))
    by (vm_compute; reflexivity).
  assert (Hrefused : urlparse "//[?a=1" = Raise ValueError) by (vm_compute; reflexivity).
  destruct (dial_data_post_stored
              (Samples.request "POST" "/Test/dial_data" "127.0.0.1" None
                 (list_byte_of_string "a=1&b=2"))
              "Test" 0%nat (Samples.instance Samples.plain)
              (Samples.world false Samples.plain) DialStatus.STOPPED)
    as [Hstored Hother]; try (vm_compute; reflexivity).
  change (string_of_list_byte _) with "a=1&b=2" in Hstored. rewrite Hbare in Hstored.
  destruct Hstored as (_ & Hcode & _ & Happs & _); [constructor|].
  destruct (dial_data_post_stored
              (Samples.request "POST" "/Test/dial_data" "127.0.0.1" None
                 (list_byte_of_string "?a=1&b=2&a=3"))
              "Test" 0%nat (Samples.instance Samples.plain)
              (Samples.world false Samples.plain) DialStatus.STOPPED)
    as [Hstored _]; try (vm_compute; reflexivity).
  change (string_of_list_byte _) with "?a=1&b=2&a=3" in Hstored. rewrite Hquery in Hstored.
  destruct Hstored as (_ & _ & _ & Happs2 & _);
    [vm_compute; repeat constructor; discriminate|].
  destruct (dial_data_post_stored
              (Samples.request "POST" "/Test/dial_data" "127.0.0.1" None
                 (list_byte_of_string "//[?a=1"))
              "Test" 0%nat (Samples.instance Samples.plain)
              (Samples.world false Samples.plain) DialStatus.STOPPED)
    as [Hstored _]; try (vm_compute; reflexivity).
  change (string_of_list_byte _) with "//[?a=1" in Hstored. rewrite Hrefused in Hstored.
  destruct Hstored as (Hcode3 & _ & _ & Hheld).
  split; [split; [exact Hcode|rewrite Happs; vm_compute; reflexivity]|].
  split; [rewrite Happs2; vm_compute; reflexivity|].
  split; [split; [exact Hcode3|exact Hheld]|].
  apply Hother; vm_compute; reflexivity.
Defined.

(** Dial-data requests the handler does not store as form data: a [GET]
    whose query string is the payload is answered with 500, stores nothing
    and leaves the lock held; a [POST] whose [Origin] the application does
    not allow is answered with 403; and a body that is the form data
    itself, with no [?] before it, is answered with 200 but stored as the
    empty mapping. *)
Lemma dial_data_not_stored_as_form_data :
  (dispatch (Samples.request "GET" "/Test/dial_data?a=1&b=2" "127.0.0.1" None [])
   = Some (OpDialData, "Test")
   /\ status_codes
        (serve (Samples.request "GET" "/Test/dial_data?a=1&b=2" "127.0.0.1" None [])
           (Samples.world false Samples.plain)) = [500]
   /\ dial_data <$> APPS
        (serve (Samples.request "GET" "/Test/dial_data?a=1&b=2" "127.0.0.1" None [])
           (Samples.world false Samples.plain)) = [[]]
   /\ MUTEX
        (serve (Samples.request "GET" "/Test/dial_data?a=1&b=2" "127.0.0.1" None [])
           (Samples.world false Samples.plain)) = true)
  /\ status_codes
       (serve (Samples.request "POST" "/Test/dial_data" "127.0.0.1"
                 (Some "http://phone.example") (list_byte_of_string "?a=1&b=2"))
          (Samples.world false Samples.plain)) = [403]
  /\ (status_codes
        (serve (Samples.request "POST" "/Test/dial_data" "127.0.0.1" None
                  (list_byte_of_string "a=1&b=2"))
           (Samples.world false Samples.plain)) = [200]
      /\ dial_data <$> APPS
           (serve (Samples.request "POST" "/Test/dial_data" "127.0.0.1" None
                     (list_byte_of_string "a=1&b=2"))
              (Samples.world false Samples.plain)) = [[]]).
Proof. vm_compute. repeat split; reflexivity. Qed.

(** ** Worked examples for the further properties *)

#[local] Existing Instance ReferenceBuiltins.builtins.



(** X26 on a header block in the shape of the SSDP templates: the line
    feeds inside become CR LF and the one that ends the text is dropped. *)
Lemma fix_return_chars_line_breaks_witness :
  fix_return_chars ("EXT:" +:+ String "010" ("ST: dial" +:+ String "010" ""))
  = "EXT:" +:+ CRLF +:+ "ST: dial".
Proof.
  rewrite (proj1 (fix_return_chars_line_breaks _)). reflexivity.
Defined.

(** X2 on a [DELETE] for the descriptor that carries an [Origin] header
    and arrives while the lock is held. *)
Lemma device_descriptor_always_served_witness :
  wfile (serve (Samples.request "DELETE" "/ssdp/device-desc.xml" Samples.phone
                  (Some "http://phone.example") [])
           (Samples.world true Samples.plain))
  = [DD_XML "192.168.1.20" 56789 "Kodi (AppCast)" " " "MyDeviceModel"
       "00000000-0000-0000-0000-000000000000"].
Proof.
  refine (eq_trans (f_equal wfile (device_descriptor_always_served _ _ _)) _);
    vm_compute; reflexivity.
Defined.

(** X3 on [OPTIONS /apps/Test]. *)
Lemma options_answered_by_router_witness :
  wfile (serve (Samples.request "OPTIONS" "/apps/Test" Samples.phone None [])
           (Samples.world false Samples.plain))
  = [OPTIONS_RESPONSE None "GET, POST, OPTIONS"].
Proof.
  refine (eq_trans
            (f_equal wfile
               (proj1 (options_answered_by_router _ "Test" "GET, POST, OPTIONS" _ _ _ _))) _);
    vm_compute; reflexivity.
Defined.

(** X4 on [PUT /apps/Test]. *)
Lemma unsupported_method_answers_501_witness :
  status_codes (serve (Samples.request "PUT" "/apps/Test" Samples.phone None [])
                  (Samples.world false Samples.plain)) = [501].
Proof.
  refine (eq_trans
            (f_equal status_codes (unsupported_method_answers_501 _ "Test" _ _ _ _)) _);
    vm_compute; reflexivity.
Defined.


(** X6 on [POST /apps/Test] with the body [v=1], the start callback
    answering [RUNNING]. *)
Lemma start_running_answers_201_witness :
  wfile (serve (Samples.request "POST" "/apps/Test" Samples.phone None
                  (list_byte_of_string "v=1"))
           (Samples.world false Samples.plain))
  = [CREATED_RESPONSE "192.168.1.20" 56789 "Test" None]
  /\ APPS (serve (Samples.request "POST" "/apps/Test" Samples.phone None
                    (list_byte_of_string "v=1"))
             (Samples.world false Samples.plain)) !! 0%nat
     = Some (mkDialApp Samples.plain None DialStatus.RUNNING (Some "v=1") []).
Proof.
  destruct (start_running_answers_201
              (Samples.request "POST" "/apps/Test" Samples.phone None
                 (list_byte_of_string "v=1"))
              "Test" 0%nat (Samples.instance Samples.plain)
              (Samples.world false Samples.plain))
    as (Hout & _ & _ & Happ & _); try (vm_compute; reflexivity).
  split; [exact Hout|exact Happ].
Defined.

(** X7 on the same request when the start callback answers [ERROR], as the
    reference application does while its add-on is disabled. *)
Lemma failed_start_keeps_last_payload_witness :
  last_payload <$>
    APPS (serve (Samples.request "POST" "/apps/Test" Samples.phone None
                   (list_byte_of_string "v=1"))
            (Samples.world false
               (Samples.test_class [] (Ok DialStatus.ERROR) (Ok 0) (Ok 3)))) !! 0%nat
  = Some None
  /\ APPS (serve (Samples.request "POST" "/apps/Test" Samples.phone None
                    (list_byte_of_string "v=1"))
             (Samples.world false
                (Samples.test_class [] (Ok DialStatus.ERROR) (Ok 0) (Ok 3))))
     = [mkDialApp (Samples.test_class [] (Ok DialStatus.ERROR) (Ok 0) (Ok 3))
          None DialStatus.ERROR None []].
Proof.
  destruct (failed_start_keeps_last_payload
              (Samples.request "POST" "/apps/Test" Samples.phone None
                 (list_byte_of_string "v=1"))
              "Test" 0%nat
              (Samples.instance (Samples.test_class [] (Ok DialStatus.ERROR) (Ok 0) (Ok 3)))
              (Samples.world false
                 (Samples.test_class [] (Ok DialStatus.ERROR) (Ok 0) (Ok 3)))
              DialStatus.ERROR)
    as (_ & Happs & Hpayload & _); try (vm_compute; reflexivity); [discriminate|].
  split; [exact Hpayload|exact Happs].
Defined.

(** X8 on [DELETE /apps/Test/run] for an application that reports
    [RUNNING]. *)
Lemma stop_answers_200_witness :
  wfile (serve (Samples.request "DELETE" "/apps/Test/run" Samples.phone None [])
           (Samples.world false (Samples.test_class [] (Ok 2) (Ok 2) (Ok 3))))
  = [STOP_RESPONSE None]
  /\ state <$>
       APPS (serve (Samples.request "DELETE" "/apps/Test/run" Samples.phone None [])
               (Samples.world false (Samples.test_class [] (Ok 2) (Ok 2) (Ok 3)))) !! 0%nat
     = Some DialStatus.STOPPED.
Proof.
  destruct (stop_answers_200
              (Samples.request "DELETE" "/apps/Test/run" Samples.phone None [])
              "Test" 0%nat (Samples.instance (Samples.test_class [] (Ok 2) (Ok 2) (Ok 3)))
              (Samples.world false (Samples.test_class [] (Ok 2) (Ok 2) (Ok 3)))
              DialStatus.RUNNING)
    as (Hout & _ & _ & Hstate & _); try (vm_compute; reflexivity); [discriminate|].
  split; [exact Hout|exact Hstate].
Defined.

(** X9 on [POST /Test/hide] for the reference application, whose
    status callback always reports [STOPPED]: the answer is 404, not 501. *)
Lemma idle_application_answers_404_witness :
  status_codes (serve (Samples.request "POST" "/Test/hide" Samples.phone None [])
                  (Samples.world false Samples.plain)) = [404].
Proof.
  refine (eq_trans
            (f_equal status_codes
               (idle_application_answers_404 _ OpHide "Test" 0%nat
                  (Samples.instance Samples.plain) _ DialStatus.STOPPED _ _ _ _ _ _)) _);
    try (vm_compute; reflexivity).
  right. split; [reflexivity|]. split; discriminate.
Defined.

(** X10 on [POST /Test/hide] for an application that reports
    [RUNNING] and whose hide callback answers [ERROR_NOT_IMPLEMENTED]. *)
Lemma hide_answer_witness :
  status_codes (serve (Samples.request "POST" "/Test/hide" Samples.phone None [])
                  (Samples.world false (Samples.test_class [] (Ok 2) (Ok 2) (Ok 3))))
  = [501]
  /\ state <$>
       APPS (serve (Samples.request "POST" "/Test/hide" Samples.phone None [])
               (Samples.world false (Samples.test_class [] (Ok 2) (Ok 2) (Ok 3)))) !! 0%nat
     = Some DialStatus.RUNNING.
Proof.
  destruct (hide_answer
              (Samples.request "POST" "/Test/hide" Samples.phone None [])
              "Test" 0%nat (Samples.instance (Samples.test_class [] (Ok 2) (Ok 2) (Ok 3)))
              (Samples.world false (Samples.test_class [] (Ok 2) (Ok 2) (Ok 3)))
              DialStatus.RUNNING DialStatus.ERROR_NOT_IMPLEMENTED)
    as (Hcode & Hstate & _); try (vm_compute; reflexivity); [left; reflexivity|].
  split; [exact Hcode|exact Hstate].
Defined.

(** X11 on [GET /apps/Nope], a name nothing is registered under. *)
Lemma unknown_application_answers_404_witness :
  status_codes (serve (Samples.request "GET" "/apps/Nope" Samples.phone None [])
                  (Samples.world false Samples.plain)) = [404].
Proof.
  refine (eq_trans
            (f_equal status_codes
               (unknown_application_answers_404 _ OpStatus "Nope" _ 0%float _ _ _ _ _)) _);
    vm_compute; reflexivity.
Defined.

(** X12 on [POST /apps/Test] with an [Origin] header, for the reference
    application, which declares no origin. *)
Lemma undeclared_origin_answers_403_witness :
  status_codes (serve (Samples.request "POST" "/apps/Test" Samples.phone
                         (Some "http://phone.example") [])
                  (Samples.world false Samples.plain)) = [403].
Proof.
  refine (eq_trans
            (f_equal status_codes
               (undeclared_origin_answers_403 _ OpStart "Test" _ _ _ _ _)) _);
    try (vm_compute; reflexivity).
  repeat constructor.
Defined.

(** X13 on [GET /apps/Test?clientDialVer=abc]. *)
Lemma unreadable_client_version_answers_500_witness :
  status_codes (serve (Samples.request "GET" "/apps/Test?clientDialVer=abc" Samples.phone
                         None [])
                  (Samples.world false Samples.plain)) = [500]
  /\ MUTEX (serve (Samples.request "GET" "/apps/Test?clientDialVer=abc" Samples.phone
                     None [])
              (Samples.world false Samples.plain)) = false.
Proof.
  rewrite (unreadable_client_version_answers_500
             (Samples.request "GET" "/apps/Test?clientDialVer=abc" Samples.phone None [])
             "Test" (Samples.world false Samples.plain) ValueError);
    try (vm_compute; reflexivity).
  split; reflexivity.
Defined.

(** X14 on [GET /apps/Test] for an application that holds one value of
    9000 letters. *)
Lemma oversized_status_data_answers_500_witness :
  status_codes (serve (Samples.request "GET" "/apps/Test" Samples.phone None [])
                  (Samples.world_with_data Samples.plain [("k", Samples.long_value)]))
  = [500].
Proof.
  refine (eq_trans
            (f_equal status_codes
               (oversized_status_data_answers_500 _ "Test" 0%nat
                  (mkDialApp Samples.plain None DialStatus.STOPPED None
                     [("k", Samples.long_value)]) _ 0%float _ _ _ _ _ _)) _);
    vm_compute; reflexivity.
Defined.


(** X16 on [GET /Test/dial_data?a=1] from the loopback address. *)
Lemma dial_data_without_body_answers_500_witness :
  status_codes (serve (Samples.request "GET" "/Test/dial_data?a=1" "127.0.0.1" None [])
                  (Samples.world false Samples.plain)) = [500]
  /\ MUTEX (serve (Samples.request "GET" "/Test/dial_data?a=1" "127.0.0.1" None [])
              (Samples.world false Samples.plain)) = true.
Proof.
  destruct (dial_data_without_body_answers_500
              (Samples.request "GET" "/Test/dial_data?a=1" "127.0.0.1" None [])
              "Test" 0%nat (Samples.instance Samples.plain)
              (Samples.world false Samples.plain) DialStatus.STOPPED)
    as (Hcode & _ & _ & _ & Hheld); try (vm_compute; reflexivity).
  split; [exact Hcode|exact Hheld].
Defined.

(** X17 on a start request for an application registered under a name of
    987 letters. *)
Lemma long_name_start_answers_500_witness :
  get_string_size Samples.long_name = 987
  /\ status_codes
       (serve (Samples.request "POST" ("/apps/" +:+ Samples.long_name) Samples.phone None [])
          (Samples.world false Samples.long_named)) = [500].
Proof.
  split; [vm_compute; reflexivity|].
  refine (eq_trans
            (f_equal status_codes
               (long_name_start_answers_500 _ Samples.long_name 0%nat
                  (Samples.instance Samples.long_named) _ _ _ _ _ _ _ _ _)) _);
    vm_compute; reflexivity.
Defined.

(** X18 on [GET /apps/Test] for an application whose status callback
    answers [ERROR]. *)
Lemma error_state_reported_stopped_with_link_witness :
  wfile (serve (Samples.request "GET" "/apps/Test" Samples.phone None [])
           (Samples.world false (Samples.test_class [] (Ok 2) (Ok DialStatus.ERROR) (Ok 3))))
  = [STATUS_RESPONSE None "2.2" "Test" "true" "stopped" run_link (CRLF +:+ "  ")].
Proof.
  refine (proj1 (error_state_reported_stopped_with_link _ "Test" 0%nat
                   (Samples.instance
                      (Samples.test_class [] (Ok 2) (Ok DialStatus.ERROR) (Ok 3)))
                   _ 0%float DialStatus.ERROR _ _ _ _ _ _ _ _ _ _ _));
    try (vm_compute; reflexivity); discriminate.
Defined.

(** X19 on [GET /apps/Test], which returns. *)
Lemma returning_handler_restores_lock_witness :
  MUTEX (handle_request
           (make_handler (Samples.request "GET" "/apps/Test" Samples.phone None []))
           "GET" "/apps/Test" None None (Samples.world false Samples.plain)).2 = false.
Proof.
  refine (eq_trans (returning_handler_restores_lock _ _ _ _ _ _ _) _);
    vm_compute; reflexivity.
Defined.

(** X22 on [POST /apps/Test]. *)
Lemma only_dial_data_writes_files_witness :
  FILES (serve (Samples.request "POST" "/apps/Test" Samples.phone None
                  (list_byte_of_string "v=1"))
           (Samples.world false Samples.plain)) = ∅.
Proof.
  refine (eq_trans (only_dial_data_writes_files _ _ _) _); vm_compute; reflexivity.
Defined.

(** X24 on the origin [http://phone.example] and an application that
    declares it as its second pattern. *)
Lemma plain_origin_allowed_iff_pattern_matches_witness :
  (is_allowed_origin (Some "http://phone.example") "Test"
     (Samples.world false
        (Samples.test_class ["http://tv.example"; "http://phone.example"]
           (Ok 2) (Ok 0) (Ok 3)))).1
  = Ok true.
Proof.
  rewrite (plain_origin_allowed_iff_pattern_matches "http://phone.example" "Test"
             (String.eqb "http://phone.example")
             (Samples.world false
                (Samples.test_class ["http://tv.example"; "http://phone.example"]
                   (Ok 2) (Ok 0) (Ok 3))));
    try (vm_compute; reflexivity); [discriminate|].
  intros a candidate Ha _ Hc.
  apply list_elem_of_singleton in Ha. subst a.
  apply elem_of_cons in Hc as [->|Hc]; [vm_compute; reflexivity|].
  apply list_elem_of_singleton in Hc. subst candidate. vm_compute. reflexivity.
Defined.

(** X25 on [POST /apps/Test] with an [Origin] header, for an application
    whose one pattern is an unclosed group. *)
Lemma broken_pattern_keeps_lock_witness :
  status_codes (serve (Samples.request "POST" "/apps/Test" Samples.phone
                         (Some "http://phone.example") [])
                  (Samples.world false (Samples.test_class ["("] (Ok 2) (Ok 0) (Ok 3))))
  = [500]
  /\ MUTEX (serve (Samples.request "POST" "/apps/Test" Samples.phone
                     (Some "http://phone.example") [])
              (Samples.world false (Samples.test_class ["("] (Ok 2) (Ok 0) (Ok 3))))
     = true.
Proof.
  destruct (broken_pattern_keeps_lock
              (Samples.request "POST" "/apps/Test" Samples.phone
                 (Some "http://phone.example") [])
              OpStart "Test"
              (Samples.world false (Samples.test_class ["("] (Ok 2) (Ok 0) (Ok 3)))
              ReError)
    as (Hcode & _ & Hheld); try (vm_compute; reflexivity).
  split; [exact Hcode|exact Hheld].
Defined.

(** X27 on a header line followed by the blank line of the templates. *)
Lemma fix_return_chars_final_blank_line_witness :
  fix_return_chars ("EXT:" +:+ String "010" ("ST: dial" +:+ String "010" (String "010" "")))
  = "EXT:" +:+ CRLF +:+ "ST: dial" +:+ CRLF.
Proof.
  refine (eq_trans
            (fix_return_chars_final_blank_line ("EXT:" +:+ String "010" "ST: dia")
               "l"%char _) _);
    vm_compute; reflexivity.
Defined.

(** X28 on the versions [3.8.2], [3.24.0] and [3.31]. *)
Lemma is_less_version_strict_order_witness :
  is_less_version "3.8.2" "3.8.2" = Ok false
  /\ is_less_version "3.8.2" "3.31" = Ok true
  /\ is_less_version "3.8.2" "3.8.2.0" = Ok true.
Proof.
  destruct (is_less_version_strict_order "3.8.2" "3.24.0" "3.31" [3; 8; 2] [3; 24; 0] [3; 31])
    as (Hirrefl & Htrans & _ & Hzero); try (vm_compute; reflexivity).
  split; [exact Hirrefl|]. split; [apply Htrans; vm_compute; reflexivity|].
  apply (Hzero 0). vm_compute. reflexivity.
Defined.

(** X29 on three columns, the second one without a value, and one value
    for the [WHERE] clause. *)
Lemma sql_filtered_keeps_bound_columns_witness :
  sql_filtered_update "T" ["a"; "b"; "c"] ["id"] [Some 1; None; Some 3; Some 9]
  = Ok ("UPDATE T SET a = ?, c = ? WHERE id = ?", [Some 1; Some 3; Some 9])
  /\ sql_filtered_insert "T" ["a"; "b"; "c"] [Some 1; None; Some 3]
     = Ok ("INSERT INTO T (a, c) VALUES (?, ?)", [Some 1; Some 3]).
Proof.
  split.
  - refine (eq_trans
              (proj2 (proj2 (proj2 (sql_filtered_keeps_bound_columns "T" ["a"; "b"; "c"]
                                      ["id"] [Some 1; None; Some 3; Some 9] _)))) _).
    + simpl. lia.
    + vm_compute. reflexivity.
  - refine (eq_trans
              (proj1 (proj2 (proj2 (sql_filtered_keeps_bound_columns "T" ["a"; "b"; "c"]
                                      [] [Some 1; None; Some 3] _)))) _).
    + simpl. lia.
    + vm_compute. reflexivity.
Defined.

(** X30 on two columns and one value. *)
Lemma sql_filtered_short_values_raise_witness :
  sql_filtered_insert "T" ["a"; "b"] [Some 1] = Raise IndexError.
Proof.
  refine (proj1 (proj2 (sql_filtered_short_values_raise "T" ["a"; "b"] [] [Some 1] _))).
  simpl. lia.
Defined.
